(** * NDAS report parser: a shallow embedding of [NDAS_sample_program.py]

    The development follows the class [piping_system]: the line scanner
    [parse_raw_data] (section boundaries, comment parameters, geometry
    cards), the load-case scanner [parse_load_cases], the connectivity and
    coordinate extractors, the endpoint lookups of the two plot loops, the
    tube-mesh geometry of [get_stress_plot] and the stress-ratio summary.

    Text is modelled as Python sees it after decoding the file with the
    cp1252 codec: a line is a list of 8-bit characters, one [ascii] per
    decoded character.  Integers are [Z], stress ratios and the mesh
    geometry are binary64 floats; Python exceptions are values of an error
    monad. *)

From Stdlib Require Import ZArith List Ascii String Bool Lia Floats DecimalString.
From Stdlib Require Import Uint63.
From stdpp Require Import base option list gmap strings.

#[local] Set Warnings "-inexact-float".

Local Open Scope Z_scope.
Local Open Scope list_scope.

(** ** Python strings *)

Abbreviation str := (list ascii).

(** A string literal of the source. *)
Definition lit (s : string) : str := list_ascii_of_string s.

Module Py.

(** The line feed and the control character U+0001. *)
Definition LF : ascii := "010"%char.
Definition SOH : ascii := "001"%char.

(** [len(s)] *)
Definition len {A} (s : list A) : Z := Z.of_nat (length s).

(** Normalisation of a slice bound, as CPython's [PySlice_AdjustIndices]
    does it for step 1: a negative bound counts from the end, and the result
    is clamped to [0, len]. *)
Definition adjust (n i : Z) : Z :=
  if i <? 0 then Z.max 0 (i + n) else Z.min i n.

(** [s[a:b]] *)
Definition slice {A} (a b : Z) (s : list A) : list A :=
  let n := len s in
  let a' := adjust n a in
  let b' := adjust n b in
  take (Z.to_nat (b' - a')) (drop (Z.to_nat a') s).

(** [s[a:]] *)
Definition slice_from {A} (a : Z) (s : list A) : list A :=
  drop (Z.to_nat (adjust (len s) a)) s.

(** [s[:b]] *)
Definition slice_to {A} (b : Z) (s : list A) : list A :=
  take (Z.to_nat (adjust (len s) b)) s.

(** [s.startswith(sub)] *)
Fixpoint startswith (sub s : str) : bool :=
  match sub, s with
  | [], _ => true
  | _ :: _, [] => false
  | a :: sub', b :: s' => if decide (a = b) then startswith sub' s' else false
  end.

(** [s.find(sub)], counted from offset [i] of the original string. *)
Fixpoint find_at (i : Z) (sub s : str) : Z :=
  if startswith sub s then i
  else match s with
       | [] => -1
       | _ :: s' => find_at (i + 1) sub s'
       end.

Definition find (sub s : str) : Z := find_at 0 sub s.

(** [sub in s] *)
Definition contains (sub s : str) : bool := 0 <=? find sub s.

(** [s.replace(c, new)] for a one-character pattern [c]; every call of
    [replace] in the source has a one-character first argument. *)
Definition replace (c : ascii) (new : str) (s : str) : str :=
  flat_map (fun x => if decide (x = c) then new else [x]) s.

(** [c.isspace()] on the characters cp1252 can decode to: TAB, LF, VT, FF,
    CR, the separators U+001C..U+001F, space and the no-break space. *)
Definition isspace (c : ascii) : bool :=
  let n := N.to_nat (N_of_ascii c) in
  ((9 <=? n)%nat && (n <=? 13)%nat)
  || ((28 <=? n)%nat && (n <=? 32)%nat)
  || (n =? 160)%nat.

Fixpoint lstrip (s : str) : str :=
  match s with
  | [] => []
  | c :: s' => if isspace c then lstrip s' else s
  end.

Definition rstrip (s : str) : str := rev (lstrip (rev s)).

(** [s.strip()] *)
Definition strip (s : str) : str := rstrip (lstrip s).

(** A character with a Unicode numeric value: the decimal digits, and the
    cp1252 characters superscript two, three and one and the fractions one
    quarter, one half and three quarters. *)
Definition isnumeric_char (c : ascii) : bool :=
  let n := N.to_nat (N_of_ascii c) in
  ((48 <=? n)%nat && (n <=? 57)%nat)
  || (n =? 178)%nat || (n =? 179)%nat || (n =? 185)%nat
  || ((188 <=? n)%nat && (n <=? 190)%nat).

(** [s.isnumeric()]: every character numeric, and at least one. *)
Definition isnumeric (s : str) : bool :=
  match s with
  | [] => false
  | _ => forallb isnumeric_char s
  end.

(** [x in l] for a Python list of strings. *)
Definition mem (x : str) (l : list str) : bool := bool_decide (x ∈ l).

End Py.

(** ** Exceptions *)

Inductive exn : Set :=
| AttributeError
| IndexError
| KeyError
| ValueError.

Inductive res (A : Type) : Type :=
| Ok (a : A)
| Raise (e : exn).

Arguments Ok {A} a.
Arguments Raise {A} e.

Global Instance exn_eq_dec : EqDecision exn.
Proof. solve_decision. Defined.

Global Instance res_ret : MRet res := fun A a => Ok a.

Global Instance res_bind : MBind res := fun A B k m =>
  match m with
  | Ok a => k a
  | Raise e => Raise e
  end.

(** [try: m except e: h] *)
Definition try_except {A} (m : res A) (e : exn) (h : res A) : res A :=
  match m with
  | Ok a => Ok a
  | Raise e' => if decide (e' = e) then h else Raise e'
  end.

(** ** Python lists and loops *)

(** [l[-k]] for [k >= 1]: [IndexError] when the list is shorter than [k]. *)
Definition neg_index {A : Type} (l : list A) (k : nat) : res A :=
  if (k <=? length l)%nat
  then match l !! (length l - k)%nat with
       | Some x => Ok x
       | None => Raise IndexError
       end
  else Raise IndexError.

(** [l[-k] = x] *)
Definition neg_assign {A : Type} (l : list A) (k : nat) (x : A) : res (list A) :=
  if (k <=? length l)%nat
  then Ok (<[(length l - k)%nat := x]> l)
  else Raise IndexError.

(** [for i, x in enumerate(l)], started at index [i]. *)
Fixpoint for_enumerate {St A : Type} (body : St -> nat -> A -> St)
    (i : nat) (l : list A) (st : St) : St :=
  match l with
  | [] => st
  | x :: l' => for_enumerate body (S i) l' (body st i x)
  end.

(** A [for] loop whose body may raise. *)
Fixpoint for_each {St A : Type} (body : St -> A -> res St)
    (l : list A) (st : St) : res St :=
  match l with
  | [] => Ok st
  | x :: l' => st' ← body st x; for_each body l' st'
  end.

(** [for i, x in enumerate(l)] with a body that may raise. *)
Fixpoint for_enumerate_res {St A : Type} (body : St -> nat -> A -> res St)
    (i : nat) (l : list A) (st : St) : res St :=
  match l with
  | [] => Ok st
  | x :: l' => st' ← body st i x; for_enumerate_res body (S i) l' st'
  end.

(** ** [parse_raw_data]: constants *)

Definition stress_analysis_keyword : str := lit "ALL     STRESS ANALYSIS".

Definition pipe_stress_summary_keyword : str := lit "    CONDITION      LEVEL     END    ELEMENT  STRESS(   PSI) (   PSI)  ALLOWABLE".

Definition pipe_stress_summary_end_keyword : str := lit " APPROVED BY ".

Definition input_card_start_keyword : str := lit "INPUT CARD IMAGES".

Definition input_card_end_keyword : str := lit "         .  +".

Definition end_geometry_keyword_list : list str :=
  [lit "TEA";
   lit "ACE";
   lit "END"].

Definition parameter_start_key : str := lit "***/".

Definition parameter_end_key : str := lit "=".

Definition comment_key : str := lit "***".

Definition coversheet_parameter_list : list str :=
  [lit "ANALYSIS NUMBER";
   lit "ANALYSIS TITLE";
   lit "STATION";
   lit "UNIT NUMBER";
   lit "DISCIPLINE";
   lit "SAFETY CLASS";
   lit "SYSTEM CODE";
   lit "STRUCTURE";
   lit "ANALYSIS REVISION";
   lit "PACKAGE NUMBER";
   lit "PACKAGE REVISION";
   lit "AFFECTED DOCUMENT NUMBER";
   lit "AFFECTED DOCUMENT REVISION";
   lit "DOES ANALYSIS CONTAIN SAFEGUARDS INFORMATION(YER OR NO)?";
   lit "DOES ANALYSIS CONTAIN UNVERIFIED ASSUMPTIONS(YER OR NO)?";
   lit "UNVERIFIED ASSUMPTION TRACKING ORDER";
   lit "SUPERSEDED DOCUMENT";
   lit "PREPARER NAME";
   lit "PREPARER SIGNATURE";
   lit "DATE PREPARED";
   lit "REVIEWER NAME";
   lit "REVIEWER SIGNATURE";
   lit "DATE REVIEWED";
   lit "METHOD OF REVIEW";
   lit "TYPE OF REVIEW";
   lit "EXTERNAL APPROVER NAME";
   lit "EXTERNAL APPROVER SIGNATURE";
   lit "EXTERNAL APPROVAL DATE";
   lit "COMPANY REVIEWER NAME";
   lit "COMPANY REVIEWER SIGNATURE";
   lit "COMPANY REVIEW DATE";
   lit "INDEPENDENT THIRD PARTY REVIEW REQUIRED(YER OR NO)";
   lit "COMPANY APPROVER NAME";
   lit "COMPANY APPROVAL SIGNATURE";
   lit "COMPANY APPROVAL DATE"].

Definition coversheet_set_list : list str :=
  [lit "INPUT DOC";
   lit "FROM/TO";
   lit "COMPONENT"].

Definition long_text_parameter_list : list str :=
  [lit "DESCRIPTION OF CHANGE";
   lit "DESCRIPTION OF REVISION"].

Definition nozzle_analysis_keyword_list : list str :=
  [lit "OD=";
   lit "THI="].

(** ** [parse_raw_data]: section boundaries

    [stress_analysis_line_number] is assigned only where the loop meets the
    stress-analysis marker and has no initial value: its [None] stands for the
    attribute that does not exist, and reading it raises [AttributeError].
    The two summary bounds are initialised to Python's [None] before the
    loop; their [None] is that value. *)

Record boundaries : Type := Boundaries {
  stress_analysis_line_number : option nat;
  pipe_stress_summary_start_line_number : option nat;
  pipe_stress_summary_end_line_number : option nat
}.

(** Before the loop: the summary bounds are [None]; the stress-analysis
    attribute is not created. *)
Definition boundaries_init : boundaries :=
  {| stress_analysis_line_number := None;
     pipe_stress_summary_start_line_number := None;
     pipe_stress_summary_end_line_number := None |}.

Definition boundaries_step (b : boundaries) (line_cnt : nat) (line : str)
    : boundaries :=
  let stress :=
    if Py.contains stress_analysis_keyword line
    then Some line_cnt else stress_analysis_line_number b in
  let start :=
    if Py.contains pipe_stress_summary_keyword line
    then Some line_cnt else pipe_stress_summary_start_line_number b in
  let stop :=
    if bool_decide (start <> None)
       && Py.contains pipe_stress_summary_end_keyword line
    then Some line_cnt else pipe_stress_summary_end_line_number b in
  {| stress_analysis_line_number := stress;
     pipe_stress_summary_start_line_number := start;
     pipe_stress_summary_end_line_number := stop |}.

(** ** [parse_raw_data]: parameters in comment lines *)

(** An entry of [coversheet_parameter_dic]: a string or a list of strings. *)
Inductive pval : Type :=
| PStr (s : str)
| PList (l : list str).

(** [self.coversheet_parameter_dic[key].append(v)] *)
Definition dic_append (dic : gmap str pval) (key v : str)
    : res (gmap str pval) :=
  match dic !! key with
  | Some (PList l) => Ok (<[key := PList (l ++ [v])]> dic)
  | Some (PStr _) => Raise AttributeError
  | None => Raise KeyError
  end.

(** [self.coversheet_parameter_dic[key] += v]; on a list, [+=] with a string
    extends the list by its characters. *)
Definition dic_iadd (dic : gmap str pval) (key v : str)
    : res (gmap str pval) :=
  match dic !! key with
  | Some (PStr s) => Ok (<[key := PStr (s ++ v)]> dic)
  | Some (PList l) => Ok (<[key := PList (l ++ map (fun c => [c]) v)]> dic)
  | None => Raise KeyError
  end.

(** [line[find("***/")+len("***/") : find("=")].strip()] *)
Definition parameter_key_of (line : str) : str :=
  Py.strip
    (Py.slice (Py.find parameter_start_key line + Py.len parameter_start_key)
              (Py.find parameter_end_key line) line).

(** [line[find("=")+1 : len(line)]] *)
Definition parameter_value_of (line : str) : str :=
  Py.slice (Py.find parameter_end_key line + 1) (Py.len line) line.

Definition coversheet_step (dic : gmap str pval) (line : str)
    : res (gmap str pval) :=
  if Py.contains parameter_start_key line then
    let parameter_key := parameter_key_of line in
    let dic1 :=
      if Py.mem parameter_key coversheet_parameter_list
      then <[parameter_key := PStr (Py.strip (parameter_value_of line))]> dic
      else dic in
    dic2 ←
      (if Py.mem parameter_key coversheet_set_list then
         let d :=
           if bool_decide (dic1 !! parameter_key = None)
           then <[parameter_key := PList []]> dic1 else dic1 in
         dic_append d parameter_key (Py.strip (parameter_value_of line))
       else Ok dic1);
    if Py.mem parameter_key long_text_parameter_list then
      let d :=
        if bool_decide (dic2 !! parameter_key = None)
        then <[parameter_key := PStr []]> dic2 else dic2 in
      dic_iadd d parameter_key
        (Py.replace Py.LF [] (parameter_value_of line))
    else Ok dic2
  else Ok dic.

(** ** [parse_raw_data]: the geometry cards *)

(** An entry of [raw_segment_parameter_list]: [[node_id, {key: value}]]. *)
Definition segment_entry : Type := str * gmap str str.

(** An element of [segment_all_endpoints_list]: the string at index 0, or the
    two-element list appended for a card. *)
Inductive endpoints : Type :=
| EpStr (s : str)
| EpPair (from_node to_node : str).

Global Instance endpoints_eq_dec : EqDecision endpoints.
Proof. solve_decision. Defined.

Record geom_state : Type := GeomState {
  parsing_raw_geometry : bool;
  first_single_node_in_this_line : option bool;
  segment_all_endpoints_list : list endpoints;
  raw_segment_parameter_list : list segment_entry
}.

Definition geom_init : geom_state :=
  {| parsing_raw_geometry := false;
     first_single_node_in_this_line := None;
     segment_all_endpoints_list := [EpStr []];
     raw_segment_parameter_list := [] |}.

(** [self.raw_segment_parameter_list[-k][1][key] = value] *)
Definition set_parameter (l : list segment_entry) (k : nat) (key value : str)
    : res (list segment_entry) :=
  e ← neg_index l k;
  neg_assign l k (e.1, <[key := value]> e.2).

(** [self.raw_segment_parameter_list[-k][1][key]] *)
Definition get_parameter (l : list segment_entry) (k : nat) (key : str)
    : res str :=
  e ← neg_index l k;
  match e.2 !! key with
  | Some v => Ok v
  | None => Raise KeyError
  end.

(** Lines 274-325: a card with a non-blank endpoint field. *)
Definition endpoints_step (g : geom_state) (line : str) : res geom_state :=
  if bool_decide (Py.replace " " [] (Py.slice 13 19 line) <> [])
     && negb (Py.contains comment_key line)
  then
    let from_field := Py.strip (Py.slice 13 16 line) in
    let to_field := Py.strip (Py.slice 16 19 line) in
    let all := segment_all_endpoints_list g ++ [EpPair from_field to_field] in
    last1 ← neg_index all 1;
    last2 ← neg_index all 2;
    if bool_decide (last1 <> last2) then
      let present :=
        length (List.filter (fun i => bool_decide (i <> []))
                  [from_field; to_field]) in
      if (present =? 1)%nat
         && bool_decide (first_single_node_in_this_line g = None)
      then
        Ok {| parsing_raw_geometry := parsing_raw_geometry g;
              first_single_node_in_this_line := Some true;
              segment_all_endpoints_list := <[0%nat := EpStr to_field]> all;
              raw_segment_parameter_list :=
                raw_segment_parameter_list g ++ [(to_field, ∅)] |}
      else if (present =? 1)%nat then
        last ← neg_index (raw_segment_parameter_list g) 1;
        let from_node := last.1 in
        Ok {| parsing_raw_geometry := parsing_raw_geometry g;
              first_single_node_in_this_line := Some false;
              segment_all_endpoints_list := all;
              raw_segment_parameter_list :=
                raw_segment_parameter_list g
                  ++ [(from_node, ∅); (to_field, ∅)] |}
      else
        Ok {| parsing_raw_geometry := parsing_raw_geometry g;
              first_single_node_in_this_line := Some false;
              segment_all_endpoints_list := all;
              raw_segment_parameter_list :=
                raw_segment_parameter_list g
                  ++ [(from_field, ∅); (to_field, ∅)] |}
    else
      Ok {| parsing_raw_geometry := parsing_raw_geometry g;
            first_single_node_in_this_line := first_single_node_in_this_line g;
            segment_all_endpoints_list := all;
            raw_segment_parameter_list := raw_segment_parameter_list g |}
  else Ok g.

(** Lines 333-344: the text after [keyword], up to the next comma, or up to
    column 92 when there is none; spaces removed. *)
Definition keyword_value (keyword line : str) : str :=
  let start := Py.find keyword line + Py.len keyword in
  let stop0 := Py.find (lit ",") (Py.slice_from start line) in
  let stop := if stop0 =? -1 then 92 else stop0 + start in
  Py.strip (Py.replace " " [] (Py.slice start stop line)).

(** Lines 370-378: the inheritance branch, with its two handlers (each only
    prints a warning). *)
Definition inherit_parameter (l : list segment_entry) (key : str)
    : res (list segment_entry) :=
  try_except
    (try_except
       (parameter_value ← get_parameter l 3 key;
        l1 ← set_parameter l 2 key parameter_value;
        set_parameter l1 1 key parameter_value)
       IndexError (Ok l))
    KeyError (Ok l).

(** Lines 346-378: the [if]/[elif]/[elif] that attaches a value.  The tests
    are evaluated in the order of the source; [&&] is lazy in its second
    argument, as Python's [and] is. *)
Definition assign_parameter (fs : option bool) (comment_in_line : bool)
    (l : list segment_entry) (key parameter_value : str)
    : res (list segment_entry) :=
  if bool_decide (fs = Some true) then
    set_parameter l 1 key parameter_value
  else if bool_decide (fs = Some false) then
    l1 ← set_parameter l 2 key parameter_value;
    set_parameter l1 1 key parameter_value
  else if negb comment_in_line && bool_decide (fs = Some false) then
    last ← neg_index l 1;
    if bool_decide (last.2 !! key = None)
    then inherit_parameter l key
    else Ok l
  else Ok l.

(** One iteration of [for keyword in self.nozzle_analysis_keyword_list]. *)
Definition keyword_step (fs : option bool) (line : str)
    (l : list segment_entry) (keyword : str) : res (list segment_entry) :=
  if Py.contains keyword line && negb (Py.contains comment_key line) then
    assign_parameter fs (Py.contains comment_key line) l
      (Py.slice_to (-1) keyword) (keyword_value keyword line)
  else Ok l.

(** Lines 262-385: the geometry block of one iteration of the line loop. *)
Definition geometry_step (g : geom_state) (line : str) : res geom_state :=
  g1 ←
    (if parsing_raw_geometry g then
       if Py.contains input_card_end_keyword line
          || Py.mem (Py.slice 10 13 line) end_geometry_keyword_list
       then
         Ok {| parsing_raw_geometry := false;
               first_single_node_in_this_line :=
                 first_single_node_in_this_line g;
               segment_all_endpoints_list := segment_all_endpoints_list g;
               raw_segment_parameter_list := raw_segment_parameter_list g |}
       else
         g' ← endpoints_step g line;
         l ← for_each (keyword_step (first_single_node_in_this_line g') line)
               nozzle_analysis_keyword_list (raw_segment_parameter_list g');
         Ok {| parsing_raw_geometry := parsing_raw_geometry g';
               first_single_node_in_this_line :=
                 first_single_node_in_this_line g';
               segment_all_endpoints_list := segment_all_endpoints_list g';
               raw_segment_parameter_list := l |}
     else Ok g);
  if Py.contains input_card_start_keyword line
  then Ok {| parsing_raw_geometry := true;
             first_single_node_in_this_line :=
               first_single_node_in_this_line g1;
             segment_all_endpoints_list := segment_all_endpoints_list g1;
             raw_segment_parameter_list := raw_segment_parameter_list g1 |}
  else Ok g1.

(** ** [parse_raw_data]: the line loop

    The block that reads the bracketed [THOR NODE] comments writes only
    [THOR_node_dic] and [THOR_input_error] and handles its own exceptions; it
    is left out, as nothing modelled below reads those two attributes. *)

Record raw_state : Type := RawState {
  raw_data_list : list str;
  raw_boundaries : boundaries;
  coversheet_parameter_dic : gmap str pval;
  raw_geometry : geom_state
}.

Definition raw_init : raw_state :=
  {| raw_data_list := [];
     raw_boundaries := boundaries_init;
     coversheet_parameter_dic := ∅;
     raw_geometry := geom_init |}.

Definition raw_step (st : raw_state) (line_cnt : nat) (line : str)
    : res raw_state :=
  let b := boundaries_step (raw_boundaries st) line_cnt line in
  dic ← coversheet_step (coversheet_parameter_dic st) line;
  g ← geometry_step (raw_geometry st) line;
  Ok {| raw_data_list := raw_data_list st ++ [line];
        raw_boundaries := b;
        coversheet_parameter_dic := dic;
        raw_geometry := g |}.

(** [parse_raw_data] on the lines of the file. *)
Definition parse_raw_data (lines : list str) : res raw_state :=
  for_enumerate_res raw_step 0 lines raw_init.

(** ** Invariants of [parse_raw_data] *)

(** The entries of the repeatable keys are lists, those of the multi-line
    keys are strings. *)
Definition dic_typed (d : gmap str pval) : Prop :=
  (forall k s, k ∈ coversheet_set_list -> d !! k <> Some (PStr s))
  /\ (forall k l, k ∈ long_text_parameter_list -> d !! k <> Some (PList l)).

(** The list stored under a repeatable key so far. *)
Definition stored_list (d : gmap str pval) (k : str) : list str :=
  match d !! k with
  | Some (PList l) => l
  | _ => []
  end.

(** The text stored under a multi-line key so far. *)
Definition stored_text (d : gmap str pval) (k : str) : str :=
  match d !! k with
  | Some (PStr s) => s
  | _ => []
  end.

(** The entries that the value of a keyword is attached to exist. *)
Definition params_inv (fs : option bool) (l : list segment_entry) : Prop :=
  (fs = Some true -> (1 <= length l)%nat)
  /\ (fs = Some false -> (2 <= length l)%nat).

(** The endpoint history is never empty. *)
Definition geom_inv (g : geom_state) : Prop :=
  (1 <= length (segment_all_endpoints_list g))%nat
  /\ params_inv (first_single_node_in_this_line g)
       (raw_segment_parameter_list g).

Definition raw_inv (st : raw_state) : Prop :=
  dic_typed (coversheet_parameter_dic st) /\ geom_inv (raw_geometry st).

(** ** [parse_load_cases] *)

Definition load_case_keyword : str := lit "LDCASE=".

Definition load_case_keyword_end : str := lit "(".

(** [line[line.find("LDCASE=")+len("LDCASE=") : line.find("(")]] *)
Definition load_case_name (line : str) : str :=
  Py.slice (Py.find load_case_keyword line + Py.len load_case_keyword)
           (Py.find load_case_keyword_end line) line.

Record lc_state : Type := LcState {
  load_case_list : list str;
  loading_loadcases : bool;
  no_loadcase_line_cnt : Z
}.

Definition lc_init : lc_state :=
  {| load_case_list := [];
     loading_loadcases := false;
     no_loadcase_line_cnt := 0 |}.

(** The body of the loop after the [break] test: the [if]/[elif]. *)
Definition lc_body (st : lc_state) (line : str) : lc_state :=
  if Py.contains load_case_keyword line then
    {| load_case_list := load_case_list st ++ [load_case_name line];
       loading_loadcases := true;
       no_loadcase_line_cnt := 0 |}
  else if loading_loadcases st then
    {| load_case_list := load_case_list st;
       loading_loadcases := loading_loadcases st;
       no_loadcase_line_cnt := no_loadcase_line_cnt st + 1 |}
  else st.

(** [for line in self.raw_data_list], with its [break]; the result is the
    final state and the lines that were not iterated over (the line at which
    the loop broke and those after it). *)
Fixpoint lc_loop (max_blank_line_cnt : Z) (lines : list str) (st : lc_state)
    : lc_state * list str :=
  match lines with
  | [] => (st, [])
  | line :: rest =>
      if max_blank_line_cnt <? no_loadcase_line_cnt st
      then (st, lines)
      else lc_loop max_blank_line_cnt rest (lc_body st line)
  end.

(** [parse_load_cases], on lines that [parse_raw_data] has loaded. *)
Definition parse_load_cases (max_blank_line_cnt : Z) (raw_data_list : list str)
    : list str :=
  load_case_list (lc_loop max_blank_line_cnt raw_data_list lc_init).1.

(** ** [get_node_connectivities] *)

Definition node_connectivity_keyword : str := lit " FROM ".

Definition connectivity_end_banner : str :=
  lit "PIPING STRESS SUMMARY CHECK AND COVER SHEET".

(** [line[25:115].replace(" ","").replace("*","").replace(".","").isnumeric()] *)
Definition stress_columns_numeric (line : str) : bool :=
  Py.isnumeric
    (Py.replace "." [] (Py.replace "*" [] (Py.replace " " []
       (Py.slice 25 115 line)))).

(** [line[0:8].strip()] *)
Definition connectivity_node_id (line : str) : str :=
  Py.strip (Py.slice 0 8 line).

Record conn_state : Type := ConnState {
  parse_data : bool;
  node_connectivity_start_line : Z;
  node_connectivity_list : list (str * str)
}.

Definition conn_init : conn_state :=
  {| parse_data := false;
     node_connectivity_start_line := 10 ^ 100;
     node_connectivity_list := [] |}.

(** One iteration of [for line_cnt, line in enumerate(node_stress_list)]. *)
Definition conn_body (node_stress_list : list str)
    (st : conn_state) (line_cnt : nat) (line : str) : conn_state :=
  let start :=
    if Py.contains node_connectivity_keyword line
    then Z.of_nat line_cnt
    else node_connectivity_start_line st in
  let pd :=
    if Z.of_nat line_cnt =? start + 4 then true else parse_data st in
  let edges :=
    if pd
       && stress_columns_numeric line
       && (Z.of_nat line_cnt + 1 <? Py.len node_stress_list)
       && stress_columns_numeric (node_stress_list !!! S line_cnt)
    then node_connectivity_list st
           ++ [(connectivity_node_id line,
                connectivity_node_id (node_stress_list !!! S line_cnt))]
    else node_connectivity_list st in
  let pd' :=
    if pd && Py.contains connectivity_end_banner line then false else pd in
  {| parse_data := pd';
     node_connectivity_start_line := start;
     node_connectivity_list := edges |}.

(** The loop of [get_node_connectivities] over [node_stress_list]. *)
Definition connectivity_scan (node_stress_list : list str) : list (str * str) :=
  node_connectivity_list
    (for_enumerate (conn_body node_stress_list) 0 node_stress_list conn_init).

(** The edges a block of rows stands for: every line whose numeric columns
    are numeric and whose next line is numeric too is the first of a pair. *)
Fixpoint expected_edges (rows : list str) : list (str * str) :=
  match rows with
  | [] => []
  | a :: tl =>
      match tl with
      | b :: _ =>
          if stress_columns_numeric a && stress_columns_numeric b
          then [(connectivity_node_id a, connectivity_node_id b)]
          else []
      | [] => []
      end ++ expected_edges tl
  end.

(** [self.raw_data_list[self.stress_analysis_line_number:]] is the first
    thing the method evaluates after [parse_raw_data] has run. *)
Definition get_node_connectivities (st : raw_state) : res (list (str * str)) :=
  match stress_analysis_line_number (raw_boundaries st) with
  | None => Raise AttributeError
  | Some n =>
      Ok (connectivity_scan (Py.slice_from (Z.of_nat n) (raw_data_list st)))
  end.

(** ** [parse_node_coordinates]

    [node_connectivity_array] is [np.asarray] of the edge list: a two-column
    array of strings, or, for the empty list, an empty one-dimensional array,
    on which the column index [[:,0]] raises [IndexError]. *)

Definition data_echo_keyword : str := lit "NODE DATA".

Definition element_data_keyword : str := lit "ELEMENT DATA".

Definition disambiguation_suffix : str := lit " M".

(** A row of a coordinate table: [(node_id, x, y, z)]. *)
Definition coord_row : Type := str * str * str * str.

Record coord_state : Type := CoordState {
  coord_parse_data : bool;
  current_load_case : option str;
  geometry_dic : gmap str (list coord_row);
  all_coordinate_id_list : list str
}.

(** [line[0:8].strip()], the id that is looked up in the edges. *)
Definition node_id_raw (line : str) : str := Py.strip (Py.slice 0 8 line).

(** [line[0:6].strip()], the id stored when no suffix is added. *)
Definition node_id_unsuffixed (line : str) : str :=
  Py.strip (Py.slice 0 6 line).

(** [line[34:61].replace("-","").replace(".","").replace(" ","").isnumeric()] *)
Definition coordinate_columns_numeric (line : str) : bool :=
  Py.isnumeric
    (Py.replace " " [] (Py.replace "." [] (Py.replace "-" []
       (Py.slice 34 61 line)))).

(** Lines 534-543: the two marker tests, giving the flag and the load case in
    force for the line. *)
Definition coord_markers (load_case_list : list str) (st : coord_state)
    (line : str) : bool * option str :=
  let '(pd, cur) :=
    if Py.contains data_echo_keyword line
       && Py.mem (Py.strip (Py.slice 15 24 line)) load_case_list
    then (true, Some (Py.strip (Py.slice 15 24 line)))
    else (coord_parse_data st, current_load_case st) in
  let pd' :=
    if pd && Py.contains element_data_keyword line then false else pd in
  (pd', cur).

(** Lines 559-561: the raw id is in neither column of the edges, and the raw
    id with [" M"] appended is somewhere in them. *)
Definition suffix_needed (conn : list (str * str)) (raw : str) : bool :=
  negb (Py.mem raw (map fst conn))
  && negb (Py.mem raw (map snd conn))
  && Py.mem (raw ++ disambiguation_suffix) (map fst conn ++ map snd conn).

(** [geometry_dic[current_load_case].append(row)] *)
Definition geometry_append (dic : gmap str (list coord_row))
    (cur : option str) (row : coord_row) : res (gmap str (list coord_row)) :=
  match cur with
  | Some current =>
      match dic !! current with
      | Some rows => Ok (<[current := rows ++ [row]]> dic)
      | None => Raise KeyError
      end
  | None => Raise KeyError
  end.

(** One iteration of [for line in self.raw_data_list]. *)
Definition coord_body (load_case_list : list str) (conn : list (str * str))
    (st : coord_state) (line : str) : res coord_state :=
  let '(pd, cur) := coord_markers load_case_list st line in
  if pd && coordinate_columns_numeric line && bool_decide (cur <> None) then
    let x_coord := Py.slice 33 39 line in
    let y_coord := Py.slice 44 50 line in
    let z_coord := Py.slice 55 61 line in
    if bool_decide (conn = []) then Raise IndexError
    else if suffix_needed conn (node_id_raw line) then
      dic ← geometry_append (geometry_dic st) cur
              (node_id_raw line ++ disambiguation_suffix,
               x_coord, y_coord, z_coord);
      Ok {| coord_parse_data := pd;
            current_load_case := cur;
            geometry_dic := dic;
            all_coordinate_id_list := all_coordinate_id_list st |}
    else
      let node_id_to_store := node_id_unsuffixed line in
      dic ← geometry_append (geometry_dic st) cur
              (node_id_to_store, x_coord, y_coord, z_coord);
      Ok {| coord_parse_data := pd;
            current_load_case := cur;
            geometry_dic := dic;
            all_coordinate_id_list :=
              all_coordinate_id_list st
                ++ [Py.replace " " [] node_id_to_store] |}
  else
    Ok {| coord_parse_data := pd;
          current_load_case := cur;
          geometry_dic := geometry_dic st;
          all_coordinate_id_list := all_coordinate_id_list st |}.

(** Before the loop: [{key: [] for key in self.load_case_list}]. *)
Definition coord_init (load_case_list : list str) : coord_state :=
  {| coord_parse_data := false;
     current_load_case := None;
     geometry_dic := list_to_map (map (fun key => (key, [])) load_case_list);
     all_coordinate_id_list := [] |}.

(** [parse_node_coordinates]: the coordinate tables of the load cases that
    have rows, and the registry of ids. *)
Definition parse_node_coordinates (load_case_list : list str)
    (conn : list (str * str)) (raw_data_list : list str)
    : res (gmap str (list coord_row) * list str) :=
  st ← for_each (coord_body load_case_list conn) raw_data_list
         (coord_init load_case_list);
  Ok (filter (fun kv => kv.2 <> []) (geometry_dic st),
      all_coordinate_id_list st).

(** ** [get_stress_plot] and [get_THOR_plot]: resolving the endpoints

    [coordinates] is the table [axes_rotation] returns: a node id and three
    numbers per row.  ([np.hstack] stores the numbers as the text numpy
    prints for them, and [astype(float)] reads that text back to the same
    numbers; the rows here hold the numbers.)  [sustained_stresses] is the
    table of [parse_stresses]: id, stress and allowable, as text. *)

Definition coordinate_record : Type := str * float * float * float.

Definition stress_record : Type := str * str * str.

(** A numpy array of numbers with one or two axes. *)
Inductive ndarray : Type :=
| Vec (v : list float)
| Mat (rows : list (list float)).

(** [a * 1.3] *)
Definition scale (a : ndarray) : ndarray :=
  match a with
  | Vec v => Vec (map (fun x => x * 1.3)%float v)
  | Mat rows => Mat (map (map (fun x => x * 1.3)%float) rows)
  end.

Section Plots.

(** [astype(float)] on one string of a string array: the number, or [None]
    where it raises [ValueError]. *)
Variable np_float : str -> option float.

(** The figure being drawn, and the rest of an iteration of each plot loop
    once the endpoints are resolved (labels, surface or centre line). *)
Variable figure : Type.
Variable draw_stress_segment :
  figure -> nat -> str * str -> ndarray -> ndarray -> nat -> nat -> res figure.
Variable draw_thor_segment :
  figure -> nat -> str * str -> ndarray -> ndarray -> res figure.

Definition np_float_row (r : coordinate_record) : res (list float) :=
  match np_float r.1.1.1 with
  | Some i => Ok [i; r.1.1.2; r.1.2; r.2]
  | None => Raise ValueError
  end.

(** [np.squeeze(coordinates[np.where(coordinates[:,0] == id)])[1:]
       .astype(float) * 1.3]:
    no matching row leaves an empty two-axis array; one matching row is
    squeezed to a vector and [[1:]] drops its id; with several matching rows
    [[1:]] drops the first of them and the ids of the others are converted
    with the numbers. *)
Definition endpoint_coordinates (coordinates : list coordinate_record)
    (id : str) : res ndarray :=
  match List.filter (fun r => bool_decide (r.1.1.1 = id)) coordinates with
  | [] => Ok (scale (Mat []))
  | [r] => Ok (scale (Vec [r.1.1.2; r.1.2; r.2]))
  | _ :: rows =>
      m ← for_each (fun acc r => v ← np_float_row r; Ok (acc ++ [v])) rows [];
      Ok (scale (Mat m))
  end.

(** The first index at which [p] holds. *)
Fixpoint first_index {A : Type} (p : A -> bool) (l : list A) : option nat :=
  match l with
  | [] => None
  | x :: l' => if p x then Some 0%nat else S <$> first_index p l'
  end.

(** [np.where(self.sustained_stresses[:,0] == id.strip())[0][0]] *)
Definition stress_index (sustained_stresses : list stress_record) (id : str)
    : res nat :=
  match first_index (fun r => bool_decide (r.1.1 = Py.strip id))
          sustained_stresses with
  | Some i => Ok i
  | None => Raise IndexError
  end.

(** [a[i]]: a number of a vector, a row of a two-axis array. *)
Definition nd_index (a : ndarray) (i : nat) : res (float + list float) :=
  match a with
  | Vec v =>
      match v !! i with
      | Some x => Ok (inl x)
      | None => Raise IndexError
      end
  | Mat rows =>
      match rows !! i with
      | Some r => Ok (inr r)
      | None => Raise IndexError
      end
  end.

(** The three components [a[0]], [a[1]], [a[2]] that [ax1.text] is given. *)
Definition label_position (a : ndarray) : res unit :=
  _ ← nd_index a 0; _ ← nd_index a 1; _ ← nd_index a 2; Ok ().

(** One iteration of the loop of [get_stress_plot] (lines 676-824): the
    four lookups, the positions of the node labels, then the drawing. *)
Definition stress_plot_body (coordinates : list coordinate_record)
    (sustained_stresses : list stress_record)
    (fig : figure) (segment_cnt : nat) (segment : str * str) : res figure :=
  origin ← endpoint_coordinates coordinates segment.1;
  destination ← endpoint_coordinates coordinates segment.2;
  origin_node_array_index ← stress_index sustained_stresses segment.1;
  destination_node_array_index ← stress_index sustained_stresses segment.2;
  _ ← (if (segment_cnt =? 0)%nat then label_position origin else Ok ());
  _ ← label_position destination;
  draw_stress_segment fig segment_cnt segment origin destination
    origin_node_array_index destination_node_array_index.

Definition stress_plot_loop (coordinates : list coordinate_record)
    (sustained_stresses : list stress_record)
    (node_connectivity_array : list (str * str)) (fig : figure) : res figure :=
  for_enumerate_res (stress_plot_body coordinates sustained_stresses)
    0 node_connectivity_array fig.

(** [{i[0]: i[1:].astype(float) for i in coordinates}]: a later row replaces
    an earlier one with the same id. *)
Definition THOR_coordinate_dic (coordinates : list coordinate_record)
    : gmap str ndarray :=
  fold_left (fun d r => <[r.1.1.1 := Vec [r.1.1.2; r.1.2; r.2]]> d)
    coordinates ∅.

(** [dic[id] * 1.3] *)
Definition thor_lookup (dic : gmap str ndarray) (id : str) : res ndarray :=
  match dic !! id with
  | Some v => Ok (scale v)
  | None => Raise KeyError
  end.

(** One iteration of the loop of [get_THOR_plot] (lines 1052-1085): the
    [try] around the two lookups, whose handler prints a warning and
    [continue]s. *)
Definition thor_plot_body (dic : gmap str ndarray)
    (fig : figure) (segment_cnt : nat) (segment : str * str) : res figure :=
  match try_except
          (origin ← thor_lookup dic segment.1;
           destination ← thor_lookup dic segment.2;
           Ok (Some (origin, destination)))
          KeyError (Ok None) with
  | Ok (Some (origin, destination)) =>
      draw_thor_segment fig segment_cnt segment origin destination
  | Ok None => Ok fig
  | Raise e => Raise e
  end.

Definition thor_plot_loop (dic : gmap str ndarray)
    (node_connectivity_array : list (str * str)) (fig : figure) : res figure :=
  for_enumerate_res (thor_plot_body dic) 0 node_connectivity_array fig.

End Plots.

(** ** The tube mesh of [get_stress_plot] (lines 670-671 and 722-781)

    The coordinates are binary64 numbers, as in numpy.  [a.dot(b)] and
    [np.linalg.norm] on three components are taken as the products rounded
    one by one and added in index order, then the square root.  SciPy's
    rotation is not modelled: it is a parameter. *)

Definition vec3 : Type := float * float * float.


Definition vsub (a b : vec3) : vec3 :=
  (a.1.1 - b.1.1, a.1.2 - b.1.2, a.2 - b.2)%float.

(** [k * v] *)
Definition vscale (k : float) (v : vec3) : vec3 :=
  (k * v.1.1, k * v.1.2, k * v.2)%float.

(** [v / k] *)
Definition vdiv (v : vec3) (k : float) : vec3 :=
  (v.1.1 / k, v.1.2 / k, v.2 / k)%float.

(** [a.dot(b)] *)
Definition dot (a b : vec3) : float :=
  (a.1.1 * b.1.1 + a.1.2 * b.1.2 + a.2 * b.2)%float.

(** [np.linalg.norm(v)] *)
Definition norm (v : vec3) : float := PrimFloat.sqrt (dot v v).






Definition len_point_count : nat := 10.


(** Lines 670-671: [random_vec], from the three numbers that
    [np.random.rand(3)] returned. *)
Definition normalized_random_vec (rand : vec3) : vec3 :=
  vdiv rand (norm rand).

(** [segment_unit_vec] *)
Definition segment_unit_vec (origin destination : vec3) : vec3 :=
  let segment_vector := vsub destination origin in
  vdiv segment_vector (norm segment_vector).

(** The projection step: [random_vec] minus its component along the
    segment. *)
Definition gram_schmidt (random_vec unit_vec : vec3) : vec3 :=
  vsub random_vec (vscale (dot random_vec unit_vec) unit_vec).

(** [random_normal_vec], normalised and divided by 24. *)
Definition random_normal_vec (random_vec origin destination : vec3) : vec3 :=
  let n := gram_schmidt random_vec (segment_unit_vec origin destination) in
  vdiv (vdiv n (norm n)) 24.

Section TubeMesh.

(** [R.from_rotvec(rotation_vector).apply(v)] *)
Variable rotation_apply : vec3 -> vec3 -> vec3.



End TubeMesh.

(** ** [parse_pipe_stress_summary] *)

(** [max(l)] on a non-empty list [x :: l]: the running maximum is replaced by
    an item that compares greater. *)
Definition py_max (x : float) (l : list float) : float :=
  fold_left (fun m y => if (m <? y)%float then y else m) l x.

(** The decimal digits of a natural number. *)
Definition decimal (n : Z) : str :=
  lit (NilZero.string_of_uint (N.to_uint (Z.to_N n))).

Definition digit (d : Z) : ascii := ascii_of_N (48 + Z.to_N d).

(** The integer nearest to [m * 2^e], ties to even. *)
Definition round_half_even (m e : Z) : Z :=
  if 0 <=? e then m * 2 ^ e
  else
    let d := 2 ^ (- e) in
    let q := m / d in
    let r := m mod d in
    if (d <? 2 * r) || ((d =? 2 * r) && Z.odd q) then q + 1 else q.

(** [f"{x:.3f}"]: the exact binary value, correctly rounded to three
    decimals. *)
Definition format_3f (x : float) : str :=
  match Prim2SF x with
  | S754_nan => lit "nan"
  | S754_infinity s => if s then lit "-inf" else lit "inf"
  | S754_zero s => (if s then lit "-" else []) ++ lit "0.000"
  | S754_finite s m e =>
      let n := round_half_even (Z.pos m * 1000) e in
      (if s then lit "-" else [])
        ++ decimal (n / 1000) ++ lit "."
        ++ [digit (n / 100 mod 10); digit (n / 10 mod 10); digit (n mod 10)]
  end.

(** Lines 1312-1326: the classification text. *)
Definition summary_text (stress_ratio_list : list float) : str :=
  match stress_ratio_list with
  | [] =>
      lit "The pipe stress summary is shown below. No valid stress ratios were found in the expected columns (72-79)."
  | x :: l =>
      if (py_max x l <? 1.0)%float then
        lit "The pipe stress summary is shown below, with all actual pipe stresses meeting code allowable stresses."
      else
        lit "The pipe stress summary is shown below, with code allowable stresses potentially being exceeded. "
          ++ lit "The maximum stress ratio found is "
          ++ format_3f (py_max x l) ++ lit "."
  end.

(** [line[72:79].strip().replace("*","") if len(line) >= 79 else ""] *)
Definition stress_ratio_str (line : str) : str :=
  if 79 <=? Py.len line
  then Py.replace "*" [] (Py.strip (Py.slice 72 79 line))
  else [].

Record summary : Type := Summary {
  stress_summary_list : list str;
  stress_summary_text : str;
  stress_ratio_list : list float
}.

Section Summary.

(** Python's [float] on a string: the value, or [None] where it raises
    [ValueError]. *)
Variable py_float : str -> option float.

Definition float_of_str (s : str) : res float :=
  match py_float s with
  | Some v => Ok v
  | None => Raise ValueError
  end.

(** Lines 1297-1310: one iteration, with its [try]/[except ValueError]. *)
Definition ratio_step (ratios : list float) (line : str) : res (list float) :=
  try_except
    (stress_ratio_val ← float_of_str (stress_ratio_str line);
     Ok (ratios ++ [stress_ratio_val]))
    ValueError (Ok ratios).

Definition parse_pipe_stress_summary (st : raw_state) : res summary :=
  match pipe_stress_summary_start_line_number (raw_boundaries st),
        pipe_stress_summary_end_line_number (raw_boundaries st) with
  | Some start_line, Some end_line =>
      let leading_lines := 16 in
      let extra_end_lines := 2 in
      let start_index := Z.max 0 (Z.of_nat start_line - leading_lines) in
      let end_index := Z.of_nat end_line + extra_end_lines in
      let stress_summary_list_raw :=
        Py.slice start_index end_index (raw_data_list st) in
      let cleaned :=
        map (fun i => Py.replace Py.SOH (lit " ") (Py.replace Py.LF [] i))
          stress_summary_list_raw in
      ratios ← for_each ratio_step cleaned [];
      Ok {| stress_summary_list := cleaned;
            stress_summary_text := summary_text ratios;
            stress_ratio_list := ratios |}
  | _, _ =>
      Ok {| stress_summary_list :=
              [lit "Error: Pipe stress summary not found in output file."];
            stress_summary_text :=
              lit "Error: Pipe stress summary not found.";
            stress_ratio_list := [] |}
  end.

End Summary.

(** ** Fixtures *)

(** A line of the file as [parse_raw_data] stores it: the text and its line
    feed. *)
Definition text_line (text : string) : str := lit text ++ [Py.LF].

(** A stress-table row as the file holds it: node id in the leading columns,
    two values in the numeric columns, blank up to column 115, line feed. *)
Definition stress_row (id : string) : str :=
  lit id ++ replicate (25 - length (lit id)) " "%char ++ lit "1250.  0.45"
    ++ replicate 79 " "%char ++ [Py.LF].

(** Header at line 0, three filler lines, then rows from line 4 on. *)
Definition fixture_rows_at_4 : list str :=
  [text_line "   NODE  FROM  TO"; text_line ""; text_line "----"; text_line "";
   stress_row "10"; stress_row "20"; stress_row "30"].

(** Header at line 0, rows from line 3 on. *)
Definition fixture_rows_at_3 : list str :=
  [text_line "   NODE  FROM  TO"; text_line ""; text_line "----";
   stress_row "10"; stress_row "20"; stress_row "30"].

(** Header at line 0, rows from line 5 on. *)
Definition fixture_rows_at_5 : list str :=
  [text_line "   NODE  FROM  TO"; text_line ""; text_line "----"; text_line "";
   text_line "";
   stress_row "10"; stress_row "20"; stress_row "30"].

(** A geometry section of two cards: [10 -> 20] with [OD=4.5] and [THI=0.3],
    then [20 -> 30] with [OD=6.625]. *)
Definition fixture_two_cards : list str :=
  [lit "          INPUT CARD IMAGES";
   lit "              10 20   OD=4.5,THI=0.3,";
   lit "              20 30   OD=6.625,"].

(** An entry with the values it holds for [OD] and [THI]. *)
Definition entry_view (e : segment_entry)
    : str * option str * option str :=
  (e.1, e.2 !! lit "OD", e.2 !! lit "THI").

(** [raw_segment_parameter_list] after [parse_raw_data], in that view. *)
Definition parsed_entries (lines : list str)
    : res (list (str * option str * option str)) :=
  st ← parse_raw_data lines;
  Ok (map entry_view (raw_segment_parameter_list (raw_geometry st))).

(** The entries at the moment [OD=] is examined on the second card of
    [fixture_two_cards]. *)
Definition fixture_entries_at_second_card : list segment_entry :=
  [(lit "10", <[lit "OD" := lit "4.5"]> (<[lit "THI" := lit "0.3"]> ∅));
   (lit "20", <[lit "OD" := lit "4.5"]> (<[lit "THI" := lit "0.3"]> ∅));
   (lit "20", ∅);
   (lit "30", ∅)].

(** A coordinate row: the id field in columns 0-8, then X, Y and Z right
    aligned in columns 33-39, 44-50 and 55-61. *)
Definition coordinate_line (id_field : string) : str :=
  lit id_field ++ replicate (33 - length (lit id_field)) " "%char
    ++ lit "  1.00" ++ lit "     " ++ lit "  2.00" ++ lit "     "
    ++ lit "  3.00".

Definition fixture_long_id : list str :=
  [lit "   NODE DATA   WTDW";
   coordinate_line "123 5678";
   lit "   ELEMENT DATA"].

(** Two nodes with coordinates, of which only node 20 has a stress row. *)
Definition fixture_coordinates : list coordinate_record :=
  [(lit "10", 0, 0, 0)%float; (lit "20", 0, 0, 10)%float].

Definition fixture_stresses : list stress_record :=
  [(lit "20", lit "1250.", lit "0.45")].

(** ** Reading the parameter map

    What a comment line declares, and the lines of a file that declare a
    given key. *)

(** The line carries the marker and its key is [k]. *)
Definition declares (k : str) (line : str) : bool :=
  Py.contains parameter_start_key line
  && bool_decide (parameter_key_of line = k).

(** The lines that declare [k], in file order. *)
Definition declarations (k : str) (lines : list str) : list str :=
  List.filter (declares k) lines.

(** ** Reading the geometry cards *)

(** The line ends the geometry section: it carries the end marker, or one of
    the end codes in columns 10-13. *)
Definition ends_geometry (line : str) : bool :=
  Py.contains input_card_end_keyword line
  || Py.mem (Py.slice 10 13 line) end_geometry_keyword_list.

(** The values a card gives to the keywords it carries, keyed as the parser
    keys them (the keyword without its [=]). *)
Definition card_parameters (line : str) : gmap str str :=
  fold_left
    (fun m keyword =>
       if Py.contains keyword line
       then <[Py.slice_to (-1) keyword := keyword_value keyword line]> m
       else m)
    nozzle_analysis_keyword_list ∅.

(** [l'] differs from [l] at most in the parameter maps of its two last
    entries. *)
Definition same_but_newest_two (l l' : list segment_entry) : Prop :=
  length l' = length l
  /\ map fst l' = map fst l
  /\ forall i : nat, (i + 2 < length l)%nat -> l' !! i = l !! i.

(** The two node fields of a card: columns 13-16 and 16-19, stripped. *)
Definition card_from (line : str) : str := Py.strip (Py.slice 13 16 line).

Definition card_to (line : str) : str := Py.strip (Py.slice 16 19 line).

(** The card leaves both node columns blank. *)
Definition card_blank (line : str) : bool :=
  bool_decide (Py.replace " " [] (Py.slice 13 19 line) = []).

(** The newest endpoint pair in the history of a state. *)
Definition previous_endpoints (g : geom_state) : option endpoints :=
  last (segment_all_endpoints_list g).

(** ** The state of the coordinate scan *)

(** What the loop of [parse_node_coordinates] keeps: the load case in force
    is a declared one, the tables are keyed by the declared load cases, and
    no id of the registry holds a space. *)
Definition coord_inv (load_case_list : list str) (st : coord_state) : Prop :=
  (forall c, current_load_case st = Some c -> c ∈ load_case_list)
  /\ (forall k, is_Some (geometry_dic st !! k) <-> k ∈ load_case_list)
  /\ Forall (fun id => " "%char ∉ id) (all_coordinate_id_list st).

(** ** [parse_stresses] *)

(** [len(line) > 130 and
     line[18:130].replace("*","").replace(" ","").replace(".","").isnumeric()] *)
Definition stress_line_numeric (line : str) : bool :=
  (130 <? Py.len line)
  && Py.isnumeric
       (Py.replace "." [] (Py.replace " " [] (Py.replace "*" []
          (Py.slice 18 130 line)))).

(** Lines 633-638: an id that is not registered gives way to the id without
    its last character when that one is registered. *)
Definition reconciled_id (all_coordinate_id_list : list str) (node_id : str)
    : str :=
  if negb (Py.mem node_id all_coordinate_id_list)
     && Py.mem (Py.slice_to (-1) node_id) all_coordinate_id_list
  then Py.slice_to (-1) node_id
  else node_id.

(** The row appended for a line: id, [line[28:35].strip()] and
    [line[35:44].strip()]. *)
Definition sustained_stress_row (all_coordinate_id_list : list str)
    (line : str) : stress_record :=
  (reconciled_id all_coordinate_id_list (Py.strip (Py.slice 0 7 line)),
   Py.strip (Py.slice 28 35 line),
   Py.strip (Py.slice 35 44 line)).

(** One iteration of
    [for line_cnt, line in enumerate(self.raw_data_list[start:])]. *)
Definition stress_body (all_coordinate_id_list : list str)
    (sustained_stress_list : list stress_record) (line_cnt : nat) (line : str)
    : list stress_record :=
  if stress_line_numeric line
  then sustained_stress_list
         ++ [sustained_stress_row all_coordinate_id_list line]
  else sustained_stress_list.

(** [parse_stresses], after [parse_raw_data] and with the registry that
    [parse_node_coordinates] has filled: [sustained_stresses]. *)
Definition parse_stresses (st : raw_state) (all_coordinate_id_list : list str)
    : res (list stress_record) :=
  match stress_analysis_line_number (raw_boundaries st) with
  | None => Raise AttributeError
  | Some start =>
      Ok (for_enumerate (stress_body all_coordinate_id_list) 0
            (Py.slice_from (Z.of_nat start) (raw_data_list st)) [])
  end.

(** A line of the stress table as [parse_stresses] reads it: the id in the
    leading columns, the stress in columns 28-35, the allowable in columns
    35-44, blank up to column 134. *)
Definition stress_table_line (id : string) : str :=
  lit id ++ replicate (28 - length (lit id)) " "%char
    ++ lit "  1250.   15000." ++ replicate 90 " "%char.

(** ** [parse_raw_data]: the [THOR NODE] comments

    Lines 171-205, the first block of an iteration of the line loop.  It
    reads the line and the two attributes [THOR_node_dic] and
    [THOR_input_error] and writes only these two, and nothing else in the
    loop touches them: over a file its effect is the fold of [thor_step]
    over the lines. *)

Definition THOR_parameter_list : list str :=
  [lit "THOR NODE"; lit "ME101 NODE NUMBER"; lit "THOR NODE NUMBER";
   lit "NODE ELEVATION"; lit "NODE OUTSIDE DIAMETER";
   lit "NODE INSIDE DIAMETER"; lit "NONE PIPE SCHEDULE"; lit "ORIGIN";
   lit "ORIGIN COORDINATES"].

(** [s.split(sep)] for a one-character separator. *)
Fixpoint py_split (sep : ascii) (s : str) : list str :=
  match s with
  | [] => [[]]
  | x :: s' =>
      if decide (x = sep) then [] :: py_split sep s'
      else match py_split sep s' with
           | h :: t => (x :: h) :: t
           | [] => [[x]]
           end
  end.

(** [l[i]] for [i >= 0]. *)
Definition item {A : Type} (l : list A) (i : nat) : res A :=
  match l !! i with
  | Some x => Ok x
  | None => Raise IndexError
  end.

(** [{i[0].strip(): i[1].strip() for i in THOR_parameters_lst}] *)
Definition thor_parameter_dict (THOR_parameters_lst : list (list str))
    : res (gmap str str) :=
  for_each
    (fun d i => k ← item i 0; v ← item i 1; Ok (<[Py.strip k := Py.strip v]> d))
    THOR_parameters_lst ∅.

Record thor_state : Type := ThorState {
  THOR_node_dic : gmap str (gmap str str);
  THOR_input_error : bool
}.

Definition thor_init : thor_state :=
  {| THOR_node_dic := ∅; THOR_input_error := false |}.

(** Lines 173-205 for one line; the bare [except] turns any exception of the
    dictionary construction into the error flag. *)
Definition thor_step (st : thor_state) (line : str) : thor_state :=
  if bool_decide (Py.slice 14 23 line = nth 0 THOR_parameter_list []) then
    let THOR_parameters_str :=
      Py.slice (Py.find (lit "{") line + 1) (Py.find (lit "}") line) line in
    if Py.contains (nth 1 THOR_parameter_list []) line
       && negb (THOR_input_error st)
    then
      let node_number_start :=
        Py.find (nth 1 THOR_parameter_list []) THOR_parameters_str
        + Py.len (nth 1 THOR_parameter_list []) in
      let node_number_end :=
        Py.find (lit ",") (Py.slice_from node_number_start THOR_parameters_str)
        + node_number_start in
      let node_number :=
        Py.strip (Py.replace "=" []
          (Py.slice node_number_start node_number_end THOR_parameters_str)) in
      let THOR_parameters_lst :=
        map (py_split "=")
          (py_split "," (Py.slice_from (node_number_end + 1)
                           THOR_parameters_str)) in
      match thor_parameter_dict THOR_parameters_lst with
      | Ok d =>
          {| THOR_node_dic := <[node_number := d]> (THOR_node_dic st);
             THOR_input_error := THOR_input_error st |}
      | Raise _ =>
          {| THOR_node_dic := THOR_node_dic st; THOR_input_error := true |}
      end
    else {| THOR_node_dic := THOR_node_dic st; THOR_input_error := true |}
  else st.

(** The [THOR NODE] block over the lines of a file. *)
Definition thor_scan (lines : list str) : thor_state :=
  fold_left thor_step lines thor_init.

(** The text of fragments joined by commas, as a [THOR NODE] comment lists
    its parameters. *)
Fixpoint comma_separated (fragments : list str) : str :=
  match fragments with
  | [] => []
  | [x] => x
  | x :: rest => x ++ lit "," ++ comma_separated rest
  end.

(** No character of [s] is one of [cs]. *)
Definition free_of (cs : list ascii) (s : str) : bool :=
  forallb (fun c => negb (bool_decide (c ∈ cs))) s.

(** * Theorems *)

(** ** The string primitives on examples *)

Example ex_slice :
  Py.slice 2 (-1) (lit "abcdefgh") = lit "cdefg"
  /\ Py.slice 5 2 (lit "abcdefgh") = lit ""
  /\ Py.slice_from (-3) (lit "abcdefgh") = lit "fgh"
  /\ Py.slice_to (-1) (lit "abcdefgh") = lit "abcdefg"
  /\ Py.slice (-100) 3 (lit "abcdefgh") = lit "abc"
  /\ Py.slice 3 100 (lit "abcdefgh") = lit "defgh"
  /\ Py.slice_to (-1) (lit "OD=") = lit "OD"
  /\ Py.slice_to (-1) (lit "") = lit "".
Proof. vm_compute. repeat split. Qed.

Example ex_find :
  Py.find (lit "(") (lit "LDCASE=WT") = -1
  /\ Py.find (lit "=") (lit "***/A = B = C") = 6
  /\ Py.find (lit "ab") (lit "aab") = 1
  /\ Py.contains (lit "***") (lit "  ***/X") = true.
Proof. vm_compute. repeat split. Qed.

Example ex_strip_isnumeric :
  Py.strip (lit "  20 M  " ++ [Py.LF]) = lit "20 M"
  /\ Py.isnumeric (lit "1250045") = true
  /\ Py.isnumeric (lit "") = false
  /\ Py.isnumeric (lit "12a") = false
  /\ Py.isnumeric (lit "-12") = false.
Proof. vm_compute. repeat split. Qed.

Example ex_rows_at_4 :
  connectivity_scan fixture_rows_at_4 = [(lit "10", lit "20"); (lit "20", lit "30")].
Proof. vm_compute. reflexivity. Qed.

Example ex_rows_at_3 :
  connectivity_scan fixture_rows_at_3 = [(lit "20", lit "30")].
Proof. vm_compute. reflexivity. Qed.

Example ex_rows_at_5 :
  connectivity_scan fixture_rows_at_5 = [(lit "10", lit "20"); (lit "20", lit "30")].
Proof. vm_compute. reflexivity. Qed.

(** ** Connectivity extraction *)

Lemma for_enumerate_app {St A : Type} (body : St -> nat -> A -> St)
    (l1 l2 : list A) (i : nat) (st : St) :
  for_enumerate body i (l1 ++ l2) st
  = for_enumerate body (i + length l1) l2 (for_enumerate body i l1 st).
Proof.
  revert i st. induction l1 as [|x l1 IH]; intros i st; simpl.
  - by rewrite Nat.add_0_r.
  - rewrite IH. f_equal. lia.
Qed.

(** While the flag is off, no header is met and the latch line is not
    reached, an iteration changes nothing. *)
Lemma conn_body_idle (all : list str) (st : conn_state) (i : nat) (line : str) :
  parse_data st = false ->
  Py.contains node_connectivity_keyword line = false ->
  Z.of_nat i <> node_connectivity_start_line st + 4 ->
  conn_body all st i line = st.
Proof.
  intros Hpd Hk Hi. destruct st as [pd start edges]; simpl in *; subst pd.
  unfold conn_body; simpl. rewrite Hk.
  destruct (Z.eqb_spec (Z.of_nat i) (start + 4)) as [E|_]; [done|].
  reflexivity.
Qed.

Lemma conn_idle (all l : list str) (i : nat) (st : conn_state) :
  parse_data st = false ->
  Forall (fun x => Py.contains node_connectivity_keyword x = false) l ->
  (forall j : nat, (i <= j < i + length l)%nat ->
     Z.of_nat j <> node_connectivity_start_line st + 4) ->
  for_enumerate (conn_body all) i l st = st.
Proof.
  intros Hpd Hl. revert i. induction Hl as [|x l Hx Hl IH]; intros i Hj; simpl.
  - reflexivity.
  - rewrite conn_body_idle; [|done|done|apply Hj; simpl; lia].
    apply IH. intros j Hr. apply Hj. simpl. lia.
Qed.

(** With the flag on, an iteration appends the edge of the pair that starts
    at its line, and keeps the flag on unless the line is the banner. *)
Lemma conn_body_active (pre l : list str) (x : str) (st : conn_state) :
  parse_data st = true ->
  Py.contains connectivity_end_banner x = false ->
  let st' := conn_body (pre ++ x :: l) st (length pre) x in
  parse_data st' = true
  /\ node_connectivity_list st'
     = node_connectivity_list st
       ++ match l with
          | y :: _ =>
              if stress_columns_numeric x && stress_columns_numeric y
              then [(connectivity_node_id x, connectivity_node_id y)]
              else []
          | [] => []
          end.
Proof.
  intros Hpd Hx. unfold conn_body; cbn [parse_data node_connectivity_list].
  rewrite Hpd, Hx.
  replace (if Z.of_nat (length pre) =? _ then true else true) with true
    by (by destruct (_ =? _)).
  split; [by rewrite andb_false_r|].
  cbn [andb]. destruct l as [|y l'].
  - replace (_ <? _) with false; [by rewrite andb_false_r, app_nil_r|].
    symmetry. apply Z.ltb_ge. unfold Py.len. rewrite length_app. simpl. lia.
  - replace (_ <? _) with true.
    2:{ symmetry. apply Z.ltb_lt. unfold Py.len.
        rewrite length_app. simpl. lia. }
    rewrite andb_true_r.
    assert (Hy : (pre ++ x :: y :: l') !!! S (length pre) = y).
    { rewrite list_lookup_total_alt, lookup_app_r by lia.
      replace (S (length pre) - length pre)%nat with 1%nat by lia.
      reflexivity. }
    rewrite Hy.
    destruct (stress_columns_numeric x && stress_columns_numeric y);
      [reflexivity | by rewrite app_nil_r].
Qed.

(** Once the flag is on it stays on until the banner, and every adjacent
    numeric pair yields its edge. *)
Lemma conn_active (pre l : list str) (st : conn_state) :
  parse_data st = true ->
  Forall (fun x => Py.contains connectivity_end_banner x = false) l ->
  node_connectivity_list
    (for_enumerate (conn_body (pre ++ l)) (length pre) l st)
  = node_connectivity_list st ++ expected_edges l.
Proof.
  intros Hpd Hl. revert pre st Hpd.
  induction Hl as [|x l Hx Hl IH]; intros pre st Hpd.
  - simpl. by rewrite app_nil_r.
  - cbn [for_enumerate].
    destruct (conn_body_active pre l x st Hpd Hx) as [Hpd' Hedges].
    specialize (IH (pre ++ [x]) (conn_body (pre ++ x :: l) st (length pre) x) Hpd').
    rewrite <- app_assoc in IH. cbn [app] in IH.
    rewrite length_app in IH. cbn [length] in IH.
    rewrite Nat.add_1_r in IH.
    rewrite IH, Hedges. cbn [expected_edges]. by rewrite app_assoc.
Qed.

(** ** Load-case scanning *)

Example ex_load_case_name :
  load_case_name (lit "  LDCASE=WTDW( DEAD WEIGHT )") = lit "WTDW".
Proof. vm_compute. reflexivity. Qed.

Example ex_load_cases_threshold :
  parse_load_cases 1
    [lit "x"; lit "LDCASE=A("; lit ""; lit ""; lit "LDCASE=B("; lit "LDCASE=C("]
  = [lit "A"].
Proof. vm_compute. reflexivity. Qed.

(** The list grows by the names of the declaration lines iterated over. *)
Lemma lc_loop_spec (max_blank_line_cnt : Z) (lines : list str) (st : lc_state) :
  exists scanned : list str,
    lines = scanned ++ (lc_loop max_blank_line_cnt lines st).2
    /\ load_case_list (lc_loop max_blank_line_cnt lines st).1
       = load_case_list st
         ++ map load_case_name
              (List.filter (Py.contains load_case_keyword) scanned).
Proof.
  revert st. induction lines as [|line rest IH]; intros st; simpl.
  - exists []. simpl. by rewrite app_nil_r.
  - destruct (max_blank_line_cnt <? no_loadcase_line_cnt st).
    + exists []. simpl. by rewrite app_nil_r.
    + destruct (IH (lc_body st line)) as (scanned & Hl & Hs).
      exists (line :: scanned). split; [simpl; congruence|].
      rewrite Hs. unfold lc_body. simpl.
      destruct (Py.contains load_case_keyword line); simpl.
      * by rewrite <- app_assoc.
      * by destruct (loading_loadcases st).
Qed.

(** C3 (amended).  The load-case list holds one name per declaration line
    iterated over, in the order the lines are met; nothing removes a name
    that was declared before. *)
Theorem C3_load_case_list_in_encounter_order
    (max_blank_line_cnt : Z) (raw_data_list : list str) :
  exists scanned : list str,
    raw_data_list
    = scanned ++ (lc_loop max_blank_line_cnt raw_data_list lc_init).2
    /\ parse_load_cases max_blank_line_cnt raw_data_list
       = map load_case_name
           (List.filter (Py.contains load_case_keyword) scanned).
Proof.
  destruct (lc_loop_spec max_blank_line_cnt raw_data_list lc_init)
    as (scanned & Hl & Hs).
  exists scanned. split; [exact Hl|]. exact Hs.
Qed.

(** C3 as stated fails: a name declared on two lines occurs twice. *)
Lemma C3_duplicate_name_counterexample :
  parse_load_cases 500 [lit "LDCASE=WTDW( 1 )"; lit "LDCASE=WTDW( 2 )"]
  = [lit "WTDW"; lit "WTDW"]
  /\ ~ NoDup (parse_load_cases 500
               [lit "LDCASE=WTDW( 1 )"; lit "LDCASE=WTDW( 2 )"]).
Proof.
  split; [vm_compute; reflexivity|].
  intros Hnd. vm_compute in Hnd.
  apply NoDup_cons in Hnd as [Hin _]. apply Hin. left.
Qed.

(** Without a declaration line, an iteration leaves the state as it is. *)
Lemma lc_body_no_declaration (st : lc_state) (line : str) :
  loading_loadcases st = false ->
  Py.contains load_case_keyword line = false ->
  lc_body st line = st.
Proof. intros Hl Hk. unfold lc_body. by rewrite Hk, Hl. Qed.

Lemma lc_loop_no_declaration (max_blank_line_cnt : Z) (lines : list str) :
  0 <= max_blank_line_cnt ->
  Forall (fun l => Py.contains load_case_keyword l = false) lines ->
  lc_loop max_blank_line_cnt lines lc_init = (lc_init, []).
Proof.
  intros Hmax Hl. induction Hl as [|line rest Hline Hrest IH]; simpl.
  - reflexivity.
  - destruct (Z.ltb_spec max_blank_line_cnt 0) as [E|_]; [lia|].
    by rewrite lc_body_no_declaration.
Qed.

(** C9.  The miss counter moves only once a declaration has been seen: with
    [loading_loadcases] unset, a line without a declaration leaves the
    counter and the flag as they were, and a declaration line sets the flag
    and puts the counter back to 0.  Hence on lines without any declaration
    the loop never breaks, iterates over every line and leaves the load-case
    list empty. *)
Theorem C9_counter_waits_for_first_declaration
    (max_blank_line_cnt : Z) (raw_data_list : list str) :
  0 <= max_blank_line_cnt ->
  (forall st line,
     loading_loadcases st = false ->
     Py.contains load_case_keyword line = false ->
     no_loadcase_line_cnt (lc_body st line) = no_loadcase_line_cnt st
     /\ loading_loadcases (lc_body st line) = false)
  /\ (forall st line,
        Py.contains load_case_keyword line = true ->
        no_loadcase_line_cnt (lc_body st line) = 0
        /\ loading_loadcases (lc_body st line) = true)
  /\ (Forall (fun l => Py.contains load_case_keyword l = false) raw_data_list ->
      (lc_loop max_blank_line_cnt raw_data_list lc_init).2 = []
      /\ no_loadcase_line_cnt
           (lc_loop max_blank_line_cnt raw_data_list lc_init).1 = 0
      /\ parse_load_cases max_blank_line_cnt raw_data_list = []).
Proof.
  intros Hmax. split; [|split].
  - intros st line Hoff Hk. by rewrite lc_body_no_declaration.
  - intros st line Hk. unfold lc_body. by rewrite Hk.
  - intros Hl. unfold parse_load_cases.
    by rewrite lc_loop_no_declaration.
Qed.

(** C9 at the configured threshold of 500, on three lines without a
    declaration. *)
Lemma C9_no_declaration_witness :
  (lc_loop 500 [lit "HEADER"; lit ""; lit "NODE DATA"] lc_init).2 = []
  /\ parse_load_cases 500 [lit "HEADER"; lit ""; lit "NODE DATA"] = [].
Proof.
  destruct (C9_counter_waits_for_first_declaration 500
              [lit "HEADER"; lit ""; lit "NODE DATA"]) as (_ & _ & H).
  - lia.
  - destruct H as (H1 & _ & H3).
    + repeat (constructor; [vm_compute; reflexivity|]). constructor.
    + split; [exact H1 | exact H3].
Defined.

(** ** The stress-ratio summary *)

Example ex_format_3f :
  format_3f 1.1 = lit "1.100" /\ format_3f 0.0005 = lit "0.001"
  /\ format_3f 2.0625 = lit "2.062" /\ format_3f 12.3456 = lit "12.346"
  /\ format_3f (-0.25) = lit "-0.250" /\ format_3f 0.9995 = lit "1.000"
  /\ format_3f 1e22 = lit "10000000000000000000000.000"
  /\ format_3f 123456.7895 = lit "123456.789"
  /\ format_3f 5e-324 = lit "0.000" /\ format_3f 1.0005 = lit "1.000"
  /\ format_3f 0.1235 = lit "0.123" /\ format_3f (-0.0) = lit "-0.000"
  /\ format_3f infinity = lit "inf" /\ format_3f nan = lit "nan".
Proof. vm_compute. repeat split. Qed.

Example ex_py_max : py_max 0.2 [1.1; 0.5]%float = 1.1%float.
Proof. vm_compute. reflexivity. Qed.

(** An iteration of the ratio loop never raises. *)
Lemma ratio_step_spec (py_float : str -> option float)
    (ratios : list float) (line : str) :
  ratio_step py_float ratios line
  = Ok (ratios ++ match py_float (stress_ratio_str line) with
                  | Some v => [v]
                  | None => []
                  end).
Proof.
  unfold ratio_step, float_of_str.
  destruct (py_float (stress_ratio_str line)); simpl; [done|].
  by rewrite app_nil_r.
Qed.

(** The ratio loop keeps the values that convert, in line order. *)
Lemma ratio_loop_spec (py_float : str -> option float)
    (lines : list str) (ratios : list float) :
  for_each (ratio_step py_float) lines ratios
  = Ok (ratios ++ omap (fun l => py_float (stress_ratio_str l)) lines).
Proof.
  revert ratios. induction lines as [|line lines IH]; intros ratios.
  - simpl. by rewrite app_nil_r.
  - cbn [for_each]. rewrite ratio_step_spec.
    change (for_each (ratio_step py_float) lines
              (ratios ++ match py_float (stress_ratio_str line) with
                         | Some v => [v]
                         | None => []
                         end)
            = Ok (ratios ++ omap (fun l => py_float (stress_ratio_str l))
                              (line :: lines))).
    rewrite IH. cbn [omap list_omap].
    destruct (py_float (stress_ratio_str line)); simpl.
    + by rewrite <- app_assoc.
    + by rewrite app_nil_r.
Qed.

(** With both bounds found, the summary stage returns, with the ratios that
    convert and the text that classifies them. *)
Lemma parse_pipe_stress_summary_found (py_float : str -> option float)
    (st : raw_state) (start_line end_line : nat) :
  pipe_stress_summary_start_line_number (raw_boundaries st) = Some start_line ->
  pipe_stress_summary_end_line_number (raw_boundaries st) = Some end_line ->
  exists r, parse_pipe_stress_summary py_float st = Ok r
    /\ stress_ratio_list r
       = omap (fun l => py_float (stress_ratio_str l)) (stress_summary_list r)
    /\ stress_summary_text r = summary_text (stress_ratio_list r).
Proof.
  intros Hs He. unfold parse_pipe_stress_summary. rewrite Hs, He.
  cbv zeta. rewrite ratio_loop_spec. cbn [mbind res_bind app].
  eexists. split; [reflexivity|]. by split.
Qed.

(** C4.  Ratios [0.2, 0.5, 0.9] give the text that all stresses meet the
    allowables; ratios [0.2, 1.1, 0.5] give the text that allowables are
    exceeded, with the maximum printed as 1.100; and a ratio field on which
    the conversion fails leaves the ratio list as it was, the loop going on
    without raising, so that the stage returns the ratios that convert. *)
Theorem C4_stress_ratio_classification (py_float : str -> option float) :
  summary_text [0.2; 0.5; 0.9]%float
  = lit "The pipe stress summary is shown below, with all actual pipe stresses meeting code allowable stresses."
  /\ summary_text [0.2; 1.1; 0.5]%float
     = lit "The pipe stress summary is shown below, with code allowable stresses potentially being exceeded. The maximum stress ratio found is 1.100."
  /\ format_3f (py_max 0.2 [1.1; 0.5]%float) = lit "1.100"
  /\ (forall ratios line,
        py_float (stress_ratio_str line) = None ->
        ratio_step py_float ratios line = Ok ratios)
  /\ (forall lines,
        for_each (ratio_step py_float) lines []
        = Ok (omap (fun l => py_float (stress_ratio_str l)) lines))
  /\ (forall st start_line end_line,
        pipe_stress_summary_start_line_number (raw_boundaries st)
        = Some start_line ->
        pipe_stress_summary_end_line_number (raw_boundaries st)
        = Some end_line ->
        exists r, parse_pipe_stress_summary py_float st = Ok r
          /\ stress_ratio_list r
             = omap (fun l => py_float (stress_ratio_str l))
                 (stress_summary_list r)
          /\ stress_summary_text r = summary_text (stress_ratio_list r)).
Proof.
  split; [vm_compute; reflexivity|].
  split; [vm_compute; reflexivity|].
  split; [vm_compute; reflexivity|].
  split; [|split].
  - intros ratios line Hnone. unfold ratio_step, float_of_str.
    by rewrite Hnone.
  - intros lines. apply ratio_loop_spec.
  - apply parse_pipe_stress_summary_found.
Qed.

(** ** [parse_raw_data] never raises *)

Lemma for_enumerate_res_inv {St A : Type} (body : St -> nat -> A -> res St)
    (P : A -> Prop) (Inv : St -> Prop) :
  (forall st i x, P x -> Inv st -> exists st', body st i x = Ok st' /\ Inv st') ->
  forall l i st, Forall P l -> Inv st ->
    exists st', for_enumerate_res body i l st = Ok st' /\ Inv st'.
Proof.
  intros Hbody l. induction l as [|x l IH]; intros i st Hl Hst.
  - exists st. by split.
  - apply Forall_cons in Hl as [Hx Hl].
    destruct (Hbody st i x Hx Hst) as (st1 & Hb & Hst1).
    destruct (IH (S i) st1 Hl Hst1) as (st2 & Hloop & Hst2).
    exists st2. split; [|done].
    cbn [for_enumerate_res]. rewrite Hb. exact Hloop.
Qed.

Lemma for_each_inv {St A : Type} (body : St -> A -> res St)
    (Inv : St -> Prop) :
  (forall st x, Inv st -> exists st', body st x = Ok st' /\ Inv st') ->
  forall l st, Inv st -> exists st', for_each body l st = Ok st' /\ Inv st'.
Proof.
  intros Hbody l. induction l as [|x l IH]; intros st Hst.
  - exists st. by split.
  - destruct (Hbody st x Hst) as (st1 & Hb & Hst1).
    destruct (IH st1 Hst1) as (st2 & Hloop & Hst2).
    exists st2. split; [|done].
    cbn [for_each]. rewrite Hb. exact Hloop.
Qed.

(** The three catalogs share no key. *)
Lemma catalogs_disjoint (k : str) :
  (k ∈ coversheet_parameter_list ->
     (k ∉ coversheet_set_list) /\ (k ∉ long_text_parameter_list))
  /\ (k ∈ coversheet_set_list -> k ∉ long_text_parameter_list).
Proof.
  assert (H1 : Forall (fun k => (k ∉ coversheet_set_list)
                                /\ (k ∉ long_text_parameter_list))
                 coversheet_parameter_list)
    by (apply (bool_decide_unpack _); vm_compute; exact I).
  assert (H2 : Forall (fun k => k ∉ long_text_parameter_list)
                 coversheet_set_list)
    by (apply (bool_decide_unpack _); vm_compute; exact I).
  rewrite Forall_forall in H1, H2. split; intros Hk.
  - by apply H1.
  - by apply H2.
Qed.

Lemma dic_typed_empty : dic_typed ∅.
Proof. split; intros k s _; by rewrite lookup_empty. Qed.

Lemma dic_typed_insert_str (d : gmap str pval) (k s : str) :
  k ∉ coversheet_set_list -> dic_typed d -> dic_typed (<[k := PStr s]> d).
Proof.
  intros Hk [Hd1 Hd2]. split.
  - intros k' s' Hk'. rewrite lookup_insert_ne; [by apply Hd1|].
    intros ->. done.
  - intros k' l' Hk'. destruct (decide (k = k')) as [->|Hne].
    + by rewrite lookup_insert_eq.
    + rewrite lookup_insert_ne by done. by apply Hd2.
Qed.

Lemma dic_typed_insert_list (d : gmap str pval) (k : str) (l : list str) :
  k ∉ long_text_parameter_list -> dic_typed d ->
  dic_typed (<[k := PList l]> d).
Proof.
  intros Hk [Hd1 Hd2]. split.
  - intros k' s' Hk'. destruct (decide (k = k')) as [->|Hne].
    + by rewrite lookup_insert_eq.
    + rewrite lookup_insert_ne by done. by apply Hd1.
  - intros k' l' Hk'. rewrite lookup_insert_ne; [by apply Hd2|].
    intros ->. done.
Qed.

(** *** The comment-parameter step, catalog by catalog *)

Lemma mem_true (x : str) (l : list str) : x ∈ l -> Py.mem x l = true.
Proof. intros H. unfold Py.mem. by apply bool_decide_eq_true_2. Qed.

Lemma mem_false (x : str) (l : list str) : x ∉ l -> Py.mem x l = false.
Proof. intros H. unfold Py.mem. by apply bool_decide_eq_false_2. Qed.

Lemma coversheet_step_no_marker (d : gmap str pval) (line : str) :
  Py.contains parameter_start_key line = false ->
  coversheet_step d line = Ok d.
Proof. intros H. unfold coversheet_step. by rewrite H. Qed.

Lemma coversheet_step_unknown_key (d : gmap str pval) (line : str) :
  parameter_key_of line ∉ coversheet_parameter_list ->
  parameter_key_of line ∉ coversheet_set_list ->
  parameter_key_of line ∉ long_text_parameter_list ->
  coversheet_step d line = Ok d.
Proof.
  intros H1 H2 H3. unfold coversheet_step.
  destruct (Py.contains parameter_start_key line); [|done].
  rewrite (mem_false _ _ H1), (mem_false _ _ H2). simpl.
  by rewrite (mem_false _ _ H3).
Qed.

Lemma coversheet_step_single (d : gmap str pval) (line : str) :
  Py.contains parameter_start_key line = true ->
  parameter_key_of line ∈ coversheet_parameter_list ->
  coversheet_step d line
  = Ok (<[parameter_key_of line := PStr (Py.strip (parameter_value_of line))]> d).
Proof.
  intros Hc H1. unfold coversheet_step. rewrite Hc.
  destruct (catalogs_disjoint (parameter_key_of line)) as [Hd _].
  destruct (Hd H1) as [H2 H3].
  rewrite (mem_true _ _ H1), (mem_false _ _ H2). simpl.
  by rewrite (mem_false _ _ H3).
Qed.

Lemma coversheet_step_set (d : gmap str pval) (line : str) :
  dic_typed d ->
  Py.contains parameter_start_key line = true ->
  parameter_key_of line ∈ coversheet_set_list ->
  coversheet_step d line
  = Ok (<[parameter_key_of line :=
            PList (stored_list d (parameter_key_of line)
                   ++ [Py.strip (parameter_value_of line)])]> d).
Proof.
  intros Hd Hc H2. unfold coversheet_step. rewrite Hc.
  set (k := parameter_key_of line) in *.
  destruct (catalogs_disjoint k) as [Hd1 Hd2].
  assert (H1 : k ∉ coversheet_parameter_list)
    by (intros H1; by destruct (Hd1 H1)).
  rewrite (mem_false _ _ H1), (mem_true _ _ H2), (mem_false _ _ (Hd2 H2)).
  cbv beta iota zeta.
  unfold stored_list, dic_append.
  destruct (d !! k) as [[s|l]|] eqn:Hk.
  - by destruct (proj1 Hd k s H2).
  - rewrite bool_decide_eq_false_2 by done.
    rewrite Hk. reflexivity.
  - rewrite bool_decide_eq_true_2 by done.
    rewrite lookup_insert_eq. simpl. by rewrite insert_insert_eq.
Qed.

Lemma coversheet_step_long (d : gmap str pval) (line : str) :
  dic_typed d ->
  Py.contains parameter_start_key line = true ->
  parameter_key_of line ∈ long_text_parameter_list ->
  coversheet_step d line
  = Ok (<[parameter_key_of line :=
            PStr (stored_text d (parameter_key_of line)
                  ++ Py.replace Py.LF [] (parameter_value_of line))]> d).
Proof.
  intros Hd Hc H3. unfold coversheet_step. rewrite Hc.
  set (k := parameter_key_of line) in *.
  destruct (catalogs_disjoint k) as [Hd1 Hd2].
  assert (H1 : k ∉ coversheet_parameter_list)
    by (intros H1; by destruct (Hd1 H1)).
  assert (H2 : k ∉ coversheet_set_list)
    by (intros H2; by apply (Hd2 H2)).
  rewrite (mem_false _ _ H1), (mem_false _ _ H2). simpl.
  rewrite (mem_true _ _ H3).
  unfold stored_text, dic_iadd.
  destruct (d !! k) as [[s|l]|] eqn:Hk.
  - rewrite bool_decide_eq_false_2 by done.
    by rewrite Hk.
  - by destruct (proj2 Hd k l H3).
  - rewrite bool_decide_eq_true_2 by done.
    rewrite lookup_insert_eq. simpl. by rewrite insert_insert_eq.
Qed.

Lemma coversheet_step_ok (d : gmap str pval) (line : str) :
  dic_typed d ->
  exists d', coversheet_step d line = Ok d' /\ dic_typed d'.
Proof.
  intros Hd.
  destruct (Py.contains parameter_start_key line) eqn:Hc;
    [|exists d; by rewrite coversheet_step_no_marker].
  set (k := parameter_key_of line).
  destruct (catalogs_disjoint k) as [Hd1 Hd2].
  destruct (decide (k ∈ coversheet_parameter_list)) as [H1|H1].
  { eexists. split; [by apply coversheet_step_single|].
    apply dic_typed_insert_str; [|done]. by destruct (Hd1 H1). }
  destruct (decide (k ∈ coversheet_set_list)) as [H2|H2].
  { eexists. split; [by apply coversheet_step_set|].
    apply dic_typed_insert_list; [|done]. by apply Hd2. }
  destruct (decide (k ∈ long_text_parameter_list)) as [H3|H3].
  { eexists. split; [by apply coversheet_step_long|].
    by apply dic_typed_insert_str. }
  exists d. split; [by apply coversheet_step_unknown_key|done].
Qed.

(** *** The geometry step *)

Lemma neg_index_ok {A : Type} (l : list A) (k : nat) :
  (1 <= k <= length l)%nat ->
  exists x, neg_index l k = Ok x /\ l !! (length l - k)%nat = Some x.
Proof.
  intros Hk. unfold neg_index.
  destruct (Nat.leb_spec k (length l)) as [_|E]; [|lia].
  destruct (lookup_lt_is_Some_2 l (length l - k)%nat) as [x Hx]; [lia|].
  exists x. by rewrite Hx.
Qed.

Lemma set_parameter_ok (l : list segment_entry) (k : nat) (key v : str) :
  (1 <= k <= length l)%nat ->
  exists e, l !! (length l - k)%nat = Some e
    /\ set_parameter l k key v
       = Ok (<[(length l - k)%nat := (e.1, <[key := v]> e.2)]> l).
Proof.
  intros Hk. destruct (neg_index_ok l k Hk) as (e & He & Hl).
  exists e. split; [done|].
  unfold set_parameter. rewrite He. cbn [mbind res_bind].
  unfold neg_assign.
  by destruct (Nat.leb_spec k (length l)) as [_|E]; [|lia].
Qed.

Lemma set_parameter_length (l l' : list segment_entry) (k : nat) (key v : str) :
  set_parameter l k key v = Ok l' -> length l' = length l.
Proof.
  unfold set_parameter, neg_assign.
  destruct (neg_index l k) as [e|]; cbn [mbind res_bind]; [|done].
  destruct (k <=? length l)%nat; [|done].
  intros [= <-]. by rewrite length_insert.
Qed.

(** The third test of the [if]/[elif]/[elif] asks for
    [first_single_node_in_this_line == False] after the second one has
    failed on exactly that: [inherit_parameter] is never reached. *)
Lemma assign_parameter_without_inheritance
    (fs : option bool) (c : bool) (l : list segment_entry) (key v : str) :
  assign_parameter fs c l key v
  = match fs with
    | Some true => set_parameter l 1 key v
    | Some false => l1 ← set_parameter l 2 key v; set_parameter l1 1 key v
    | None => Ok l
    end.
Proof.
  unfold assign_parameter. destruct fs as [[|]|]; simpl; try reflexivity.
  by rewrite andb_false_r.
Qed.

Lemma assign_parameter_ok
    (fs : option bool) (c : bool) (l : list segment_entry) (key v : str) :
  params_inv fs l ->
  exists l', assign_parameter fs c l key v = Ok l' /\ params_inv fs l'.
Proof.
  intros [H1 H2]. rewrite assign_parameter_without_inheritance.
  destruct fs as [[|]|].
  - destruct (set_parameter_ok l 1 key v) as (e & _ & Hs); [by split; auto|].
    eexists. split; [exact Hs|].
    split; intros; rewrite length_insert; auto.
  - destruct (set_parameter_ok l 2 key v) as (e & _ & Hs); [by split; auto; lia|].
    rewrite Hs. cbn [mbind res_bind].
    set (l1 := <[_ := _]> l).
    assert (Hl1 : length l1 = length l) by (unfold l1; by rewrite length_insert).
    destruct (set_parameter_ok l1 1 key v) as (e1 & _ & Hs1).
    { rewrite Hl1. specialize (H2 eq_refl). lia. }
    eexists. split; [exact Hs1|].
    split; intros; rewrite length_insert, Hl1; auto.
  - exists l. by split.
Qed.

Lemma keyword_loop_ok (fs : option bool) (line : str)
    (l : list segment_entry) (keywords : list str) :
  params_inv fs l ->
  exists l', for_each (keyword_step fs line) keywords l = Ok l'
             /\ params_inv fs l'.
Proof.
  intros Hl. apply (for_each_inv _ (params_inv fs)); [|done].
  intros st kw Hst. unfold keyword_step.
  destruct (_ && _); [by apply assign_parameter_ok|].
  exists st. by split.
Qed.

Lemma geom_inv_init : geom_inv geom_init.
Proof. split; [simpl; lia|]. by split. Qed.

Lemma endpoints_step_ok (g : geom_state) (line : str) :
  geom_inv g -> exists g', endpoints_step g line = Ok g' /\ geom_inv g'.
Proof.
  intros (Hall & H1 & H2). unfold endpoints_step.
  destruct (_ && _); [|exists g; by repeat split].
  set (all := segment_all_endpoints_list g ++ [_]).
  assert (Hlen : length all = S (length (segment_all_endpoints_list g)))
    by (unfold all; rewrite length_app; simpl; lia).
  destruct (neg_index_ok all 1) as (a1 & -> & _); [lia|].
  destruct (neg_index_ok all 2) as (a2 & -> & _); [lia|].
  cbn [mbind res_bind].
  destruct (bool_decide (a1 <> a2)).
  - destruct (_ =? 1)%nat; cbn [andb].
    + destruct (first_single_node_in_this_line g) as [b|] eqn:Hfs.
      * rewrite bool_decide_eq_false_2 by done.
        destruct (neg_index_ok (raw_segment_parameter_list g) 1)
          as (e & -> & _).
        { destruct b; [specialize (H1 eq_refl) | specialize (H2 eq_refl)]; lia. }
        cbn [mbind res_bind]. eexists. split; [reflexivity|].
        split; cbn; [lia|]. split; [done|].
        intros _. rewrite length_app. simpl. lia.
      * rewrite bool_decide_eq_true_2 by done.
        eexists. split; [reflexivity|].
        split; cbn; [rewrite length_insert; lia|]. split; [|done].
        intros _. rewrite length_app. simpl. lia.
    + eexists. split; [reflexivity|].
      split; cbn; [lia|]. split; [done|].
      intros _. rewrite length_app. simpl. lia.
  - eexists. split; [reflexivity|]. split; cbn; [lia|]. by split.
Qed.

Lemma geometry_step_ok (g : geom_state) (line : str) :
  geom_inv g -> exists g', geometry_step g line = Ok g' /\ geom_inv g'.
Proof.
  intros Hg. unfold geometry_step.
  assert (Hstart : forall g1, geom_inv g1 ->
    exists g', (if Py.contains input_card_start_keyword line
                then Ok {| parsing_raw_geometry := true;
                           first_single_node_in_this_line :=
                             first_single_node_in_this_line g1;
                           segment_all_endpoints_list :=
                             segment_all_endpoints_list g1;
                           raw_segment_parameter_list :=
                             raw_segment_parameter_list g1 |}
                else Ok g1) = Ok g' /\ geom_inv g').
  { intros g1 Hg1. destruct (Py.contains input_card_start_keyword line);
      eexists; (split; [reflexivity|]); [|done].
    destruct Hg1 as [? ?]. by split. }
  destruct (parsing_raw_geometry g); [|by apply Hstart].
  destruct (_ || _).
  { cbn [mbind res_bind]. apply Hstart. destruct Hg as [? ?]. by split. }
  destruct (endpoints_step_ok g line Hg) as (g' & -> & Hall & Hp).
  cbn [mbind res_bind].
  destruct (keyword_loop_ok (first_single_node_in_this_line g') line
              (raw_segment_parameter_list g') nozzle_analysis_keyword_list Hp)
    as (l & -> & Hl).
  cbn [mbind res_bind]. apply Hstart. by split.
Qed.

Lemma raw_step_ok (st : raw_state) (i : nat) (line : str) :
  raw_inv st ->
  exists st', raw_step st i line = Ok st' /\ raw_inv st'
    /\ raw_data_list st' = raw_data_list st ++ [line]
    /\ raw_boundaries st' = boundaries_step (raw_boundaries st) i line.
Proof.
  intros [Hd Hg]. unfold raw_step.
  destruct (coversheet_step_ok _ line Hd) as (d' & -> & Hd').
  destruct (geometry_step_ok _ line Hg) as (g' & -> & Hg').
  cbn [mbind res_bind]. eexists. split; [reflexivity|].
  split; [by split|]. by split.
Qed.

(** [parse_raw_data] returns on every list of lines. *)
Lemma parse_raw_data_total (lines : list str) :
  exists st, parse_raw_data lines = Ok st /\ raw_inv st.
Proof.
  unfold parse_raw_data.
  apply (for_enumerate_res_inv raw_step (fun _ => True) raw_inv).
  - intros st i x _ Hst.
    destruct (raw_step_ok st i x Hst) as (st' & H1 & H2 & _). by exists st'.
  - by apply Forall_forall.
  - split; [apply dic_typed_empty | apply geom_inv_init].
Qed.

(** ** Missing section markers *)

Lemma parse_raw_data_inv (P : str -> Prop) (Inv : boundaries -> Prop)
    (lines : list str) :
  (forall b i x, P x -> Inv b -> Inv (boundaries_step b i x)) ->
  Forall P lines -> Inv boundaries_init ->
  exists st, parse_raw_data lines = Ok st /\ Inv (raw_boundaries st).
Proof.
  intros Hstep Hl H0. unfold parse_raw_data.
  destruct (for_enumerate_res_inv raw_step P
              (fun st => raw_inv st /\ Inv (raw_boundaries st)))
    with (l := lines) (i := 0%nat) (st := raw_init)
    as (st & Hst & _ & Hb); [| done | | by exists st].
  - intros st i x Hx [Hst Hb].
    destruct (raw_step_ok st i x Hst) as (st' & H1 & H2 & _ & H4).
    exists st'. split; [done|]. split; [done|]. rewrite H4. by apply Hstep.
  - split; [|done]. split; [apply dic_typed_empty | apply geom_inv_init].
Qed.

(** The summary stage tests its two bounds and, where the summary header
    was never met, returns its explicit not-found result. *)
Lemma summary_stage_checks_its_boundary
    (py_float : str -> option float) (lines : list str) :
  Forall (fun l => Py.contains pipe_stress_summary_keyword l = false) lines ->
  exists st, parse_raw_data lines = Ok st
    /\ parse_pipe_stress_summary py_float st
       = Ok {| stress_summary_list :=
                 [lit "Error: Pipe stress summary not found in output file."];
               stress_summary_text :=
                 lit "Error: Pipe stress summary not found.";
               stress_ratio_list := [] |}.
Proof.
  intros Hl.
  destruct (parse_raw_data_inv
              (fun l => Py.contains pipe_stress_summary_keyword l = false)
              (fun b => pipe_stress_summary_start_line_number b = None)
              lines) as (st & Hst & Hb); [| done | done |].
  - intros b i x Hx Hb. unfold boundaries_step; simpl. by rewrite Hx.
  - exists st. split; [done|]. unfold parse_pipe_stress_summary.
    by rewrite Hb.
Qed.

(** C8 (the code breaks it).  On a file in which the stress-analysis marker
    never occurs, [parse_raw_data] returns without having created
    [stress_analysis_line_number], and [get_node_connectivities], which
    slices with it unchecked, raises [AttributeError]. *)
Theorem C8_missing_stress_marker_raises (lines : list str) :
  Forall (fun l => Py.contains stress_analysis_keyword l = false) lines ->
  exists st, parse_raw_data lines = Ok st
    /\ stress_analysis_line_number (raw_boundaries st) = None
    /\ get_node_connectivities st = Raise AttributeError.
Proof.
  intros Hl.
  destruct (parse_raw_data_inv
              (fun l => Py.contains stress_analysis_keyword l = false)
              (fun b => stress_analysis_line_number b = None)
              lines) as (st & Hst & Hb); [| done | done |].
  - intros b i x Hx Hb. unfold boundaries_step; simpl. by rewrite Hx.
  - exists st. split; [done|]. split; [done|].
    unfold get_node_connectivities. by rewrite Hb.
Qed.

(** C8 on a two-line file without the stress-analysis marker. *)
Lemma C8_missing_stress_marker_witness :
  exists st,
    parse_raw_data [lit "   NODE DATA  WTDW"; lit " ELEMENT DATA"] = Ok st
    /\ stress_analysis_line_number (raw_boundaries st) = None
    /\ get_node_connectivities st = Raise AttributeError.
Proof.
  apply C8_missing_stress_marker_raises.
  repeat (constructor; [vm_compute; reflexivity|]). constructor.
Defined.

(** ** Facts on the string primitives *)

Lemma startswith_app (sub s : str) : Py.startswith sub (sub ++ s) = true.
Proof.
  induction sub as [|c sub IH]; simpl; [done|].
  by rewrite decide_True.
Qed.

(** [find] walks over characters that differ from the first character of
    the pattern. *)
Lemma find_at_skip (h : ascii) (sub a s : str) (i : Z) :
  Forall (fun c => c <> h) a ->
  Py.find_at i (h :: sub) (a ++ s) = Py.find_at (i + Py.len a) (h :: sub) s.
Proof.
  intros Ha. revert i. induction Ha as [|c a Hc Ha IH]; intros i.
  - unfold Py.len. simpl. by rewrite Z.add_0_r.
  - cbn [app Py.find_at Py.startswith].
    rewrite decide_False by (intros ->; done).
    rewrite IH. f_equal. unfold Py.len. cbn [length]. lia.
Qed.

Lemma find_at_hit (sub s : str) (i : Z) :
  Py.startswith sub s = true -> Py.find_at i sub s = i.
Proof. intros H. destruct s; simpl; by rewrite H. Qed.

Lemma find_first (h : ascii) (sub a s : str) :
  Forall (fun c => c <> h) a ->
  Py.find (h :: sub) (a ++ (h :: sub) ++ s) = Py.len a.
Proof.
  intros Ha. unfold Py.find. rewrite find_at_skip by done.
  rewrite find_at_hit by apply startswith_app. lia.
Qed.

Lemma slice_middle {A : Type} (x y z : list A) :
  Py.slice (Py.len x) (Py.len x + Py.len y) (x ++ y ++ z) = y.
Proof.
  unfold Py.slice, Py.adjust, Py.len. rewrite !length_app.
  destruct (Z.ltb_spec (Z.of_nat (length x)) 0) as [E|_]; [lia|].
  destruct (Z.ltb_spec (Z.of_nat (length x) + Z.of_nat (length y)) 0)
    as [E|_]; [lia|].
  rewrite !Z.min_l by lia.
  replace (Z.to_nat (Z.of_nat (length x))) with (length x) by lia.
  replace (Z.to_nat _) with (length y) by lia.
  rewrite drop_app_length. by rewrite take_app_length.
Qed.

Lemma lstrip_app (a b : str) :
  Py.lstrip (a ++ b)
  = match Py.lstrip a with [] => Py.lstrip b | r => r ++ b end.
Proof.
  induction a as [|c a IH]; simpl; [done|].
  by destruct (Py.isspace c).
Qed.

(** A trailing line feed does not survive [strip]. *)
Lemma strip_trailing_LF (v : str) : Py.strip (v ++ [Py.LF]) = Py.strip v.
Proof.
  unfold Py.strip. rewrite lstrip_app.
  destruct (Py.lstrip v) as [|c r] eqn:Hv; [reflexivity|].
  unfold Py.rstrip. rewrite rev_app_distr. reflexivity.
Qed.

Lemma replace_absent (c : ascii) (v : str) :
  c ∉ v -> Py.replace c [] v = v.
Proof.
  intros Hc. unfold Py.replace. induction v as [|x v IH]; simpl; [done|].
  apply not_elem_of_cons in Hc as [Hx Hv].
  rewrite decide_False by done. simpl. by rewrite IH.
Qed.

Lemma replace_app (c : ascii) (new a b : str) :
  Py.replace c new (a ++ b) = Py.replace c new a ++ Py.replace c new b.
Proof. unfold Py.replace. by rewrite flat_map_app. Qed.

(** ** Comment parameters: the round trip *)

Lemma len_app {A : Type} (a b : list A) : Py.len (a ++ b) = Py.len a + Py.len b.
Proof. unfold Py.len. rewrite length_app. lia. Qed.

(** How a line [pre ***/ mid = value] is taken apart. *)
Lemma comment_line_parse (pre mid value : str) :
  Forall (fun c => c <> "*"%char /\ c <> "="%char) pre ->
  "="%char ∉ mid ->
  let line := pre ++ parameter_start_key ++ mid ++ parameter_end_key ++ value in
  Py.contains parameter_start_key line = true
  /\ parameter_key_of line = Py.strip mid
  /\ parameter_value_of line = value.
Proof.
  intros Hpre Hmid line.
  assert (Hstar : Forall (fun c => c <> "*"%char) pre)
    by (eapply Forall_impl; [exact Hpre|]; by intros c [? ?]).
  assert (Heq : Forall (fun c => c <> "="%char)
                  (pre ++ parameter_start_key ++ mid)).
  { apply Forall_app. split.
    - eapply Forall_impl; [exact Hpre|]. by intros c [? ?].
    - apply Forall_app. split.
      + repeat (constructor; [discriminate|]). constructor.
      + apply Forall_forall. intros c Hc ->. done. }
  assert (Hfs : Py.find parameter_start_key line = Py.len pre).
  { unfold line. change parameter_start_key with ("*"%char :: lit "**/").
    by apply find_first. }
  assert (Hfe : Py.find parameter_end_key line
                = Py.len (pre ++ parameter_start_key ++ mid)).
  { unfold line. change parameter_end_key with ("="%char :: []).
    rewrite (app_assoc pre), (app_assoc (pre ++ _)).
    rewrite <- (app_assoc pre). by apply find_first. }
  split; [|split].
  - unfold Py.contains. rewrite Hfs. apply Z.leb_le. unfold Py.len. lia.
  - unfold parameter_key_of. rewrite Hfs, Hfe. f_equal.
    rewrite (app_assoc pre), len_app, <- len_app.
    unfold line. rewrite (app_assoc pre). apply slice_middle.
  - unfold parameter_value_of. rewrite Hfe.
    replace (Py.len (pre ++ parameter_start_key ++ mid) + 1)
      with (Py.len (pre ++ parameter_start_key ++ mid ++ parameter_end_key)).
    2:{ rewrite !len_app. unfold Py.len at 4. simpl. lia. }
    replace (Py.len line)
      with (Py.len (pre ++ parameter_start_key ++ mid ++ parameter_end_key)
            + Py.len value).
    2:{ unfold line. rewrite !len_app. lia. }
    replace line
      with ((pre ++ parameter_start_key ++ mid ++ parameter_end_key)
            ++ value ++ []).
    2:{ unfold line. rewrite app_nil_r, <- !app_assoc. reflexivity. }
    apply slice_middle.
Qed.

(** The step of the comment-parameter scanner on a line
    [pre ***/ mid = value], from a map in which the repeatable keys hold
    lists and the multi-line keys hold text. *)
Lemma coversheet_step_round_trip
    (d : gmap str pval) (pre mid value : str) :
  dic_typed d ->
  Forall (fun c => c <> "*"%char /\ c <> "="%char) pre ->
  "="%char ∉ mid ->
  let line := pre ++ parameter_start_key ++ mid ++ parameter_end_key ++ value in
  let key := Py.strip mid in
  exists d', coversheet_step d line = Ok d'
    /\ (key ∈ coversheet_parameter_list ->
          d' !! key = Some (PStr (Py.strip value)))
    /\ (key ∈ coversheet_set_list ->
          d' !! key = Some (PList (stored_list d key ++ [Py.strip value])))
    /\ (key ∈ long_text_parameter_list ->
          d' !! key
          = Some (PStr (stored_text d key ++ Py.replace Py.LF [] value)))
    /\ (key ∉ coversheet_parameter_list ->
        key ∉ coversheet_set_list ->
        key ∉ long_text_parameter_list ->
        d' = d).
Proof.
  intros Hd Hpre Hmid line key.
  destruct (comment_line_parse pre mid value Hpre Hmid) as (Hc & Hk & Hv).
  fold line in Hc, Hk, Hv. fold key in Hk.
  destruct (coversheet_step_ok d line Hd) as (d' & Hstep & _).
  exists d'. split; [done|].
  split; [|split; [|split]].
  - intros H1. rewrite <- Hk in H1.
    rewrite coversheet_step_single in Hstep by done.
    injection Hstep as <-. by rewrite Hk, Hv, lookup_insert_eq.
  - intros H2. rewrite <- Hk in H2.
    rewrite coversheet_step_set in Hstep by done.
    injection Hstep as <-. by rewrite Hk, Hv, lookup_insert_eq.
  - intros H3. rewrite <- Hk in H3.
    rewrite coversheet_step_long in Hstep by done.
    injection Hstep as <-. by rewrite Hk, Hv, lookup_insert_eq.
  - intros H1 H2 H3. rewrite <- Hk in H1, H2, H3.
    rewrite coversheet_step_unknown_key in Hstep by done.
    by injection Hstep as <-.
Qed.

Lemma for_enumerate_res_snoc {St A : Type} (body : St -> nat -> A -> res St)
    (l : list A) (x : A) (i : nat) (st : St) :
  for_enumerate_res body i (l ++ [x]) st
  = st' ← for_enumerate_res body i l st; body st' (i + length l)%nat x.
Proof.
  revert i st. induction l as [|y l IH]; intros i st; simpl.
  - rewrite Nat.add_0_r. by destruct (body st i x).
  - destruct (body st i y) as [st1|e]; simpl; [|done].
    rewrite IH. by replace (S i + length l)%nat with (i + S (length l))%nat by lia.
Qed.

(** The map after one more line is the map before it, stepped. *)
Lemma parse_raw_data_snoc (before : list str) (line : str) :
  exists st st',
    parse_raw_data before = Ok st
    /\ parse_raw_data (before ++ [line]) = Ok st'
    /\ dic_typed (coversheet_parameter_dic st)
    /\ coversheet_step (coversheet_parameter_dic st) line
       = Ok (coversheet_parameter_dic st').
Proof.
  destruct (parse_raw_data_total before) as (st & Hst & Hinv).
  destruct (raw_step_ok st (0 + length before) line Hinv)
    as (st' & Hstep & _ & _ & _).
  exists st, st'. split; [done|]. split.
  - unfold parse_raw_data in *. by rewrite for_enumerate_res_snoc, Hst.
  - split; [apply Hinv|].
    unfold raw_step in Hstep.
    destruct (coversheet_step _ line) as [d|]; [|done].
    cbn [mbind res_bind] in Hstep.
    destruct (geometry_step _ line) as [g|]; [|done].
    cbn [mbind res_bind] in Hstep. by injection Hstep as <-.
Qed.

(** ** Geometry cards: the inheritance fallback *)

(** C2 (the code breaks it).  The branch that copies a value from the
    third-most-recent entry cannot run: whatever the state, the value
    attached is the one read on the line.  On the two-card fixture the
    entries of the second card lack [OD] when its keyword is examined and the
    entry three places back has [OD = 4.5]: the inheritance branch would
    store 4.5 in both, and the parser stores the line's own [6.625]. *)
Theorem C2_inheritance_never_applied :
  (forall fs c l key v,
     assign_parameter fs c l key v
     = match fs with
       | Some true => set_parameter l 1 key v
       | Some false => l1 ← set_parameter l 2 key v; set_parameter l1 1 key v
       | None => Ok l
       end)
  /\ (l ← inherit_parameter fixture_entries_at_second_card (lit "OD");
      Ok (map entry_view l))
     = Ok [(lit "10", Some (lit "4.5"), Some (lit "0.3"));
           (lit "20", Some (lit "4.5"), Some (lit "0.3"));
           (lit "20", Some (lit "4.5"), None);
           (lit "30", Some (lit "4.5"), None)]
  /\ (l ← assign_parameter (Some false) false
             fixture_entries_at_second_card (lit "OD") (lit "6.625");
      Ok (map entry_view l))
     = Ok [(lit "10", Some (lit "4.5"), Some (lit "0.3"));
           (lit "20", Some (lit "4.5"), Some (lit "0.3"));
           (lit "20", Some (lit "6.625"), None);
           (lit "30", Some (lit "6.625"), None)]
  /\ parsed_entries fixture_two_cards
     = Ok [(lit "10", Some (lit "4.5"), Some (lit "0.3"));
           (lit "20", Some (lit "4.5"), Some (lit "0.3"));
           (lit "20", Some (lit "6.625"), None);
           (lit "30", Some (lit "6.625"), None)].
Proof.
  split; [apply assign_parameter_without_inheritance|].
  split; [vm_compute; reflexivity|].
  split; [vm_compute; reflexivity|].
  vm_compute. reflexivity.
Qed.

(** ** Coordinate extraction *)

Example ex_long_id_row :
  node_id_raw (coordinate_line "123 5678") = lit "123 5678"
  /\ node_id_unsuffixed (coordinate_line "123 5678") = lit "123 56"
  /\ coordinate_columns_numeric (coordinate_line "123 5678") = true.
Proof. vm_compute. repeat split. Qed.

Example ex_long_id_parse :
  (r ← parse_node_coordinates [lit "WTDW"] [(lit "10", lit "20")]
         fixture_long_id;
   Ok (r.1 !! lit "WTDW", r.2))
  = Ok (Some [(lit "123 56", lit "  1.00", lit "  2.00", lit "  3.00")],
        [lit "12356"]).
Proof. vm_compute. reflexivity. Qed.

Lemma slice_0 {A : Type} (n : Z) (s : list A) :
  0 <= n -> Py.slice 0 n s = take (Z.to_nat n) s.
Proof.
  intros Hn. unfold Py.slice, Py.adjust, Py.len.
  destruct (Z.ltb_spec 0 0) as [E|_]; [lia|].
  destruct (Z.ltb_spec n 0) as [E|_]; [lia|].
  rewrite (Z.min_l 0) by lia. simpl. rewrite Z.sub_0_r.
  destruct (Z.le_ge_cases n (Z.of_nat (length s))) as [Hle|Hge].
  - by rewrite Z.min_l by lia.
  - rewrite Z.min_r by lia.
    rewrite (take_ge s (Z.to_nat n)) by lia.
    apply take_ge. lia.
Qed.

Lemma lstrip_suffix (s : str) : exists a, s = a ++ Py.lstrip s.
Proof.
  induction s as [|c s [a Ha]]; simpl; [by exists []|].
  destruct (Py.isspace c); [|by exists []].
  exists (c :: a). simpl. by rewrite <- Ha.
Qed.

Lemma lstrip_head (s r : str) (c : ascii) :
  Py.lstrip s = c :: r -> Py.isspace c = false.
Proof.
  induction s as [|x s IH]; simpl; [done|].
  destruct (Py.isspace x) eqn:Hx; [done|]. by intros [= <- _].
Qed.

Lemma lstrip_take_prefix (n : nat) (w : str) :
  Py.lstrip (take n w) `prefix_of` Py.lstrip w.
Proof.
  revert n. induction w as [|c w IH]; intros [|n]; simpl;
    try apply prefix_nil.
  destruct (Py.isspace c); [apply IH|].
  apply prefix_cons, prefix_take.
Qed.

Lemma rstrip_prefix (p : str) : Py.rstrip p `prefix_of` p.
Proof.
  unfold Py.rstrip. destruct (lstrip_suffix (rev p)) as [a Ha].
  exists (rev a). rewrite <- rev_app_distr, <- Ha. by rewrite rev_involutive.
Qed.

Lemma rstrip_last (s r : str) (c : ascii) :
  Py.rstrip s = r ++ [c] -> Py.isspace c = false.
Proof.
  unfold Py.rstrip. intros H.
  apply (f_equal (@rev ascii)) in H.
  rewrite rev_involutive, rev_app_distr in H. simpl in H.
  by apply lstrip_head in H.
Qed.

(** The id kept from columns 0-6 is a proper prefix of the id read from
    columns 0-8 as soon as the latter has more than six characters, and what
    is cut off is not made of spaces only. *)
Lemma unsuffixed_id_truncates (line : str) :
  (6 < length (node_id_raw line))%nat ->
  exists rest,
    node_id_raw line = node_id_unsuffixed line ++ rest
    /\ rest <> []
    /\ Py.replace " " [] rest <> [].
Proof.
  unfold node_id_raw, node_id_unsuffixed.
  rewrite !slice_0 by lia.
  change (Z.to_nat 8) with 8%nat. change (Z.to_nat 6) with 6%nat.
  set (w := take 8 line).
  replace (take 6 line) with (take 6 w)
    by (unfold w; by rewrite take_take).
  unfold Py.strip. set (r := Py.lstrip w). set (p := Py.lstrip (take 6 w)).
  intros Hlen.
  assert (Hp : (length p <= 6)%nat).
  { destruct (lstrip_suffix (take 6 w)) as [a Ha]. fold p in Ha.
    apply (f_equal (@length ascii)) in Ha.
    rewrite length_app, length_take in Ha. lia. }
  assert (Hpr : Py.rstrip p `prefix_of` r).
  { etrans; [apply rstrip_prefix|]. apply lstrip_take_prefix. }
  assert (Hlp : (length (Py.rstrip p) <= 6)%nat).
  { pose proof (prefix_length _ _ (rstrip_prefix p)). lia. }
  destruct (prefix_weak_total _ _ _ Hpr (rstrip_prefix r)) as [[rest Hr]|H].
  2:{ apply prefix_length in H. lia. }
  exists rest. split; [done|].
  assert (Hne : rest <> []).
  { intros ->. rewrite app_nil_r in Hr. rewrite Hr in Hlen. lia. }
  split; [done|].
  destruct (exists_last Hne) as (rest' & c & ->).
  rewrite app_assoc in Hr. apply rstrip_last in Hr.
  rewrite replace_app. intros H. apply app_eq_nil in H as [_ H].
  unfold Py.replace in H. simpl in H.
  destruct (decide (c = " "%char)) as [->|]; [done|]. discriminate.
Qed.

(** C10 (amended).  A qualifying row that is stored without the suffix is
    stored under the id of columns 0-6, while the id looked up in the edges
    is that of columns 0-8; when the latter has more than six characters the
    stored id is a proper prefix of it.  The registry receives the stored id
    with its spaces removed, a proper prefix of the looked-up id with its
    spaces removed. *)
Theorem C10_unsuffixed_id_is_truncated
    (load_case_list : list str) (conn : list (str * str))
    (st : coord_state) (line current : str) (rows : list coord_row) :
  coord_markers load_case_list st line = (true, Some current) ->
  coordinate_columns_numeric line = true ->
  conn <> [] ->
  suffix_needed conn (node_id_raw line) = false ->
  geometry_dic st !! current = Some rows ->
  (6 < length (node_id_raw line))%nat ->
  exists st' rest,
    coord_body load_case_list conn st line = Ok st'
    /\ geometry_dic st' !! current
       = Some (rows ++ [(node_id_unsuffixed line, Py.slice 33 39 line,
                         Py.slice 44 50 line, Py.slice 55 61 line)])
    /\ all_coordinate_id_list st'
       = all_coordinate_id_list st
         ++ [Py.replace " " [] (node_id_unsuffixed line)]
    /\ node_id_raw line = node_id_unsuffixed line ++ rest
    /\ rest <> []
    /\ Py.replace " " [] (node_id_raw line)
       = Py.replace " " [] (node_id_unsuffixed line) ++ Py.replace " " [] rest
    /\ Py.replace " " [] rest <> [].
Proof.
  intros Hm Hnum Hconn Hsuf Hrows Hlen.
  destruct (unsuffixed_id_truncates line Hlen) as (rest & Hr & Hne & Hsp).
  unfold coord_body. rewrite Hm, Hnum, Hsuf.
  rewrite bool_decide_eq_true_2 by done.
  rewrite bool_decide_eq_false_2 by done.
  cbn [andb]. unfold geometry_append. rewrite Hrows. cbn [mbind res_bind].
  eexists. exists rest. split; [reflexivity|].
  cbn [geometry_dic all_coordinate_id_list].
  split; [by rewrite lookup_insert_eq|].
  split; [done|]. split; [done|]. split; [done|].
  split; [|done]. rewrite Hr at 1. apply replace_app.
Qed.

(** C10 on a row with the seven-character id [1234567], after the
    [NODE DATA] header of load case [WTDW]. *)
Lemma C10_truncation_witness :
  exists st' rest,
    coord_body [lit "WTDW"] [(lit "10", lit "20")]
      {| coord_parse_data := true;
         current_load_case := Some (lit "WTDW");
         geometry_dic := {[ lit "WTDW" := [] ]};
         all_coordinate_id_list := [] |}
      (coordinate_line "1234567") = Ok st'
    /\ all_coordinate_id_list st' = [lit "123456"]
    /\ lit "1234567" = lit "123456" ++ rest
    /\ rest <> [].
Proof.
  destruct (C10_unsuffixed_id_is_truncated
              [lit "WTDW"] [(lit "10", lit "20")]
              {| coord_parse_data := true;
                 current_load_case := Some (lit "WTDW");
                 geometry_dic := {[ lit "WTDW" := [] ]};
                 all_coordinate_id_list := [] |}
              (coordinate_line "1234567") (lit "WTDW") [])
    as (st' & rest & H1 & _ & H3 & H4 & H5 & _).
  - vm_compute. reflexivity.
  - vm_compute. reflexivity.
  - discriminate.
  - vm_compute. reflexivity.
  - apply lookup_singleton_eq.
  - vm_compute. lia.
  - exists st', rest. split; [exact H1|]. split; [exact H3|].
    split; [exact H4 | exact H5].
Defined.

(** C10 as stated fails for the registry: on the row with id field
    [123 5678] (seven characters other than the space) the id looked up is
    [123 5678], the id stored is [123 56], and the registry receives
    [12356], which is not a prefix of [123 5678]. *)
Lemma C10_registry_id_counterexample :
  node_id_raw (coordinate_line "123 5678") = lit "123 5678"
  /\ (r ← parse_node_coordinates [lit "WTDW"] [(lit "10", lit "20")]
            fixture_long_id;
      Ok (r.1 !! lit "WTDW", r.2))
     = Ok (Some [(lit "123 56", lit "  1.00", lit "  2.00", lit "  3.00")],
           [lit "12356"])
  /\ ~ lit "12356" `prefix_of` lit "123 5678".
Proof.
  split; [vm_compute; reflexivity|].
  split; [vm_compute; reflexivity|].
  intros [k Hk]. vm_compute in Hk. discriminate.
Qed.

(** ** Plot loops: endpoints that do not resolve *)

Section PlotFacts.

Context (np_float : str -> option float) (figure : Type).
Context (draw_stress_segment :
  figure -> nat -> str * str -> ndarray -> ndarray -> nat -> nat -> res figure).
Context (draw_thor_segment :
  figure -> nat -> str * str -> ndarray -> ndarray -> res figure).

Lemma first_index_none {A : Type} (p : A -> bool) (l : list A) :
  Forall (fun x => p x = false) l -> first_index p l = None.
Proof.
  induction 1 as [|x l Hx Hl IH]; simpl; [done|]. by rewrite Hx, IH.
Qed.

(** An id without a stress record makes the index lookup raise. *)
Lemma stress_index_missing (sustained_stresses : list stress_record) (id : str) :
  Forall (fun r => r.1.1 <> Py.strip id) sustained_stresses ->
  stress_index sustained_stresses id = Raise IndexError.
Proof.
  intros H. unfold stress_index. rewrite first_index_none; [done|].
  eapply Forall_impl; [exact H|]. intros r Hr. by apply bool_decide_eq_false_2.
Qed.

(** An id without a coordinate record resolves to an empty array. *)
Lemma endpoint_coordinates_missing
    (coordinates : list coordinate_record) (id : str) :
  Forall (fun r => r.1.1.1 <> id) coordinates ->
  endpoint_coordinates np_float coordinates id = Ok (Mat []).
Proof.
  intros H. unfold endpoint_coordinates.
  replace (List.filter _ coordinates) with (@nil coordinate_record); [done|].
  symmetry. induction H as [|r l Hr Hl IH]; simpl; [done|].
  by rewrite bool_decide_eq_false_2.
Qed.

(** The THOR loop skips an edge with an endpoint that has no coordinates. *)
Lemma thor_plot_body_skips (dic : gmap str ndarray)
    (fig : figure) (segment_cnt : nat) (segment : str * str) :
  dic !! segment.1 = None \/ dic !! segment.2 = None ->
  thor_plot_body figure draw_thor_segment dic fig segment_cnt segment = Ok fig.
Proof.
  intros H. unfold thor_plot_body, thor_lookup.
  destruct (dic !! segment.1) as [o|]; [|done].
  destruct H as [H|H]; [done|]. by rewrite H.
Qed.

End PlotFacts.

Lemma stress_index_raises_only_IndexError
    (sustained_stresses : list stress_record) (id : str) (e : exn) :
  stress_index sustained_stresses id = Raise e -> e = IndexError.
Proof.
  unfold stress_index. destruct (first_index _ _); [done|]. by intros [= <-].
Qed.

Lemma label_position_raises_only_IndexError (a : ndarray) (e : exn) :
  label_position a = Raise e -> e = IndexError.
Proof.
  unfold label_position, nd_index.
  destruct a as [v|rows];
    repeat (match goal with
            | |- context [?l !! ?i] => destruct (l !! i)
            end; cbn [mbind res_bind]; try done);
    by intros [= <-].
Qed.

Lemma label_position_empty : label_position (Mat []) = Raise IndexError.
Proof. reflexivity. Qed.

(** C7 (the code breaks it).  In the loop of [get_stress_plot], an edge one
    of whose endpoints has no stress record, or whose destination has no
    coordinate record, raises [IndexError]: nothing catches it, the edge is
    not skipped and the pass ends there.  The loop of [get_THOR_plot] does
    what the claim says: an edge with an endpoint missing from its
    coordinate dictionary is skipped and the figure is left as it was. *)
Theorem C7_stress_plot_raises_on_unresolved_endpoint
    (np_float : str -> option float) (figure : Type)
    (draw_stress_segment :
       figure -> nat -> str * str -> ndarray -> ndarray -> nat -> nat
       -> res figure)
    (draw_thor_segment :
       figure -> nat -> str * str -> ndarray -> ndarray -> res figure)
    (coordinates : list coordinate_record)
    (sustained_stresses : list stress_record)
    (segment : str * str) (rest : list (str * str))
    (fig : figure) (segment_cnt : nat) (o d : ndarray) :
  endpoint_coordinates np_float coordinates segment.1 = Ok o ->
  endpoint_coordinates np_float coordinates segment.2 = Ok d ->
  Forall (fun r => r.1.1 <> Py.strip segment.1) sustained_stresses
  \/ Forall (fun r => r.1.1 <> Py.strip segment.2) sustained_stresses
  \/ Forall (fun r => r.1.1.1 <> segment.2) coordinates ->
  stress_plot_body np_float figure draw_stress_segment
    coordinates sustained_stresses fig segment_cnt segment
  = Raise IndexError
  /\ stress_plot_loop np_float figure draw_stress_segment
       coordinates sustained_stresses (segment :: rest) fig
     = Raise IndexError
  /\ (forall dic : gmap str ndarray,
        dic !! segment.1 = None \/ dic !! segment.2 = None ->
        thor_plot_body figure draw_thor_segment dic fig segment_cnt segment
        = Ok fig).
Proof.
  intros Ho Hd Hmiss.
  assert (Hbody : forall cnt,
    stress_plot_body np_float figure draw_stress_segment
      coordinates sustained_stresses fig cnt segment = Raise IndexError).
  { intros cnt. unfold stress_plot_body. rewrite Ho, Hd.
    cbn [mbind res_bind].
    destruct Hmiss as [H1 | [H2 | H3]].
    - rewrite (stress_index_missing _ _ H1). reflexivity.
    - destruct (stress_index sustained_stresses segment.1) as [i|e] eqn:Hi.
      + cbn [mbind res_bind]. rewrite (stress_index_missing _ _ H2).
        reflexivity.
      + by rewrite (stress_index_raises_only_IndexError _ _ _ Hi).
    - rewrite (endpoint_coordinates_missing np_float _ _ H3) in Hd.
      injection Hd as <-.
      destruct (stress_index sustained_stresses segment.1) as [i|e] eqn:Hi;
        [|by rewrite (stress_index_raises_only_IndexError _ _ _ Hi)].
      destruct (stress_index sustained_stresses segment.2) as [j|e] eqn:Hj;
        [|by rewrite (stress_index_raises_only_IndexError _ _ _ Hj)].
      cbn [mbind res_bind].
      destruct (cnt =? 0)%nat; [|reflexivity].
      destruct (label_position o) as [[]|e] eqn:Hl; [reflexivity|].
      by rewrite (label_position_raises_only_IndexError _ _ Hl). }
  split; [apply Hbody|]. split.
  - unfold stress_plot_loop. cbn [for_enumerate_res]. by rewrite Hbody.
  - intros dic Hdic. by apply thor_plot_body_skips.
Qed.

(** C7 on the edge [10 -> 20] where node 10 has coordinates but no stress
    row; the drawing code is never reached. *)
Lemma C7_unresolved_endpoint_witness :
  stress_plot_loop (fun _ => None) unit (fun _ _ _ _ _ _ _ => Ok ())
    fixture_coordinates fixture_stresses [(lit "10", lit "20")] ()
  = Raise IndexError.
Proof.
  destruct (C7_stress_plot_raises_on_unresolved_endpoint
              (fun _ => None) unit (fun _ _ _ _ _ _ _ => Ok ())
              (fun _ _ _ _ _ => Ok ())
              fixture_coordinates fixture_stresses
              (lit "10", lit "20") [] () 0%nat
              (Vec [0; 0; 0]%float) (Vec [0; 0; 13]%float))
    as (_ & H & _).
  - vm_compute. reflexivity.
  - vm_compute. reflexivity.
  - left. repeat (constructor; [vm_compute; discriminate|]). constructor.
  - exact H.
Defined.

(** ** The tube mesh *)




(** The reference vector of the ring need not have norm 1/24: the two
    divisions and the square root round. *)
Example ex_reference_vector_norm :
  let random_vec := normalized_random_vec (0.5, 0.5, 0.5)%float in
  let origin := (0, 0, 0)%float in
  let destination := (0, 0, 13)%float in
  random_normal_vec random_vec origin destination
  = (0.029462782549439483, 0.029462782549439483, 0)%float
  /\ norm (random_normal_vec random_vec origin destination)
     = 0.041666666666666671%float
  /\ (1 / 24 = 0.041666666666666664)%float
  /\ PrimFloat.eqb (norm (random_normal_vec random_vec origin destination))
       (1 / 24) = false.
Proof. vm_compute. repeat split. Qed.



(** * Further properties of the code *)

(** ** [parse_raw_data]: the whole file *)

Lemma parse_raw_data_step (before : list str) (line : str) :
  exists st st',
    parse_raw_data before = Ok st
    /\ parse_raw_data (before ++ [line]) = Ok st'
    /\ raw_inv st
    /\ raw_step st (length before) line = Ok st'.
Proof.
  destruct (parse_raw_data_total before) as (st & Hst & Hinv).
  destruct (raw_step_ok st (0 + length before) line Hinv)
    as (st' & Hstep & _ & _ & _).
  exists st, st'. split; [done|]. split; [|by split].
  unfold parse_raw_data in *. by rewrite for_enumerate_res_snoc, Hst.
Qed.

(** An induction principle: a property of the state that holds initially and
    is carried by every step from a well-formed state holds after the file. *)
Lemma parse_raw_data_ind (P : list str -> raw_state -> Prop) :
  P [] raw_init ->
  (forall before line st st',
     raw_inv st -> P before st ->
     raw_step st (length before) line = Ok st' ->
     P (before ++ [line]) st') ->
  forall lines st, parse_raw_data lines = Ok st -> P lines st.
Proof.
  intros H0 Hstep lines. induction lines as [|line before IH] using rev_ind.
  - intros st [= <-]. exact H0.
  - intros st' Hst'.
    destruct (parse_raw_data_step before line) as (st & st1 & H1 & H2 & Hinv & Hs).
    rewrite H2 in Hst'. injection Hst' as <-.
    eapply Hstep; [exact Hinv | by apply IH | exact Hs].
Qed.

Lemma raw_step_components (st st' : raw_state) (i : nat) (line : str) :
  raw_step st i line = Ok st' ->
  raw_data_list st' = raw_data_list st ++ [line]
  /\ raw_boundaries st' = boundaries_step (raw_boundaries st) i line
  /\ coversheet_step (coversheet_parameter_dic st) line
     = Ok (coversheet_parameter_dic st')
  /\ geometry_step (raw_geometry st) line = Ok (raw_geometry st').
Proof.
  unfold raw_step.
  destruct (coversheet_step _ line) as [d|]; [|done].
  cbn [mbind res_bind].
  destruct (geometry_step _ line) as [g|]; [|done].
  cbn [mbind res_bind]. by intros [= <-].
Qed.

(** X1.  [parse_raw_data] returns on every file: the negative indices of the
    geometry parser never leave the list and the parameter map never meets an
    entry of the wrong kind; and [raw_data_list] then holds the lines of the
    file, in order. *)
Theorem X1_parse_raw_data_returns_with_all_lines (lines : list str) :
  exists st, parse_raw_data lines = Ok st /\ raw_data_list st = lines.
Proof.
  destruct (parse_raw_data_total lines) as (st & Hst & _).
  exists st. split; [done|].
  revert lines st Hst. apply parse_raw_data_ind; [done|].
  intros before line st st' _ IH Hs.
  apply raw_step_components in Hs as (-> & _). by rewrite IH.
Qed.

Lemma parse_raw_data_keeps_lines (lines : list str) (st : raw_state) :
  parse_raw_data lines = Ok st -> raw_data_list st = lines.
Proof.
  revert lines st. apply parse_raw_data_ind; [done|].
  intros before line st st' _ IH Hs.
  apply raw_step_components in Hs as (-> & _). by rewrite IH.
Qed.

(** ** The parameter map after the whole file *)

(** What a step does to the entry of a key [k], by the catalog of [k]. *)
Lemma coversheet_step_entry (d d' : gmap str pval) (line k : str) :
  dic_typed d ->
  coversheet_step d line = Ok d' ->
  (declares k line = false -> d' !! k = d !! k)
  /\ (declares k line = true -> k ∈ coversheet_parameter_list ->
        d' !! k = Some (PStr (Py.strip (parameter_value_of line))))
  /\ (declares k line = true -> k ∈ coversheet_set_list ->
        d' !! k = Some (PList (stored_list d k
                               ++ [Py.strip (parameter_value_of line)])))
  /\ (declares k line = true -> k ∈ long_text_parameter_list ->
        d' !! k = Some (PStr (stored_text d k
                              ++ Py.replace Py.LF [] (parameter_value_of line)))).
Proof.
  intros Hd Hstep. unfold declares.
  destruct (Py.contains parameter_start_key line) eqn:Hc.
  2:{ rewrite coversheet_step_no_marker in Hstep by done.
      injection Hstep as <-. by repeat split. }
  cbn [andb].
  assert (Hother : parameter_key_of line <> k -> d' !! k = d !! k).
  { intros Hne. set (key := parameter_key_of line) in *.
    destruct (decide (key ∈ coversheet_parameter_list)) as [H1|H1].
    { rewrite coversheet_step_single in Hstep by done.
      injection Hstep as <-. by rewrite lookup_insert_ne. }
    destruct (decide (key ∈ coversheet_set_list)) as [H2|H2].
    { rewrite coversheet_step_set in Hstep by done.
      injection Hstep as <-. by rewrite lookup_insert_ne. }
    destruct (decide (key ∈ long_text_parameter_list)) as [H3|H3].
    { rewrite coversheet_step_long in Hstep by done.
      injection Hstep as <-. by rewrite lookup_insert_ne. }
    rewrite coversheet_step_unknown_key in Hstep by done.
    by injection Hstep as <-. }
  split; [|split; [|split]].
  - intros Hk. apply Hother. by apply bool_decide_eq_false_1 in Hk.
  - intros Hk H1. apply bool_decide_eq_true_1 in Hk. subst k.
    rewrite coversheet_step_single in Hstep by done.
    injection Hstep as <-. by rewrite lookup_insert_eq.
  - intros Hk H2. apply bool_decide_eq_true_1 in Hk. subst k.
    rewrite coversheet_step_set in Hstep by done.
    injection Hstep as <-. by rewrite lookup_insert_eq.
  - intros Hk H3. apply bool_decide_eq_true_1 in Hk. subst k.
    rewrite coversheet_step_long in Hstep by done.
    injection Hstep as <-. by rewrite lookup_insert_eq.
Qed.

Lemma declarations_snoc (k : str) (before : list str) (line : str) :
  declarations k (before ++ [line])
  = declarations k before ++ (if declares k line then [line] else []).
Proof. unfold declarations. by rewrite List.filter_app. Qed.

Lemma single_value_after_file (lines : list str) (st : raw_state) (k : str) :
  parse_raw_data lines = Ok st ->
  k ∈ coversheet_parameter_list ->
  coversheet_parameter_dic st !! k
  = (fun l => PStr (Py.strip (parameter_value_of l)))
      <$> last (declarations k lines).
Proof.
  intros Hst Hk. revert lines st Hst. apply parse_raw_data_ind.
  - change (coversheet_parameter_dic raw_init) with (∅ : gmap str pval).
    by rewrite lookup_empty.
  - intros before line st st' [Hd _] IH Hs.
    apply raw_step_components in Hs as (_ & _ & Hs & _).
    destruct (coversheet_step_entry _ _ line k Hd Hs) as (H0 & H1 & _).
    rewrite declarations_snoc.
    destruct (declares k line) eqn:Hdec.
    + rewrite last_snoc. simpl. by apply H1.
    + rewrite app_nil_r, H0 by done. exact IH.
Qed.

Lemma repeatable_after_file (lines : list str) (st : raw_state) (k : str) :
  parse_raw_data lines = Ok st ->
  k ∈ coversheet_set_list ->
  stored_list (coversheet_parameter_dic st) k
  = map (fun l => Py.strip (parameter_value_of l)) (declarations k lines).
Proof.
  intros Hst Hk. revert lines st Hst. apply parse_raw_data_ind.
  - change (coversheet_parameter_dic raw_init) with (∅ : gmap str pval).
    unfold stored_list. by rewrite lookup_empty.
  - intros before line st st' [Hd _] IH Hs.
    apply raw_step_components in Hs as (_ & _ & Hs & _).
    destruct (coversheet_step_entry _ _ line k Hd Hs) as (H0 & _ & H2 & _).
    rewrite declarations_snoc, map_app.
    destruct (declares k line) eqn:Hdec.
    + unfold stored_list at 1. rewrite H2 by done. by rewrite IH.
    + unfold stored_list at 1. rewrite H0 by done.
      fold (stored_list (coversheet_parameter_dic st) k).
      by rewrite IH, app_nil_r.
Qed.

Lemma multi_line_after_file (lines : list str) (st : raw_state) (k : str) :
  parse_raw_data lines = Ok st ->
  k ∈ long_text_parameter_list ->
  stored_text (coversheet_parameter_dic st) k
  = concat (map (fun l => Py.replace Py.LF [] (parameter_value_of l))
              (declarations k lines)).
Proof.
  intros Hst Hk. revert lines st Hst. apply parse_raw_data_ind.
  - change (coversheet_parameter_dic raw_init) with (∅ : gmap str pval).
    unfold stored_text. by rewrite lookup_empty.
  - intros before line st st' [Hd _] IH Hs.
    apply raw_step_components in Hs as (_ & _ & Hs & _).
    destruct (coversheet_step_entry _ _ line k Hd Hs) as (H0 & _ & _ & H3).
    rewrite declarations_snoc, map_app, concat_app.
    destruct (declares k line) eqn:Hdec.
    + unfold stored_text at 1. rewrite H3 by done. rewrite IH. simpl.
      by rewrite app_nil_r.
    + unfold stored_text at 1. rewrite H0 by done.
      fold (stored_text (coversheet_parameter_dic st) k).
      by rewrite IH, app_nil_r.
Qed.

(** Once declared, a repeatable key is in the map with all its values. *)
Lemma repeatable_entry_after_file (lines : list str) (st : raw_state) (k : str) :
  parse_raw_data lines = Ok st ->
  k ∈ coversheet_set_list ->
  declarations k lines <> [] ->
  coversheet_parameter_dic st !! k
  = Some (PList (map (fun l => Py.strip (parameter_value_of l))
                   (declarations k lines))).
Proof.
  intros Hst Hk Hne.
  pose proof (repeatable_after_file lines st k Hst Hk) as H.
  unfold stored_list in H.
  destruct (declarations k lines) as [|l ls]; [done|].
  destruct (coversheet_parameter_dic st !! k) as [[t|vs]|]; try done.
  by rewrite H.
Qed.

(** Once declared, a multi-line key is in the map with its whole text. *)
Lemma multi_line_entry_after_file (lines : list str) (st : raw_state) (k : str) :
  parse_raw_data lines = Ok st ->
  k ∈ long_text_parameter_list ->
  declarations k lines <> [] ->
  coversheet_parameter_dic st !! k
  = Some (PStr (concat (map (fun l => Py.replace Py.LF [] (parameter_value_of l))
                          (declarations k lines)))).
Proof.
  intros Hst Hk Hne.
  assert (H : stored_text (coversheet_parameter_dic st) k
              = concat (map (fun l => Py.replace Py.LF [] (parameter_value_of l))
                          (declarations k lines))
              /\ (declarations k lines <> [] ->
                  exists t, coversheet_parameter_dic st !! k = Some (PStr t))).
  { clear Hne. revert lines st Hst.
    apply (parse_raw_data_ind (fun lines st =>
      stored_text (coversheet_parameter_dic st) k
      = concat (map (fun l => Py.replace Py.LF [] (parameter_value_of l))
                  (declarations k lines))
      /\ (declarations k lines <> [] ->
          exists t, coversheet_parameter_dic st !! k = Some (PStr t)))).
    - split; [|done].
      change (coversheet_parameter_dic raw_init) with (∅ : gmap str pval).
      unfold stored_text. by rewrite lookup_empty.
    - intros before line st st' [Hd _] [Htext Hpres] Hs.
      apply raw_step_components in Hs as (_ & _ & Hs & _).
      destruct (coversheet_step_entry _ _ line k Hd Hs) as (H0 & _ & _ & H3).
      rewrite declarations_snoc, map_app, concat_app.
      destruct (declares k line) eqn:Hdec.
      + split; [|intros _; eexists; by apply H3].
        unfold stored_text at 1. rewrite H3 by done. rewrite Htext.
        cbn [map concat]. by rewrite app_nil_r.
      + cbn [map concat]. rewrite !app_nil_r.
        split; [|intros Hne; rewrite H0 by done; by apply Hpres].
        unfold stored_text at 1. rewrite H0 by done. exact Htext. }
  destruct H as [Htext Hpres]. destruct (Hpres Hne) as [t Ht].
  unfold stored_text in Htext. rewrite Ht in Htext. by rewrite Ht, Htext.
Qed.

(** C5 (amended).  Let the file hold a comment line [pre ***/ mid = value]
    (nothing that looks like the marker or the separator precedes the marker,
    no separator in [mid]) between any lines [before] and [after], and let
    KEY be [mid] without its surrounding whitespace.  After [parse_raw_data]
    has read the whole file: a single-value KEY is stored with the stripped
    value of the last line that declares it, which is [value] only when no
    line of [after] declares KEY; a repeatable KEY is stored with the list of
    the stripped values of all its declarations in file order, [value]
    stripped among them at the place of the line; a multi-line KEY is stored
    with the concatenation of the values of all its declarations without
    their line feeds, [value] among them at the place of the line, which for
    a line as read (one line feed, at its end) is [value] up to surrounding
    whitespace; and a line whose KEY is in no catalog leaves the map as it
    was before the line. *)
Theorem C5_comment_parameter_after_file
    (before after : list str) (pre mid value : str) :
  Forall (fun c => c <> "*"%char /\ c <> "="%char) pre ->
  "="%char ∉ mid ->
  let line := pre ++ parameter_start_key ++ mid ++ parameter_end_key ++ value in
  let key := Py.strip mid in
  exists st0 st1 st,
    parse_raw_data before = Ok st0
    /\ parse_raw_data (before ++ [line]) = Ok st1
    /\ parse_raw_data (before ++ line :: after) = Ok st
    /\ (key ∈ coversheet_parameter_list ->
          coversheet_parameter_dic st !! key
          = Some (PStr (Py.strip
                          match last (declarations key after) with
                          | Some later => parameter_value_of later
                          | None => value
                          end)))
    /\ (key ∈ coversheet_set_list ->
          coversheet_parameter_dic st !! key
          = Some (PList
                    (map (fun l => Py.strip (parameter_value_of l))
                       (declarations key before)
                     ++ Py.strip value
                        :: map (fun l => Py.strip (parameter_value_of l))
                             (declarations key after))))
    /\ (key ∈ long_text_parameter_list ->
          coversheet_parameter_dic st !! key
          = Some (PStr
                    (concat (map (fun l => Py.replace Py.LF []
                                             (parameter_value_of l))
                               (declarations key before))
                     ++ Py.replace Py.LF [] value
                     ++ concat (map (fun l => Py.replace Py.LF []
                                                (parameter_value_of l))
                                  (declarations key after))))
          /\ forall v, Py.LF ∉ v -> value = v ++ [Py.LF] ->
               Py.strip (Py.replace Py.LF [] value) = Py.strip value)
    /\ (key ∉ coversheet_parameter_list ->
        key ∉ coversheet_set_list ->
        key ∉ long_text_parameter_list ->
        coversheet_parameter_dic st1 = coversheet_parameter_dic st0).
Proof.
  intros Hpre Hmid line key.
  destruct (comment_line_parse pre mid value Hpre Hmid) as (Hc & Hkey & Hval).
  fold line in Hc, Hkey, Hval. fold key in Hkey.
  assert (Hdec : declares key line = true).
  { unfold declares. rewrite Hc. cbn [andb]. by apply bool_decide_eq_true_2. }
  assert (Hall : declarations key (before ++ line :: after)
                 = declarations key before ++ line :: declarations key after).
  { unfold declarations. rewrite List.filter_app. cbn [List.filter].
    by rewrite Hdec. }
  destruct (parse_raw_data_snoc before line) as (st0 & st1 & H0 & H1 & Hd & Hs).
  destruct (coversheet_step_round_trip _ pre mid value Hd Hpre Hmid)
    as (d' & Hstep & _ & _ & _ & K4).
  fold line in Hstep. rewrite Hs in Hstep. injection Hstep as <-.
  destruct (parse_raw_data_total (before ++ line :: after)) as (st & Hst & _).
  exists st0, st1, st. split; [done|]. split; [done|]. split; [done|].
  split; [|split; [|split; [|done]]].
  - intros Hk. rewrite (single_value_after_file _ _ _ Hst Hk), Hall.
    destruct (declarations key after) as [|l ls] using rev_ind.
    + change (declarations key before ++ [line])
        with (declarations key before ++ [line]).
      rewrite last_snoc. cbn. by rewrite Hval.
    + rewrite app_comm_cons, app_assoc, !last_snoc. by cbn.
  - intros Hk.
    rewrite (repeatable_entry_after_file _ _ _ Hst Hk).
    + rewrite Hall, map_app. cbn [map]. by rewrite Hval.
    + rewrite Hall. by destruct (declarations key before).
  - intros Hk. split.
    + rewrite (multi_line_entry_after_file _ _ _ Hst Hk).
      * rewrite Hall, map_app, concat_app. cbn [map concat]. by rewrite Hval.
      * rewrite Hall. by destruct (declarations key before).
    + intros v Hlf ->. rewrite replace_app, replace_absent by done.
      change (Py.replace Py.LF [] [Py.LF]) with ([] : str).
      by rewrite app_nil_r, strip_trailing_LF.
Qed.

(** The amended C5 on the file of the counterexample below, for its first
    line: the entry is the value of the later declaration. *)
Lemma C5_after_file_witness :
  exists st,
    parse_raw_data
      ([text_line "REPORT"]
         ++ (lit "  ***/STATION = SALEM" ++ [Py.LF])
         :: [text_line "  ***/STATION = HOPE CREEK"]) = Ok st
    /\ coversheet_parameter_dic st !! lit "STATION"
       = Some (PStr (lit "HOPE CREEK")).
Proof.
  destruct (C5_comment_parameter_after_file [text_line "REPORT"]
              [text_line "  ***/STATION = HOPE CREEK"]
              (lit "  ") (lit "STATION ") (lit " SALEM" ++ [Py.LF]))
    as (st0 & st1 & st & _ & _ & Hst & H1 & _).
  - repeat (constructor; [split; discriminate|]). constructor.
  - apply (bool_decide_unpack _). vm_compute. exact I.
  - exists st. split; [exact Hst|].
    assert (Hk : Py.strip (lit "STATION ") ∈ coversheet_parameter_list)
      by (apply (bool_decide_unpack _); vm_compute; exact I).
    exact (H1 Hk).
Defined.

(** C5 as stated fails for a single-value key declared twice: after the
    file, the entry of the first line's key is not the value of that line,
    even up to surrounding whitespace. *)
Lemma C5_overwritten_value_counterexample :
  exists st,
    parse_raw_data
      [text_line "  ***/STATION = SALEM"; text_line "  ***/STATION = HOPE CREEK"]
    = Ok st
    /\ parameter_key_of (text_line "  ***/STATION = SALEM") = lit "STATION"
    /\ lit "STATION" ∈ coversheet_parameter_list
    /\ Py.strip (parameter_value_of (text_line "  ***/STATION = SALEM"))
       = lit "SALEM"
    /\ coversheet_parameter_dic st !! lit "STATION"
       = Some (PStr (lit "HOPE CREEK"))
    /\ coversheet_parameter_dic st !! lit "STATION"
       <> Some (PStr (lit "SALEM")).
Proof.
  eexists. split; [vm_compute; reflexivity|].
  split; [vm_compute; reflexivity|].
  split; [apply (bool_decide_unpack _); vm_compute; exact I|].
  split; [vm_compute; reflexivity|].
  split; [vm_compute; reflexivity|].
  vm_compute. discriminate.
Qed.

(** X2.  A single-value key holds, after the file, the stripped value of the
    last line that declares it (a later declaration replaces an earlier
    one), and is absent when no line declares it. *)
Theorem X2_single_value_last_declaration_wins (lines : list str) (k : str) :
  k ∈ coversheet_parameter_list ->
  exists st, parse_raw_data lines = Ok st
    /\ coversheet_parameter_dic st !! k
       = (fun l => PStr (Py.strip (parameter_value_of l)))
           <$> last (declarations k lines).
Proof.
  intros Hk. destruct (parse_raw_data_total lines) as (st & Hst & _).
  exists st. split; [done|]. by apply single_value_after_file.
Qed.

(** X2 on a file that declares [STATION] twice. *)
Lemma X2_last_declaration_witness :
  exists st,
    parse_raw_data [lit "***/STATION = SALEM"; lit "x";
                    lit "***/STATION = HOPE CREEK"] = Ok st
    /\ coversheet_parameter_dic st !! lit "STATION"
       = Some (PStr (lit "HOPE CREEK")).
Proof.
  destruct (X2_single_value_last_declaration_wins
              [lit "***/STATION = SALEM"; lit "x";
               lit "***/STATION = HOPE CREEK"] (lit "STATION"))
    as (st & Hst & H).
  - apply (bool_decide_unpack _). vm_compute. exact I.
  - exists st. split; [exact Hst|]. rewrite H. vm_compute. reflexivity.
Defined.

(** X3.  A repeatable key holds, after the file, the stripped values of all
    the lines that declare it, in file order: nothing is dropped, merged or
    reordered. *)
Theorem X3_repeatable_key_collects_every_value (lines : list str) (k : str) :
  k ∈ coversheet_set_list ->
  exists st, parse_raw_data lines = Ok st
    /\ coversheet_parameter_dic st !! k
       = (if bool_decide (declarations k lines = []) then None
          else Some (PList (map (fun l => Py.strip (parameter_value_of l))
                              (declarations k lines)))).
Proof.
  intros Hk. destruct (parse_raw_data_total lines) as (st & Hst & _).
  exists st. split; [done|]. revert lines st Hst.
  apply parse_raw_data_ind.
  - change (coversheet_parameter_dic raw_init) with (∅ : gmap str pval).
    by rewrite lookup_empty.
  - intros before line st st' [Hd _] IH Hs.
    apply raw_step_components in Hs as (_ & _ & Hs & _).
    destruct (coversheet_step_entry _ _ line k Hd Hs) as (H0 & _ & H2 & _).
    rewrite declarations_snoc.
    destruct (declares k line) eqn:Hdec.
    + rewrite bool_decide_eq_false_2 by (by destruct (declarations k before)).
      rewrite H2 by done. rewrite map_app. do 3 f_equal.
      unfold stored_list. rewrite IH.
      by destruct (declarations k before).
    + rewrite app_nil_r. rewrite H0 by done. exact IH.
Qed.

(** X3 on a file with two [COMPONENT] lines around another parameter. *)
Lemma X3_collects_witness :
  exists st,
    parse_raw_data [lit "***/COMPONENT = VALVE 1"; lit "***/STATION = S";
                    lit "***/COMPONENT = PUMP 2"] = Ok st
    /\ coversheet_parameter_dic st !! lit "COMPONENT"
       = Some (PList [lit "VALVE 1"; lit "PUMP 2"]).
Proof.
  destruct (X3_repeatable_key_collects_every_value
              [lit "***/COMPONENT = VALVE 1"; lit "***/STATION = S";
               lit "***/COMPONENT = PUMP 2"] (lit "COMPONENT"))
    as (st & Hst & H).
  - apply (bool_decide_unpack _). vm_compute. exact I.
  - exists st. split; [exact Hst|]. rewrite H. vm_compute. reflexivity.
Defined.

(** X4.  A multi-line key holds, after the file, the concatenation in file
    order of the values of the lines that declare it, each without its line
    feeds and otherwise unstripped. *)
Theorem X4_multi_line_key_concatenates (lines : list str) (k : str) :
  k ∈ long_text_parameter_list ->
  exists st, parse_raw_data lines = Ok st
    /\ stored_text (coversheet_parameter_dic st) k
       = concat (map (fun l => Py.replace Py.LF [] (parameter_value_of l))
                   (declarations k lines)).
Proof.
  intros Hk. destruct (parse_raw_data_total lines) as (st & Hst & _).
  exists st. split; [done|]. by apply multi_line_after_file.
Qed.

(** X4 on a description spread over two lines. *)
Lemma X4_concatenates_witness :
  exists st,
    parse_raw_data [lit "***/DESCRIPTION OF CHANGE = ADDED" ++ [Py.LF];
                    lit "***/DESCRIPTION OF CHANGE = A VALVE" ++ [Py.LF]]
    = Ok st
    /\ stored_text (coversheet_parameter_dic st) (lit "DESCRIPTION OF CHANGE")
       = lit " ADDED A VALVE".
Proof.
  destruct (X4_multi_line_key_concatenates
              [lit "***/DESCRIPTION OF CHANGE = ADDED" ++ [Py.LF];
               lit "***/DESCRIPTION OF CHANGE = A VALVE" ++ [Py.LF]]
              (lit "DESCRIPTION OF CHANGE"))
    as (st & Hst & H).
  - apply (bool_decide_unpack _). vm_compute. exact I.
  - exists st. split; [exact Hst|]. rewrite H. vm_compute. reflexivity.
Defined.

(** ** Section boundaries after the whole file *)

Lemma slice_from_nat {A : Type} (n : nat) (s : list A) :
  Py.slice_from (Z.of_nat n) s = drop n s.
Proof.
  unfold Py.slice_from, Py.adjust, Py.len.
  destruct (Z.ltb_spec (Z.of_nat n) 0) as [E|_]; [lia|].
  destruct (Nat.le_gt_cases n (length s)) as [Hle|Hgt].
  - rewrite Z.min_l by lia. by rewrite Nat2Z.id.
  - rewrite Z.min_r by lia. rewrite Nat2Z.id.
    by rewrite !drop_ge by lia.
Qed.

(** A list that ends with [line] and contains [l] followed by [after]. *)
Lemma snoc_eq_middle {A : Type} (lines before after : list A) (line l : A) :
  lines ++ [line] = before ++ l :: after ->
  (after = [] /\ lines = before /\ line = l)
  \/ (exists after', after = after' ++ [line]
                     /\ lines = before ++ l :: after').
Proof.
  intros H. destruct after as [|a after] using rev_ind.
  - left. apply app_inj_tail in H as [-> ->]. done.
  - right. exists after. clear IHafter.
    change (before ++ l :: after ++ [a])
      with (before ++ (l :: after) ++ [a]) in H.
    rewrite app_assoc in H. apply app_inj_tail in H as [-> ->]. done.
Qed.

(** The stress-analysis line number is that of the last marker line. *)
Lemma stress_marker_last (lines : list str) (st : raw_state) :
  parse_raw_data lines = Ok st ->
  forall before l after,
    lines = before ++ l :: after ->
    Py.contains stress_analysis_keyword l = true ->
    Forall (fun x => Py.contains stress_analysis_keyword x = false) after ->
    stress_analysis_line_number (raw_boundaries st) = Some (length before).
Proof.
  revert lines st.
  apply (parse_raw_data_ind (fun lines st =>
    forall before l after,
      lines = before ++ l :: after ->
      Py.contains stress_analysis_keyword l = true ->
      Forall (fun x => Py.contains stress_analysis_keyword x = false) after ->
      stress_analysis_line_number (raw_boundaries st) = Some (length before))).
  - intros before l after H. by destruct before.
  - intros lines line st st' _ IH Hs before l after Heq Hl Hafter.
    apply raw_step_components in Hs as (_ & -> & _).
    unfold boundaries_step; cbn [stress_analysis_line_number].
    apply snoc_eq_middle in Heq as [(-> & -> & ->) | (after' & -> & ->)].
    + by rewrite Hl.
    + apply Forall_app in Hafter as [Hafter' Hline].
      rewrite Forall_singleton in Hline. rewrite Hline.
      by eapply IH.
Qed.

(** X5.  The stress-analysis section starts at the last line that carries
    its marker (each marker line replaces the line number recorded before),
    and [get_node_connectivities] then scans exactly the lines from that one
    to the end of the file. *)
Theorem X5_stress_section_starts_at_last_marker
    (before after : list str) (l : str) :
  Py.contains stress_analysis_keyword l = true ->
  Forall (fun x => Py.contains stress_analysis_keyword x = false) after ->
  exists st,
    parse_raw_data (before ++ l :: after) = Ok st
    /\ stress_analysis_line_number (raw_boundaries st) = Some (length before)
    /\ get_node_connectivities st = Ok (connectivity_scan (l :: after)).
Proof.
  intros Hl Hafter.
  destruct (parse_raw_data_total (before ++ l :: after)) as (st & Hst & _).
  pose proof (parse_raw_data_keeps_lines _ _ Hst) as Hlines.
  pose proof (stress_marker_last _ _ Hst before l after eq_refl Hl Hafter) as Hn.
  exists st. split; [done|]. split; [done|].
  unfold get_node_connectivities. rewrite Hn, Hlines, slice_from_nat.
  by rewrite drop_app_length.
Qed.

(** X5 on a file with two marker lines: the second one counts. *)
Lemma X5_last_marker_witness :
  exists st,
    parse_raw_data
      ([lit " ALL     STRESS ANALYSIS (1)"]
         ++ lit " ALL     STRESS ANALYSIS (2)" :: [lit "x"; lit "y"]) = Ok st
    /\ stress_analysis_line_number (raw_boundaries st) = Some 1%nat
    /\ get_node_connectivities st
       = Ok (connectivity_scan
               (lit " ALL     STRESS ANALYSIS (2)" :: [lit "x"; lit "y"])).
Proof.
  apply (X5_stress_section_starts_at_last_marker
           [lit " ALL     STRESS ANALYSIS (1)"] [lit "x"; lit "y"]
           (lit " ALL     STRESS ANALYSIS (2)")).
  - vm_compute. reflexivity.
  - repeat (constructor; [vm_compute; reflexivity|]). constructor.
Defined.

(** The summary bounds: the start is the line of the last header; the end is
    the last end-marker line met once a header has been seen. *)
Lemma summary_bounds_after_file (lines : list str) (st : raw_state) :
  parse_raw_data lines = Ok st ->
  (forall before l after,
     lines = before ++ l :: after ->
     Py.contains pipe_stress_summary_keyword l = true ->
     Forall (fun x => Py.contains pipe_stress_summary_keyword x = false) after ->
     pipe_stress_summary_start_line_number (raw_boundaries st)
     = Some (length before))
  /\ (forall before l after,
        lines = before ++ l :: after ->
        Exists (fun x => Py.contains pipe_stress_summary_keyword x = true)
          (before ++ [l]) ->
        Py.contains pipe_stress_summary_end_keyword l = true ->
        Forall (fun x => Py.contains pipe_stress_summary_end_keyword x = false)
          after ->
        pipe_stress_summary_end_line_number (raw_boundaries st)
        = Some (length before))
  /\ (pipe_stress_summary_start_line_number (raw_boundaries st) = None ->
      pipe_stress_summary_end_line_number (raw_boundaries st) = None
      /\ Forall (fun x => Py.contains pipe_stress_summary_keyword x = false)
           lines).
Proof.
  revert lines st.
  apply (parse_raw_data_ind (fun lines st =>
    (forall before l after,
       lines = before ++ l :: after ->
       Py.contains pipe_stress_summary_keyword l = true ->
       Forall (fun x => Py.contains pipe_stress_summary_keyword x = false) after ->
       pipe_stress_summary_start_line_number (raw_boundaries st)
       = Some (length before))
    /\ (forall before l after,
          lines = before ++ l :: after ->
          Exists (fun x => Py.contains pipe_stress_summary_keyword x = true)
            (before ++ [l]) ->
          Py.contains pipe_stress_summary_end_keyword l = true ->
          Forall (fun x => Py.contains pipe_stress_summary_end_keyword x = false)
            after ->
          pipe_stress_summary_end_line_number (raw_boundaries st)
          = Some (length before))
    /\ (pipe_stress_summary_start_line_number (raw_boundaries st) = None ->
        pipe_stress_summary_end_line_number (raw_boundaries st) = None
        /\ Forall (fun x => Py.contains pipe_stress_summary_keyword x = false)
             lines))).
  - split; [|split].
    + intros before l after H. by destruct before.
    + intros before l after H. by destruct before.
    + intros _. by split.
  - intros lines line st st' _ (IH1 & IH2 & IH3) Hs.
    apply raw_step_components in Hs as (_ & -> & _).
    unfold boundaries_step;
      cbn [pipe_stress_summary_start_line_number
           pipe_stress_summary_end_line_number].
    split; [|split].
    + intros before l after Heq Hl Hafter.
      apply snoc_eq_middle in Heq as [(-> & -> & ->) | (after' & -> & ->)].
      * by rewrite Hl.
      * apply Forall_app in Hafter as [Hafter' Hline].
        rewrite Forall_singleton in Hline. rewrite Hline. by eapply IH1.
    + intros before l after Heq Hex Hl Hafter.
      apply snoc_eq_middle in Heq as [(-> & -> & ->) | (after' & -> & ->)].
      * rewrite Hl.
        destruct (Py.contains pipe_stress_summary_keyword l) eqn:Hh; [done|].
        destruct (pipe_stress_summary_start_line_number (raw_boundaries st))
          as [s|] eqn:Hstart; [done|].
        destruct (IH3 eq_refl) as [_ Hnone].
        apply Exists_app in Hex as [Hex|Hex].
        -- apply Exists_exists in Hex as (x & Hx & Hxk).
           rewrite Forall_forall in Hnone. rewrite Hnone in Hxk by done. done.
        -- apply Exists_cons in Hex as [Hex|Hex]; [congruence|].
           by apply Exists_nil in Hex.
      * apply Forall_app in Hafter as [Hafter' Hline].
        rewrite Forall_singleton in Hline. rewrite Hline, andb_false_r.
        eapply IH2; [done| |done|done].
        done.
    + destruct (Py.contains pipe_stress_summary_keyword line) eqn:Hh; [done|].
      intros Hnone. destruct (IH3 Hnone) as [He Hl].
      rewrite Hnone. cbn [andb]. rewrite bool_decide_eq_false_2 by (by intros H).
      split; [done|]. apply Forall_app. split; [done|]. by apply Forall_singleton.
Qed.

(** A slice that starts inside [pre] and ends [k] elements into [post]. *)
Lemma slice_window {A : Type} (pre mid post : list A) (a k : nat) :
  (a <= length pre)%nat ->
  Py.slice (Z.of_nat a) (Z.of_nat (length pre + length mid + k))
    (pre ++ mid ++ post)
  = drop a pre ++ mid ++ take k post.
Proof.
  intros Ha. unfold Py.slice, Py.adjust, Py.len.
  rewrite !length_app.
  destruct (Z.ltb_spec (Z.of_nat a) 0) as [E|_]; [lia|].
  destruct (Z.ltb_spec (Z.of_nat (length pre + length mid + k)) 0)
    as [E|_]; [lia|].
  rewrite (Z.min_l (Z.of_nat a)) by lia. rewrite Nat2Z.id.
  rewrite drop_app_le by done.
  rewrite take_app, length_drop.
  destruct (Nat.le_gt_cases k (length post)) as [Hk|Hk].
  - rewrite Z.min_l by lia.
    replace (Z.to_nat _) with (length pre - a + (length mid + k))%nat by lia.
    rewrite take_ge by (rewrite length_drop; lia). f_equal.
    replace (length pre - a + (length mid + k) - (length pre - a))%nat
      with (length mid + k)%nat by lia.
    by rewrite take_app_add.
  - rewrite Z.min_r by lia.
    replace (Z.to_nat _)
      with (length pre - a + (length mid + length post))%nat by lia.
    rewrite take_ge by (rewrite length_drop; lia). f_equal.
    rewrite take_ge by (rewrite length_app; lia).
    by rewrite (take_ge post) by lia.
Qed.

(** X6.  With the summary header on one line only and the last end marker
    on a later line, the summary stage returns the block made of the (up to)
    16 lines before the header, the lines from the header to the end marker,
    and the one line after it, each without line feeds and with U+0001
    turned into a space; the ratios and the text are computed from that
    block. *)
Theorem X6_summary_block_extent (py_float : str -> option float)
    (before mid after : list str) (hdr endl : str) :
  Py.contains pipe_stress_summary_keyword hdr = true ->
  Forall (fun x => Py.contains pipe_stress_summary_keyword x = false)
    (mid ++ endl :: after) ->
  Py.contains pipe_stress_summary_end_keyword endl = true ->
  Forall (fun x => Py.contains pipe_stress_summary_end_keyword x = false) after ->
  exists st r,
    parse_raw_data (before ++ hdr :: mid ++ endl :: after) = Ok st
    /\ parse_pipe_stress_summary py_float st = Ok r
    /\ stress_summary_list r
       = map (fun i => Py.replace Py.SOH (lit " ") (Py.replace Py.LF [] i))
           (drop (length before - 16) before
              ++ (hdr :: mid ++ [endl]) ++ take 1 after)
    /\ stress_ratio_list r
       = omap (fun l => py_float (stress_ratio_str l)) (stress_summary_list r)
    /\ stress_summary_text r = summary_text (stress_ratio_list r).
Proof.
  intros Hhdr Hno Hend Hafter.
  set (lines := before ++ hdr :: mid ++ endl :: after).
  destruct (parse_raw_data_total lines) as (st & Hst & _).
  pose proof (parse_raw_data_keeps_lines _ _ Hst) as Hlines.
  destruct (summary_bounds_after_file _ _ Hst) as (Hs & He & _).
  assert (Hstart : pipe_stress_summary_start_line_number (raw_boundaries st)
                   = Some (length before)) by (by eapply Hs).
  assert (Hstop : pipe_stress_summary_end_line_number (raw_boundaries st)
                  = Some (length (before ++ hdr :: mid))).
  { eapply He; [| |done|done].
    - unfold lines. by rewrite <- app_assoc.
    - apply Exists_app. left. apply Exists_app. right. by apply Exists_cons_hd. }
  destruct (parse_pipe_stress_summary_found py_float st _ _ Hstart Hstop)
    as (r & Hr & Hratios & Htext).
  exists st, r. split; [done|]. split; [done|]. split; [|by split].
  unfold parse_pipe_stress_summary in Hr. rewrite Hstart, Hstop in Hr.
  cbv zeta in Hr.
  destruct (for_each _ _ _) as [ratios|]; [|done].
  cbn [mbind res_bind] in Hr. injection Hr as <-.
  cbn [stress_summary_list]. f_equal. rewrite Hlines.
  replace (Z.max 0 (Z.of_nat (length before) - 16))
    with (Z.of_nat (length before - 16)) by lia.
  replace (Z.of_nat (length (before ++ hdr :: mid)) + 2)
    with (Z.of_nat (length before + length (hdr :: mid ++ [endl]) + 1)).
  2:{ rewrite length_app. cbn [length]. rewrite length_app. cbn [length]. lia. }
  replace lines with (before ++ (hdr :: mid ++ [endl]) ++ after).
  2:{ unfold lines. cbn [app]. by rewrite <- app_assoc. }
  apply slice_window. lia.
Qed.

(** X6 on a small file: one line before the header, one row, the end marker
    and two lines after it, of which the first is kept. *)
Lemma X6_summary_block_witness :
  exists st r,
    parse_raw_data
      ([lit "title"] ++ pipe_stress_summary_keyword
         :: [lit "row"] ++ lit " APPROVED BY  J" :: [lit "a"; lit "b"]) = Ok st
    /\ parse_pipe_stress_summary (fun _ => None) st = Ok r
    /\ stress_summary_list r
       = [lit "title"; pipe_stress_summary_keyword; lit "row";
          lit " APPROVED BY  J"; lit "a"].
Proof.
  destruct (X6_summary_block_extent (fun _ => None)
              [lit "title"] [lit "row"] [lit "a"; lit "b"]
              pipe_stress_summary_keyword (lit " APPROVED BY  J"))
    as (st & r & H1 & H2 & H3 & _).
  - vm_compute. reflexivity.
  - repeat (constructor; [vm_compute; reflexivity|]). constructor.
  - vm_compute. reflexivity.
  - repeat (constructor; [vm_compute; reflexivity|]). constructor.
  - exists st, r. split; [exact H1|]. split; [exact H2|].
    rewrite H3. vm_compute. reflexivity.
Defined.

(** ** The geometry cards, over the file *)

(** With the section closed and no start marker on the line, a line leaves
    the geometry state as it is. *)
Lemma geometry_step_closed (g : geom_state) (line : str) :
  parsing_raw_geometry g = false ->
  Py.contains input_card_start_keyword line = false ->
  geometry_step g line = Ok g.
Proof. intros Hp Hs. unfold geometry_step. by rewrite Hp, Hs. Qed.

Lemma geometry_closed_suffix (before rest : list str) (st : raw_state) :
  parse_raw_data before = Ok st ->
  parsing_raw_geometry (raw_geometry st) = false ->
  Forall (fun x => Py.contains input_card_start_keyword x = false) rest ->
  exists st', parse_raw_data (before ++ rest) = Ok st'
    /\ raw_geometry st' = raw_geometry st.
Proof.
  intros Hst Hp. induction rest as [|line rest IH] using rev_ind; intros Hrest.
  - exists st. by rewrite app_nil_r.
  - apply Forall_app in Hrest as [Hrest Hline].
    rewrite Forall_singleton in Hline.
    destruct (IH Hrest) as (st1 & Hst1 & Hg1).
    destruct (parse_raw_data_step (before ++ rest) line)
      as (st1' & st2 & H1 & H2 & _ & Hs).
    rewrite Hst1 in H1. injection H1 as <-.
    exists st2. split; [by rewrite app_assoc|].
    apply raw_step_components in Hs as (_ & _ & _ & Hs).
    rewrite geometry_step_closed in Hs by (by rewrite ?Hg1).
    injection Hs as <-. done.
Qed.

(** X7.  A file without the line that opens the geometry section yields no
    segment entry at all: the parser never looks at a card before it has met
    [INPUT CARD IMAGES]. *)
Theorem X7_no_geometry_section_no_entries (lines : list str) :
  Forall (fun x => Py.contains input_card_start_keyword x = false) lines ->
  exists st, parse_raw_data lines = Ok st
    /\ raw_segment_parameter_list (raw_geometry st) = []
    /\ first_single_node_in_this_line (raw_geometry st) = None.
Proof.
  intros Hl.
  destruct (geometry_closed_suffix [] lines raw_init eq_refl eq_refl Hl)
    as (st & Hst & Hg).
  exists st. split; [done|]. by rewrite Hg.
Qed.

(** X7 on three lines that look like cards but follow no section start. *)
Lemma X7_no_section_witness :
  exists st,
    parse_raw_data [lit "              10 20   OD=4.5,THI=0.3,";
                    lit "              20 30   OD=6.625,"; lit ""] = Ok st
    /\ raw_segment_parameter_list (raw_geometry st) = [].
Proof.
  destruct (X7_no_geometry_section_no_entries
              [lit "              10 20   OD=4.5,THI=0.3,";
               lit "              20 30   OD=6.625,"; lit ""])
    as (st & H1 & H2 & _).
  - repeat (constructor; [vm_compute; reflexivity|]). constructor.
  - exists st. split; [exact H1 | exact H2].
Defined.

(** X8.  A line that ends the geometry section (end marker, or an end code
    in columns 10-13) is not read as a card, and until the section is opened
    again no line is: the entries after the file are those before that
    line. *)
Theorem X8_end_line_closes_the_section
    (before rest : list str) (endl : str) :
  ends_geometry endl = true ->
  Forall (fun x => Py.contains input_card_start_keyword x = false)
    (endl :: rest) ->
  exists st st',
    parse_raw_data before = Ok st
    /\ parse_raw_data (before ++ endl :: rest) = Ok st'
    /\ raw_segment_parameter_list (raw_geometry st')
       = raw_segment_parameter_list (raw_geometry st)
    /\ parsing_raw_geometry (raw_geometry st') = false.
Proof.
  intros Hend Hrest. apply Forall_cons in Hrest as [Hendl Hrest].
  destruct (parse_raw_data_step before endl) as (st & st1 & H1 & H2 & _ & Hs).
  apply raw_step_components in Hs as (_ & _ & _ & Hs).
  assert (Hg1 : raw_segment_parameter_list (raw_geometry st1)
                = raw_segment_parameter_list (raw_geometry st)
                /\ parsing_raw_geometry (raw_geometry st1) = false).
  { unfold geometry_step in Hs. unfold ends_geometry in Hend.
    rewrite Hend, Hendl in Hs.
    destruct (parsing_raw_geometry (raw_geometry st)) eqn:Hp;
      cbn [mbind res_bind] in Hs; injection Hs as <-; by split. }
  destruct Hg1 as [Hl1 Hp1].
  destruct (geometry_closed_suffix (before ++ [endl]) rest st1 H2 Hp1 Hrest)
    as (st' & Hst' & Hg).
  exists st, st'. split; [done|].
  rewrite <- app_assoc in Hst'. split; [done|]. by rewrite Hg.
Qed.

(** X8 on a section of one card closed by an [END] code and followed by a
    line that looks like a card. *)
Lemma X8_end_line_witness :
  exists st',
    parse_raw_data
      ([lit "  INPUT CARD IMAGES"; lit "              10 20   OD=4.5,"]
         ++ lit "          END" :: [lit "              20 30   OD=6.625,"])
    = Ok st'
    /\ map fst (raw_segment_parameter_list (raw_geometry st'))
       = [lit "10"; lit "20"].
Proof.
  destruct (X8_end_line_closes_the_section
              [lit "  INPUT CARD IMAGES"; lit "              10 20   OD=4.5,"]
              [lit "              20 30   OD=6.625,"] (lit "          END"))
    as (st & st' & H1 & H2 & H3 & _).
  - vm_compute. reflexivity.
  - repeat (constructor; [vm_compute; reflexivity|]). constructor.
  - exists st'. split; [exact H2|]. rewrite H3.
    vm_compute in H1. injection H1 as <-. vm_compute. reflexivity.
Defined.

(** On a comment line the keyword loop does nothing. *)
Lemma keyword_loop_comment (fs : option bool) (line : str)
    (l : list segment_entry) (keywords : list str) :
  Py.contains comment_key line = true ->
  for_each (keyword_step fs line) keywords l = Ok l.
Proof.
  intros Hc. induction keywords as [|kw keywords IH]; [done|].
  cbn [for_each].
  assert (Hk : keyword_step fs line l kw = Ok l).
  { unfold keyword_step. rewrite Hc. cbn [negb]. by rewrite andb_false_r. }
  rewrite Hk. exact IH.
Qed.

(** X9.  A line that contains [***] never changes the segment entries, the
    card mode or the endpoint history, whatever else it carries (endpoint
    columns, [OD=], [THI=]): comment lines, the parameter comments among
    them, are invisible to the geometry parser. *)
Theorem X9_comment_lines_leave_geometry_alone
    (before : list str) (line : str) :
  Py.contains comment_key line = true ->
  exists st st',
    parse_raw_data before = Ok st
    /\ parse_raw_data (before ++ [line]) = Ok st'
    /\ raw_segment_parameter_list (raw_geometry st')
       = raw_segment_parameter_list (raw_geometry st)
    /\ first_single_node_in_this_line (raw_geometry st')
       = first_single_node_in_this_line (raw_geometry st)
    /\ segment_all_endpoints_list (raw_geometry st')
       = segment_all_endpoints_list (raw_geometry st).
Proof.
  intros Hc.
  destruct (parse_raw_data_step before line) as (st & st' & H1 & H2 & _ & Hs).
  exists st, st'. split; [done|]. split; [done|].
  apply raw_step_components in Hs as (_ & _ & _ & Hs).
  unfold geometry_step in Hs.
  assert (He : endpoints_step (raw_geometry st) line = Ok (raw_geometry st)).
  { unfold endpoints_step. rewrite Hc. cbn [negb]. by rewrite andb_false_r. }
  rewrite He in Hs. cbn [mbind res_bind] in Hs.
  rewrite keyword_loop_comment in Hs by done. cbn [mbind res_bind] in Hs.
  destruct (parsing_raw_geometry (raw_geometry st));
    [destruct (_ || _)|];
    cbn [mbind res_bind] in Hs;
    destruct (Py.contains input_card_start_keyword line);
    injection Hs as <-; done.
Qed.

(** X9 on a comment line inside an open section that carries endpoint
    columns and an [OD=] field. *)
Lemma X9_comment_line_witness :
  exists st',
    parse_raw_data
      ([lit "  INPUT CARD IMAGES"; lit "              10 20   OD=4.5,"]
         ++ [lit "***           20 30   OD=6.625,"]) = Ok st'
    /\ map entry_view (raw_segment_parameter_list (raw_geometry st'))
       = [(lit "10", Some (lit "4.5"), None);
          (lit "20", Some (lit "4.5"), None)].
Proof.
  destruct (X9_comment_lines_leave_geometry_alone
              [lit "  INPUT CARD IMAGES"; lit "              10 20   OD=4.5,"]
              (lit "***           20 30   OD=6.625,"))
    as (st & st' & H1 & H2 & H3 & _).
  - vm_compute. reflexivity.
  - exists st'. split; [exact H2|]. rewrite H3.
    vm_compute in H1. injection H1 as <-. vm_compute. reflexivity.
Defined.

Lemma same_but_newest_two_refl (l : list segment_entry) :
  same_but_newest_two l l.
Proof. by repeat split. Qed.

Lemma same_but_newest_two_trans (l1 l2 l3 : list segment_entry) :
  same_but_newest_two l1 l2 -> same_but_newest_two l2 l3 ->
  same_but_newest_two l1 l3.
Proof.
  intros (H1 & H2 & H3) (K1 & K2 & K3). split; [congruence|].
  split; [congruence|]. intros i Hi. rewrite K3 by lia. by apply H3.
Qed.

Lemma set_parameter_newest (l l' : list segment_entry) (k : nat) (key v : str) :
  (k <= 2)%nat ->
  set_parameter l k key v = Ok l' -> same_but_newest_two l l'.
Proof.
  intros Hk. unfold set_parameter, neg_index, neg_assign.
  destruct (Nat.leb_spec k (length l)) as [Hle|]; [|done].
  destruct (l !! (length l - k)%nat) as [e|] eqn:He; [|done].
  cbn [mbind res_bind]. intros [= <-].
  split; [by rewrite length_insert|]. split.
  - match goal with
    | |- map fst ?a = map fst ?b => change (fst <$> a = fst <$> b)
    end.
    rewrite list_fmap_insert. cbn [fst]. apply list_insert_id.
    unfold segment_entry in *. by rewrite list_lookup_fmap, He.
  - intros i Hi. apply list_lookup_insert_ne. lia.
Qed.

Lemma assign_parameter_newest
    (fs : option bool) (c : bool) (l l' : list segment_entry) (key v : str) :
  assign_parameter fs c l key v = Ok l' -> same_but_newest_two l l'.
Proof.
  rewrite assign_parameter_without_inheritance.
  destruct fs as [[|]|].
  - apply set_parameter_newest. lia.
  - destruct (set_parameter l 2 key v) as [l1|] eqn:H1; [|done].
    cbn [mbind res_bind]. intros H2.
    eapply same_but_newest_two_trans; eapply set_parameter_newest;
      [| exact H1 | | exact H2]; lia.
  - intros [= <-]. apply same_but_newest_two_refl.
Qed.

Lemma keyword_loop_newest (fs : option bool) (line : str)
    (keywords : list str) (l l' : list segment_entry) :
  for_each (keyword_step fs line) keywords l = Ok l' ->
  same_but_newest_two l l'.
Proof.
  revert l. induction keywords as [|kw keywords IH]; intros l.
  - intros [= <-]. apply same_but_newest_two_refl.
  - cbn [for_each].
    destruct (keyword_step fs line l kw) as [l1|] eqn:H1; [|done].
    cbn [mbind res_bind]. intros H2.
    eapply same_but_newest_two_trans; [|by apply IH].
    unfold keyword_step in H1. destruct (_ && _).
    + by eapply assign_parameter_newest.
    + injection H1 as <-. apply same_but_newest_two_refl.
Qed.

(** A card appends at most two entries, with empty maps. *)
Lemma endpoints_step_appends (g g' : geom_state) (line : str) :
  endpoints_step g line = Ok g' ->
  exists new,
    raw_segment_parameter_list g' = raw_segment_parameter_list g ++ new
    /\ (length new <= 2)%nat
    /\ parsing_raw_geometry g' = parsing_raw_geometry g.
Proof.
  unfold endpoints_step. destruct (_ && _).
  2:{ intros [= <-]. exists []. rewrite app_nil_r. repeat split. simpl; lia. }
  destruct (neg_index (segment_all_endpoints_list g ++ _) 1) as [a1|]; cbn [mbind res_bind]; [|done].
  destruct (neg_index (segment_all_endpoints_list g ++ _) 2) as [a2|]; cbn [mbind res_bind]; [|done].
  destruct (bool_decide (a1 <> a2)).
  2:{ intros [= <-]. exists []. rewrite app_nil_r. repeat split. simpl; lia. }
  destruct (_ && _).
  { intros [= <-]. eexists. repeat split; simpl; lia. }
  destruct (_ =? 1)%nat.
  - destruct (neg_index _ 1) as [e|]; cbn [mbind res_bind]; [|done].
    intros [= <-]. eexists. repeat split; simpl; lia.
  - intros [= <-]. eexists. repeat split; simpl; lia.
Qed.

Lemma geometry_step_newest (g g' : geom_state) (line : str) :
  geometry_step g line = Ok g' ->
  exists new l1,
    (length new <= 2)%nat
    /\ l1 = raw_segment_parameter_list g ++ new
    /\ same_but_newest_two l1 (raw_segment_parameter_list g').
Proof.
  unfold geometry_step.
  assert (Hsame : exists new l1, (length new <= 2)%nat
            /\ l1 = raw_segment_parameter_list g ++ new
            /\ same_but_newest_two l1 (raw_segment_parameter_list g)).
  { exists [], (raw_segment_parameter_list g). split; [simpl; lia|].
    split; [by rewrite app_nil_r | apply same_but_newest_two_refl]. }
  destruct (parsing_raw_geometry g).
  2:{ cbn [mbind res_bind].
      destruct (Py.contains input_card_start_keyword line);
        by intros [= <-]. }
  destruct (_ || _).
  { cbn [mbind res_bind].
    destruct (Py.contains input_card_start_keyword line);
      by intros [= <-]. }
  destruct (endpoints_step g line) as [g1|] eqn:H1; [|done].
  cbn [mbind res_bind].
  destruct (for_each _ _ _) as [l|] eqn:H2; [|done]. cbn [mbind res_bind].
  apply endpoints_step_appends in H1 as (new & Hnew & Hlen & _).
  apply keyword_loop_newest in H2. rewrite Hnew in H2.
  intros H. exists new, (raw_segment_parameter_list g ++ new).
  split; [done|]. split; [done|].
  destruct (Py.contains input_card_start_keyword line);
    by injection H as <-.
Qed.

(** X10.  Reading one more line appends at most two entries and can change
    parameters only in the two newest entries of the result: the node ids
    already emitted stay as they are, in place, and every entry that has two
    or more entries after it keeps its parameter map for good. *)
Theorem X10_a_line_touches_only_the_newest_entries
    (before : list str) (line : str) :
  exists st st',
    parse_raw_data before = Ok st
    /\ parse_raw_data (before ++ [line]) = Ok st'
    /\ map fst (raw_segment_parameter_list (raw_geometry st))
         `prefix_of` map fst (raw_segment_parameter_list (raw_geometry st'))
    /\ (length (raw_segment_parameter_list (raw_geometry st'))
        <= length (raw_segment_parameter_list (raw_geometry st)) + 2)%nat
    /\ (forall i : nat,
          (i + 2 < length (raw_segment_parameter_list (raw_geometry st')))%nat ->
          raw_segment_parameter_list (raw_geometry st') !! i
          = raw_segment_parameter_list (raw_geometry st) !! i).
Proof.
  destruct (parse_raw_data_step before line) as (st & st' & H1 & H2 & _ & Hs).
  exists st, st'. split; [done|]. split; [done|].
  apply raw_step_components in Hs as (_ & _ & _ & Hs).
  apply geometry_step_newest in Hs as (new & l1 & Hlen & -> & Hl & Hids & Hold).
  rewrite length_app in Hl, Hold.
  split; [|split].
  - rewrite Hids, map_app. by eexists.
  - lia.
  - intros i Hi. rewrite Hold by lia. apply lookup_app_l. lia.
Qed.

Lemma find_at_absent (h : ascii) (sub s : str) (i : Z) :
  Forall (fun c => c <> h) s -> Py.find_at i (h :: sub) s = -1.
Proof.
  intros Hs. revert i. induction Hs as [|c s Hc Hs IH]; intros i; [done|].
  cbn [Py.find_at Py.startswith]. destruct (decide (h = c)); [congruence|].
  apply IH.
Qed.

Lemma slice_from_app {A : Type} (x y : list A) :
  Py.slice_from (Py.len x) (x ++ y) = y.
Proof.
  unfold Py.len. rewrite slice_from_nat. by rewrite drop_app_length.
Qed.

Lemma slice_tail {A : Type} (x y : list A) (b : Z) :
  0 <= b ->
  Py.slice (Py.len x) b (x ++ y) = take (Z.to_nat (b - Py.len x)) y.
Proof.
  intros Hb. unfold Py.slice, Py.adjust, Py.len. rewrite length_app.
  destruct (Z.ltb_spec (Z.of_nat (length x)) 0) as [|_]; [lia|].
  destruct (Z.ltb_spec b 0) as [|_]; [lia|].
  rewrite (Z.min_l (Z.of_nat (length x))) by lia.
  rewrite Nat2Z.id, drop_app_length.
  destruct (Z.le_ge_cases b (Z.of_nat (length x + length y))).
  - by rewrite Z.min_l by lia.
  - rewrite Z.min_r by lia.
    rewrite (take_ge y (Z.to_nat (b - _))) by lia. apply take_ge. lia.
Qed.

(** X11.  The value of a keyword on a card is the text between the first
    occurrence of the keyword and the next comma, with every space removed;
    when no comma follows, it is the text up to column 92 instead (nothing,
    if the keyword ends at or after that column). *)
Theorem X11_keyword_value_ends_at_comma_or_column_92
    (h : ascii) (kw pre tail : str) :
  Forall (fun c => c <> h) pre ->
  let line := pre ++ (h :: kw) ++ tail in
  (forall v rest : str,
      tail = v ++ lit "," ++ rest -> ","%char ∉ v ->
      keyword_value (h :: kw) line = Py.strip (Py.replace " " [] v))
  /\ (","%char ∉ tail ->
      keyword_value (h :: kw) line
      = Py.strip (Py.replace " " []
          (take (Z.to_nat (92 - Py.len pre - Py.len (h :: kw))) tail))).
Proof.
  intros Hpre line. unfold keyword_value, line.
  rewrite find_first by done.
  rewrite <- len_app, app_assoc, slice_from_app.
  split.
  - intros v rest -> Hv.
    change (lit ",") with [","%char].
    rewrite (find_first ","%char [] v rest).
    2:{ apply Forall_forall. intros c Hc ->. by apply Hv. }
    destruct (Z.eqb_spec (Py.len v) (-1)) as [E|_]; [unfold Py.len in E; lia|].
    rewrite (Z.add_comm (Py.len v)). by rewrite slice_middle.
  - intros Htail.
    change (lit ",") with [","%char]. unfold Py.find.
    rewrite find_at_absent.
    2:{ apply Forall_forall. intros c Hc ->. by apply Htail. }
    change (-1 =? -1) with true. cbv iota.
    rewrite slice_tail by lia. rewrite len_app.
    by rewrite Z.sub_add_distr.
Qed.

(** X11 on a card with two keywords: the first value ends at its comma, the
    last one runs to the end of the line. *)
Lemma X11_keyword_value_witness :
  keyword_value (lit "OD=") (lit "   10 20   OD= 4 .5 ,THI=0.3")
  = lit "4.5"
  /\ keyword_value (lit "THI=") (lit "   10 20   OD= 4 .5 ,THI=0.3")
     = lit "0.3".
Proof.
  split.
  - apply (proj1 (X11_keyword_value_ends_at_comma_or_column_92
                    "O"%char (lit "D=") (lit "   10 20   ")
                    (lit " 4 .5 ,THI=0.3")
                    ltac:(repeat (constructor; [done|]); constructor))
             (lit " 4 .5 ") (lit "THI=0.3") eq_refl).
    vm_compute. intros H. repeat (apply elem_of_cons in H as [H|H]; [done|]).
    by apply elem_of_nil in H.
  - apply (proj2 (X11_keyword_value_ends_at_comma_or_column_92
                    "T"%char (lit "HI=") (lit "   10 20   OD= 4 .5 ,")
                    (lit "0.3")
                    ltac:(repeat (constructor; [done|]); constructor))).
    vm_compute. intros H. repeat (apply elem_of_cons in H as [H|H]; [done|]).
    by apply elem_of_nil in H.
Defined.

(** ** Cards of the geometry section *)

Lemma neg_index_snoc {A : Type} (l : list A) (x : A) :
  neg_index (l ++ [x]) 1 = Ok x.
Proof.
  unfold neg_index. rewrite length_app. cbn [length].
  destruct (Nat.leb_spec 1 (length l + 1)); [|lia].
  replace (length l + 1 - 1)%nat with (length l) by lia.
  by rewrite list_lookup_middle.
Qed.

Lemma neg_index_under {A : Type} (l : list A) (x : A) (k : nat) :
  (1 <= k)%nat -> neg_index (l ++ [x]) (S k) = neg_index l k.
Proof.
  intros Hk. unfold neg_index. rewrite length_app. cbn [length].
  destruct (Nat.leb_spec k (length l)).
  - destruct (Nat.leb_spec (S k) (length l + 1)); [|lia].
    replace (length l + 1 - S k)%nat with (length l - k)%nat by lia.
    rewrite lookup_app_l by lia. done.
  - destruct (Nat.leb_spec (S k) (length l + 1)); [lia|done].
Qed.

Lemma neg_index_last {A : Type} (l : list A) (y : A) :
  last l = Some y -> neg_index l 1 = Ok y.
Proof.
  intros H. apply last_Some in H as [l' ->]. apply neg_index_snoc.
Qed.

Lemma set_parameter_last (old : list segment_entry) (a : str)
    (m : gmap str str) (key v : str) :
  set_parameter (old ++ [(a, m)]) 1 key v = Ok (old ++ [(a, <[key := v]> m)]).
Proof.
  unfold set_parameter. rewrite neg_index_snoc. cbn [mbind res_bind].
  unfold neg_assign. rewrite length_app. cbn [length].
  match goal with
  | |- context [(?x <=? ?y)%nat] => destruct (Nat.leb_spec x y); [|lia]
  end.
  rewrite insert_app_r_alt by lia.
  by replace (length old + 1 - 1 - length old)%nat with 0%nat by lia.
Qed.

Lemma set_parameter_before_last (old : list segment_entry) (a : str)
    (m : gmap str str) (e : segment_entry) (key v : str) :
  set_parameter (old ++ [(a, m); e]) 2 key v
  = Ok (old ++ [(a, <[key := v]> m); e]).
Proof.
  unfold set_parameter.
  change (old ++ [(a, m); e]) with (old ++ [(a, m)] ++ [e]).
  rewrite app_assoc, neg_index_under, neg_index_snoc by lia.
  cbn [mbind res_bind]. unfold neg_assign.
  rewrite <- app_assoc, length_app. cbn [length app].
  match goal with
  | |- context [(?x <=? ?y)%nat] => destruct (Nat.leb_spec x y); [|lia]
  end.
  unfold segment_entry in *. rewrite insert_app_r_alt by lia.
  by replace (length old + 2 - 2 - length old)%nat with 0%nat by lia.
Qed.

(** The keyword values of a card, written over an existing map. *)
Lemma card_parameters_over (line : str) (keywords : list str)
    (a m : gmap str str) :
  fold_left
    (fun m keyword =>
       if Py.contains keyword line
       then <[Py.slice_to (-1) keyword := keyword_value keyword line]> m
       else m)
    keywords (a ∪ m)
  = fold_left
      (fun m keyword =>
         if Py.contains keyword line
         then <[Py.slice_to (-1) keyword := keyword_value keyword line]> m
         else m)
      keywords a ∪ m.
Proof.
  revert a. induction keywords as [|kw keywords IH]; intros a; [done|].
  cbn [fold_left]. destruct (Py.contains kw line); [|apply IH].
  rewrite insert_union_l. apply IH.
Qed.

Lemma keyword_step_card (fs : option bool) (line : str)
    (l : list segment_entry) (kw : str) :
  Py.contains comment_key line = false ->
  keyword_step fs line l kw
  = if Py.contains kw line
    then match fs with
         | Some true =>
             set_parameter l 1 (Py.slice_to (-1) kw) (keyword_value kw line)
         | Some false =>
             l1 ← set_parameter l 2 (Py.slice_to (-1) kw) (keyword_value kw line);
             set_parameter l1 1 (Py.slice_to (-1) kw) (keyword_value kw line)
         | None => Ok l
         end
    else Ok l.
Proof.
  intros Hc. unfold keyword_step. rewrite Hc. cbn [negb].
  rewrite andb_true_r. destruct (Py.contains kw line); [|done].
  apply assign_parameter_without_inheritance.
Qed.

Lemma keyword_loop_first_single (line : str) (keywords : list str)
    (old : list segment_entry) (a : str) (m : gmap str str) :
  Py.contains comment_key line = false ->
  for_each (keyword_step (Some true) line) keywords (old ++ [(a, m)])
  = Ok (old ++ [(a,
      fold_left
        (fun m keyword =>
           if Py.contains keyword line
           then <[Py.slice_to (-1) keyword := keyword_value keyword line]> m
           else m)
        keywords m)]).
Proof.
  intros Hc. revert m. induction keywords as [|kw keywords IH]; intros m; [done|].
  cbn [for_each fold_left]. rewrite keyword_step_card by done.
  destruct (Py.contains kw line); cbn [mbind res_bind]; [|apply IH].
  rewrite set_parameter_last. cbn [mbind res_bind]. apply IH.
Qed.

Lemma keyword_loop_segment (line : str) (keywords : list str)
    (old : list segment_entry) (a b : str) (ma mb : gmap str str) :
  Py.contains comment_key line = false ->
  let over := fold_left
        (fun m keyword =>
           if Py.contains keyword line
           then <[Py.slice_to (-1) keyword := keyword_value keyword line]> m
           else m)
        keywords in
  for_each (keyword_step (Some false) line) keywords (old ++ [(a, ma); (b, mb)])
  = Ok (old ++ [(a, over ma); (b, over mb)]).
Proof.
  intros Hc. cbv zeta. revert ma mb.
  induction keywords as [|kw keywords IH]; intros ma mb; [done|].
  cbn [for_each fold_left]. rewrite keyword_step_card by done.
  destruct (Py.contains kw line); cbn [mbind res_bind]; [|apply IH].
  rewrite set_parameter_before_last. cbn [mbind res_bind].
  change (old ++ [(a, <[Py.slice_to (-1) kw:=keyword_value kw line]> ma); (b, mb)])
    with (old ++ [(a, <[Py.slice_to (-1) kw:=keyword_value kw line]> ma)] ++ [(b, mb)]).
  rewrite app_assoc, set_parameter_last, <- app_assoc.
  cbn [mbind res_bind]. apply IH.
Qed.

Lemma slice_split {A : Type} (a b c : Z) (s : list A) :
  0 <= a <= b -> b <= c ->
  Py.slice a c s = Py.slice a b s ++ Py.slice b c s.
Proof.
  intros Hab Hbc. unfold Py.slice, Py.adjust, Py.len.
  destruct (Z.ltb_spec a 0); [lia|].
  destruct (Z.ltb_spec b 0); [lia|].
  destruct (Z.ltb_spec c 0); [lia|].
  set (n := Z.of_nat (length s)).
  replace (drop (Z.to_nat (b `min` n)) s)
    with (drop (Z.to_nat (b `min` n - a `min` n)) (drop (Z.to_nat (a `min` n)) s)).
  2:{ rewrite drop_drop. f_equal. lia. }
  rewrite take_take_drop. f_equal. lia.
Qed.

Lemma replace_spaces_nil (x : str) :
  Py.replace " " [] x = [] -> Py.strip x = [].
Proof.
  intros H. assert (Hl : Py.lstrip x = []).
  { induction x as [|c x IH]; [done|].
    unfold Py.replace in H. cbn [flat_map] in H.
    destruct (decide (c = " "%char)) as [->|]; [|done].
    cbn [app] in H. cbn. by apply IH. }
  unfold Py.strip. by rewrite Hl.
Qed.

Lemma card_named_not_blank (line : str) :
  card_from line <> [] \/ card_to line <> [] -> card_blank line = false.
Proof.
  intros H. unfold card_blank. apply bool_decide_eq_false_2. intros E.
  rewrite (slice_split 13 16 19), replace_app in E by lia.
  apply app_eq_nil in E as [E1 E2].
  apply replace_spaces_nil in E1, E2. unfold card_from, card_to in H.
  destruct H as [H|H]; by apply H.
Qed.

Lemma present_count (f t : str) :
  length (List.filter (fun i => bool_decide (i <> [])) [f; t])
  = ((match f with [] => 0 | _ => 1 end)
     + (match t with [] => 0 | _ => 1 end))%nat.
Proof. by destruct f, t. Qed.

(** A card that names a pair other than the previous one: what is left of
    [endpoints_step] is the three-way choice on the number of node fields. *)
Lemma endpoints_step_new (g : geom_state) (line : str) (p : endpoints) :
  card_blank line = false ->
  Py.contains comment_key line = false ->
  previous_endpoints g = Some p ->
  p <> EpPair (card_from line) (card_to line) ->
  endpoints_step g line
  = let all := segment_all_endpoints_list g
                 ++ [EpPair (card_from line) (card_to line)] in
    let present :=
      length (List.filter (fun i => bool_decide (i <> []))
                [card_from line; card_to line]) in
    if (present =? 1)%nat
       && bool_decide (first_single_node_in_this_line g = None)
    then
      Ok {| parsing_raw_geometry := parsing_raw_geometry g;
            first_single_node_in_this_line := Some true;
            segment_all_endpoints_list := <[0%nat := EpStr (card_to line)]> all;
            raw_segment_parameter_list :=
              raw_segment_parameter_list g ++ [(card_to line, ∅)] |}
    else if (present =? 1)%nat then
      last ← neg_index (raw_segment_parameter_list g) 1;
      Ok {| parsing_raw_geometry := parsing_raw_geometry g;
            first_single_node_in_this_line := Some false;
            segment_all_endpoints_list := all;
            raw_segment_parameter_list :=
              raw_segment_parameter_list g
                ++ [(last.1, ∅); (card_to line, ∅)] |}
    else
      Ok {| parsing_raw_geometry := parsing_raw_geometry g;
            first_single_node_in_this_line := Some false;
            segment_all_endpoints_list := all;
            raw_segment_parameter_list :=
              raw_segment_parameter_list g
                ++ [(card_from line, ∅); (card_to line, ∅)] |}.
Proof.
  intros Hb Hc Hp Hne. unfold endpoints_step.
  unfold card_blank in Hb. apply bool_decide_eq_false in Hb.
  rewrite (bool_decide_eq_true_2 _ Hb), Hc. cbn [negb andb].
  fold (card_from line) (card_to line). cbv zeta.
  rewrite neg_index_snoc. cbn [mbind res_bind].
  rewrite neg_index_under by lia.
  rewrite (neg_index_last _ _ Hp). cbn [mbind res_bind].
  rewrite bool_decide_eq_true_2 by congruence. done.
Qed.

(** A line of the section that names no pair, or the previous one again:
    nothing is appended. *)
Lemma endpoints_step_same (g : geom_state) (line : str) :
  Py.contains comment_key line = false ->
  card_blank line = true
  \/ previous_endpoints g = Some (EpPair (card_from line) (card_to line)) ->
  exists g1,
    endpoints_step g line = Ok g1
    /\ raw_segment_parameter_list g1 = raw_segment_parameter_list g
    /\ first_single_node_in_this_line g1 = first_single_node_in_this_line g.
Proof.
  intros Hc H. unfold endpoints_step. rewrite Hc. cbn [negb].
  rewrite andb_true_r. fold (card_from line) (card_to line).
  destruct (bool_decide (Py.replace " " [] (Py.slice 13 19 line) <> [])) eqn:Hb.
  2:{ by exists g. }
  destruct H as [H|H].
  { unfold card_blank in H. apply bool_decide_eq_true in H.
    apply bool_decide_eq_true in Hb. done. }
  cbv zeta. rewrite neg_index_snoc. cbn [mbind res_bind].
  rewrite neg_index_under by lia.
  rewrite (neg_index_last _ _ H). cbn [mbind res_bind].
  rewrite bool_decide_eq_false_2 by (intros E; by apply E).
  by eexists.
Qed.

Lemma card_step (g g1 : geom_state) (l : list segment_entry) (line : str) :
  parsing_raw_geometry g = true -> ends_geometry line = false ->
  endpoints_step g line = Ok g1 ->
  for_each (keyword_step (first_single_node_in_this_line g1) line)
    nozzle_analysis_keyword_list (raw_segment_parameter_list g1) = Ok l ->
  exists g',
    geometry_step g line = Ok g'
    /\ raw_segment_parameter_list g' = l
    /\ first_single_node_in_this_line g' = first_single_node_in_this_line g1
    /\ segment_all_endpoints_list g' = segment_all_endpoints_list g1.
Proof.
  intros Hp He H1 H2. unfold geometry_step. unfold ends_geometry in He.
  rewrite Hp, He, H1. cbn [mbind res_bind]. rewrite H2. cbn [mbind res_bind].
  destruct (Py.contains input_card_start_keyword line); by eexists.
Qed.

Lemma card_after_file (before : list str) (line : str) (st : raw_state)
    (g1 : geom_state) (l : list segment_entry) :
  parse_raw_data before = Ok st ->
  parsing_raw_geometry (raw_geometry st) = true ->
  ends_geometry line = false ->
  endpoints_step (raw_geometry st) line = Ok g1 ->
  for_each (keyword_step (first_single_node_in_this_line g1) line)
    nozzle_analysis_keyword_list (raw_segment_parameter_list g1) = Ok l ->
  exists st',
    parse_raw_data (before ++ [line]) = Ok st'
    /\ raw_segment_parameter_list (raw_geometry st') = l.
Proof.
  intros Hst Hp He H1 H2.
  destruct (parse_raw_data_step before line) as (st0 & st' & H0 & H' & _ & Hs).
  rewrite Hst in H0. injection H0 as <-.
  apply raw_step_components in Hs as (_ & _ & _ & Hs).
  destruct (card_step _ _ _ _ Hp He H1 H2) as (g' & Hg' & Hl & _).
  rewrite Hs in Hg'. injection Hg' as <-. by exists st'.
Qed.

Lemma state_inv_after_file (lines : list str) (st : raw_state) :
  parse_raw_data lines = Ok st -> raw_inv st.
Proof.
  intros H. destruct (parse_raw_data_total lines) as (st0 & H0 & Hinv).
  rewrite H in H0. by injection H0 as <-.
Qed.

Lemma previous_endpoints_some (g : geom_state) :
  geom_inv g -> exists p, previous_endpoints g = Some p.
Proof.
  intros [H _]. unfold previous_endpoints.
  destruct (segment_all_endpoints_list g) as [|x l] using rev_ind.
  - simpl in H. lia.
  - exists x. by rewrite last_snoc.
Qed.

(** X12.  In the geometry section, a card that names two nodes, other than
    the pair of the previous card, appends one entry per node, in the order
    FROM, TO; both entries carry exactly the keyword values of the card. *)
Theorem X12_two_node_card_appends_a_segment
    (before : list str) (line : str) (st : raw_state) :
  parse_raw_data before = Ok st ->
  parsing_raw_geometry (raw_geometry st) = true ->
  ends_geometry line = false ->
  Py.contains comment_key line = false ->
  card_from line <> [] -> card_to line <> [] ->
  previous_endpoints (raw_geometry st)
    <> Some (EpPair (card_from line) (card_to line)) ->
  exists st',
    parse_raw_data (before ++ [line]) = Ok st'
    /\ raw_segment_parameter_list (raw_geometry st')
       = raw_segment_parameter_list (raw_geometry st)
           ++ [(card_from line, card_parameters line);
               (card_to line, card_parameters line)].
Proof.
  intros Hst Hp He Hc Hf Ht Hprev.
  destruct (state_inv_after_file _ _ Hst) as [_ Hinv].
  destruct (previous_endpoints_some _ Hinv) as [p Hlast].
  eapply card_after_file; [exact Hst | exact Hp | exact He | |].
  - rewrite (endpoints_step_new _ _ p); [|by apply card_named_not_blank; left
                                          |done|done|congruence].
    cbv zeta. rewrite present_count.
    assert (Hn : ((match card_from line with [] => 0 | _ => 1 end)
                  + (match card_to line with [] => 0 | _ => 1 end) = 2)%nat)
      by (destruct (card_from line), (card_to line); done).
    rewrite Hn. cbn [Nat.eqb andb]. reflexivity.
  - cbn [first_single_node_in_this_line raw_segment_parameter_list].
    by rewrite keyword_loop_segment.
Qed.

(** X12 on the first card of a section. *)
Lemma X12_two_node_card_witness :
  exists st',
    parse_raw_data
      ([lit "  INPUT CARD IMAGES"]
         ++ [lit "              10 20   OD=4.5,THI=0.3,"]) = Ok st'
    /\ map (fun e => (e.1, e.2 !! lit "OD", e.2 !! lit "THI"))
         (raw_segment_parameter_list (raw_geometry st'))
       = [(lit "10", Some (lit "4.5"), Some (lit "0.3"));
          (lit "20", Some (lit "4.5"), Some (lit "0.3"))].
Proof.
  destruct (X12_two_node_card_appends_a_segment
              [lit "  INPUT CARD IMAGES"]
              (lit "              10 20   OD=4.5,THI=0.3,")
              {| raw_data_list := [lit "  INPUT CARD IMAGES"];
                 raw_boundaries := boundaries_init;
                 coversheet_parameter_dic := ∅;
                 raw_geometry :=
                   {| parsing_raw_geometry := true;
                      first_single_node_in_this_line := None;
                      segment_all_endpoints_list := [EpStr []];
                      raw_segment_parameter_list := [] |} |})
    as (st' & H1 & H2); try (vm_compute; done).
  exists st'. split; [exact H1|]. rewrite H2. vm_compute. reflexivity.
Defined.

Lemma keyword_loop_no_card (line : str) (keywords : list str)
    (l : list segment_entry) :
  for_each (keyword_step None line) keywords l = Ok l.
Proof.
  induction keywords as [|kw keywords IH]; [done|].
  cbn [for_each].
  assert (Hk : keyword_step None line l kw = Ok l).
  { unfold keyword_step. destruct (_ && _); [|done].
    by rewrite assign_parameter_without_inheritance. }
  rewrite Hk. exact IH.
Qed.

(** Until a card has named a node, the endpoint history holds only its
    placeholder and there are no entries. *)
Lemma geometry_step_fresh (g g' : geom_state) (line : str) :
  (first_single_node_in_this_line g = None ->
   segment_all_endpoints_list g = [EpStr []]
   /\ raw_segment_parameter_list g = []) ->
  geometry_step g line = Ok g' ->
  first_single_node_in_this_line g' = None ->
  segment_all_endpoints_list g' = [EpStr []]
  /\ raw_segment_parameter_list g' = [].
Proof.
  intros Hg. unfold geometry_step.
  destruct (parsing_raw_geometry g).
  2:{ cbn [mbind res_bind].
      destruct (Py.contains input_card_start_keyword line);
        intros [= <-]; exact Hg. }
  destruct (_ || _).
  { cbn [mbind res_bind].
    destruct (Py.contains input_card_start_keyword line);
      intros [= <-]; exact Hg. }
  destruct (endpoints_step g line) as [g1|] eqn:H1; [|done].
  cbn [mbind res_bind].
  destruct (for_each _ _ _) as [l|] eqn:H2; [|done]. cbn [mbind res_bind].
  intros H Hfs.
  assert (Hfs1 : first_single_node_in_this_line g1 = None)
    by (destruct (Py.contains input_card_start_keyword line);
        injection H as <-; exact Hfs).
  assert (Hfields : segment_all_endpoints_list g' = segment_all_endpoints_list g1
                    /\ raw_segment_parameter_list g' = l)
    by (destruct (Py.contains input_card_start_keyword line);
        injection H as <-; by split).
  destruct Hfields as [-> ->].
  rewrite Hfs1, keyword_loop_no_card in H2. injection H2 as <-.
  clear H. revert H1. unfold endpoints_step.
  destruct (_ && _).
  2:{ intros [= <-]. by apply Hg. }
  rewrite neg_index_snoc. cbn [mbind res_bind].
  rewrite neg_index_under by lia.
  destruct (first_single_node_in_this_line g) as [b|] eqn:Hb.
  - destruct (neg_index (segment_all_endpoints_list g) 1) as [p|];
      cbn [mbind res_bind]; [|done].
    destruct (bool_decide _).
    + destruct (_ && _); [intros [= <-]; done|].
      destruct (_ =? 1)%nat.
      * destruct (neg_index (raw_segment_parameter_list g) 1);
          cbn [mbind res_bind]; [|done].
        intros [= <-]. done.
      * intros [= <-]. done.
    + intros [= <-]. cbn in Hfs1. done.
  - destruct (Hg eq_refl) as [Hh Hl]. rewrite Hh.
    cbn [neg_index length Nat.leb lookup list_lookup Nat.sub mbind res_bind].
    rewrite bool_decide_eq_true_2 by done.
    destruct (_ && _); [intros [= <-]; done|].
    destruct (_ =? 1)%nat.
    + destruct (neg_index (raw_segment_parameter_list g) 1);
        cbn [mbind res_bind]; [|done].
      intros [= <-]. done.
    + intros [= <-]. done.
Qed.

Lemma fresh_after_file (lines : list str) (st : raw_state) :
  parse_raw_data lines = Ok st ->
  first_single_node_in_this_line (raw_geometry st) = None ->
  segment_all_endpoints_list (raw_geometry st) = [EpStr []]
  /\ raw_segment_parameter_list (raw_geometry st) = [].
Proof.
  revert lines st.
  apply (parse_raw_data_ind (fun _ st =>
    first_single_node_in_this_line (raw_geometry st) = None ->
    segment_all_endpoints_list (raw_geometry st) = [EpStr []]
    /\ raw_segment_parameter_list (raw_geometry st) = [])).
  - done.
  - intros before line st st' _ IH Hs.
    apply raw_step_components in Hs as (_ & _ & _ & Hs).
    by eapply geometry_step_fresh.
Qed.

(** X13.  The first card of the geometry data that names a single node
    creates a single entry, the first of the list.  Its id is what columns
    16-19 hold, also when the node was written in columns 13-16 (the id is
    then empty); it carries the keyword values of the card. *)
Theorem X13_first_one_node_card_makes_one_entry
    (before : list str) (line : str) (st : raw_state) :
  parse_raw_data before = Ok st ->
  parsing_raw_geometry (raw_geometry st) = true ->
  first_single_node_in_this_line (raw_geometry st) = None ->
  ends_geometry line = false ->
  Py.contains comment_key line = false ->
  (card_from line = [] /\ card_to line <> [])
  \/ (card_from line <> [] /\ card_to line = []) ->
  exists st',
    parse_raw_data (before ++ [line]) = Ok st'
    /\ raw_segment_parameter_list (raw_geometry st')
       = [(card_to line, card_parameters line)].
Proof.
  intros Hst Hp Hfs He Hc Hone.
  destruct (fresh_after_file _ _ Hst Hfs) as [Hh Hl].
  eapply card_after_file; [exact Hst | exact Hp | exact He | |].
  - rewrite (endpoints_step_new _ _ (EpStr []));
      [| apply card_named_not_blank; destruct Hone as [[_ ?]|[? _]]; auto
       | done | unfold previous_endpoints; by rewrite Hh | done].
    cbv zeta. rewrite present_count.
    assert (Hn : ((match card_from line with [] => 0 | _ => 1 end)
                  + (match card_to line with [] => 0 | _ => 1 end) = 1)%nat)
      by (destruct Hone as [[E N]|[N E]]; rewrite E;
          destruct (card_from line), (card_to line); done).
    rewrite Hn, Hfs. cbn [Nat.eqb andb]. rewrite bool_decide_eq_true_2 by done.
    reflexivity.
  - cbn [first_single_node_in_this_line raw_segment_parameter_list].
    rewrite Hl. by rewrite (keyword_loop_first_single line _ []).
Qed.

(** X13 on a card whose node is written in the FROM columns: the entry gets
    the empty id. *)
Lemma X13_first_one_node_card_witness :
  exists st',
    parse_raw_data
      ([lit "  INPUT CARD IMAGES"] ++ [lit "              10      OD=4.5,"])
    = Ok st'
    /\ map (fun e => (e.1, e.2 !! lit "OD"))
         (raw_segment_parameter_list (raw_geometry st'))
       = [(lit "", Some (lit "4.5"))].
Proof.
  destruct (X13_first_one_node_card_makes_one_entry
              [lit "  INPUT CARD IMAGES"]
              (lit "              10      OD=4.5,")
              {| raw_data_list := [lit "  INPUT CARD IMAGES"];
                 raw_boundaries := boundaries_init;
                 coversheet_parameter_dic := ∅;
                 raw_geometry :=
                   {| parsing_raw_geometry := true;
                      first_single_node_in_this_line := None;
                      segment_all_endpoints_list := [EpStr []];
                      raw_segment_parameter_list := [] |} |})
    as (st' & H1 & H2); try (vm_compute; done).
  - right. split; vm_compute; done.
  - exists st'. split; [exact H1|]. rewrite H2. vm_compute. reflexivity.
Defined.

(** X14.  A later card that names a single node appends a segment from the
    newest entry's node to the node in columns 16-19: two entries, the first
    repeating the id of the entry that was last, both with the keyword
    values of the card. *)
Theorem X14_later_one_node_card_continues_the_run
    (before : list str) (line : str) (st : raw_state) :
  parse_raw_data before = Ok st ->
  parsing_raw_geometry (raw_geometry st) = true ->
  first_single_node_in_this_line (raw_geometry st) <> None ->
  ends_geometry line = false ->
  Py.contains comment_key line = false ->
  (card_from line = [] /\ card_to line <> [])
  \/ (card_from line <> [] /\ card_to line = []) ->
  previous_endpoints (raw_geometry st)
    <> Some (EpPair (card_from line) (card_to line)) ->
  exists st' previous,
    parse_raw_data (before ++ [line]) = Ok st'
    /\ last (raw_segment_parameter_list (raw_geometry st)) = Some previous
    /\ raw_segment_parameter_list (raw_geometry st')
       = raw_segment_parameter_list (raw_geometry st)
           ++ [(previous.1, card_parameters line);
               (card_to line, card_parameters line)].
Proof.
  intros Hst Hp Hfs He Hc Hone Hprev.
  destruct (state_inv_after_file _ _ Hst) as [_ Hinv].
  destruct (previous_endpoints_some _ Hinv) as [p Hlast].
  assert (Hnonempty : exists old previous,
            raw_segment_parameter_list (raw_geometry st) = old ++ [previous]).
  { destruct Hinv as (_ & H1 & H2).
    destruct (raw_segment_parameter_list (raw_geometry st)) as [|x l]
      using rev_ind; [|by eauto].
    destruct (first_single_node_in_this_line (raw_geometry st)) as [[|]|];
      [specialize (H1 eq_refl) | specialize (H2 eq_refl) | done];
      simpl in *; lia. }
  destruct Hnonempty as (old & previous & Hold).
  cut (exists st',
    parse_raw_data (before ++ [line]) = Ok st'
    /\ raw_segment_parameter_list (raw_geometry st')
       = raw_segment_parameter_list (raw_geometry st)
           ++ [(previous.1, card_parameters line);
               (card_to line, card_parameters line)]).
  { intros (st' & H1 & H2). exists st', previous. split; [done|].
    split; [|done]. rewrite Hold. apply last_snoc. }
  eapply card_after_file; [exact Hst | exact Hp | exact He | |].
  - rewrite (endpoints_step_new _ _ p);
      [| apply card_named_not_blank; destruct Hone as [[_ ?]|[? _]]; auto
       | done | done | congruence].
    cbv zeta. rewrite present_count.
    assert (Hn : ((match card_from line with [] => 0 | _ => 1 end)
                  + (match card_to line with [] => 0 | _ => 1 end) = 1)%nat)
      by (destruct Hone as [[E N]|[N E]]; rewrite E;
          destruct (card_from line), (card_to line); done).
    rewrite Hn. cbn [Nat.eqb andb].
    rewrite bool_decide_eq_false_2 by done.
    rewrite Hold at 1. rewrite neg_index_snoc. cbn [mbind res_bind].
    reflexivity.
  - cbn [first_single_node_in_this_line raw_segment_parameter_list].
    by rewrite keyword_loop_segment.
Qed.

(** X14 after a two-node card: the run 10-20 is continued to 30. *)
Lemma X14_later_one_node_card_witness :
  exists st',
    parse_raw_data
      ([lit "  INPUT CARD IMAGES"; lit "              10 20   OD=4.5,"]
         ++ [lit "                 30   OD=6.625,"])
    = Ok st'
    /\ map (fun e => (e.1, e.2 !! lit "OD"))
         (raw_segment_parameter_list (raw_geometry st'))
       = [(lit "10", Some (lit "4.5")); (lit "20", Some (lit "4.5"));
          (lit "20", Some (lit "6.625")); (lit "30", Some (lit "6.625"))].
Proof.
  destruct (parse_raw_data_total
              [lit "  INPUT CARD IMAGES"; lit "              10 20   OD=4.5,"])
    as (st & Hst & _).
  pose proof Hst as Hv. vm_compute in Hv. injection Hv as Hv. subst st.
  destruct (X14_later_one_node_card_continues_the_run
              [lit "  INPUT CARD IMAGES"; lit "              10 20   OD=4.5,"]
              (lit "                 30   OD=6.625,") _ Hst)
    as (st' & previous & H1 & H2 & H3); try (vm_compute; done).
  - left. split; vm_compute; done.
  - exists st'. split; [exact H1|]. rewrite H3.
    vm_compute in H2. injection H2 as <-. vm_compute. reflexivity.
Defined.

(** X15.  After a segment, a line of the section that names no node, or
    repeats the pair of the previous card, appends nothing: its keyword
    values are written into the two newest entries, replacing the values
    they had for the same keywords and keeping the others. *)
Theorem X15_line_without_new_pair_updates_the_newest_segment
    (before : list str) (line : str) (st : raw_state)
    (old : list segment_entry) (a b : str) (ma mb : gmap str str) :
  parse_raw_data before = Ok st ->
  parsing_raw_geometry (raw_geometry st) = true ->
  first_single_node_in_this_line (raw_geometry st) = Some false ->
  ends_geometry line = false ->
  Py.contains comment_key line = false ->
  card_blank line = true
  \/ previous_endpoints (raw_geometry st)
     = Some (EpPair (card_from line) (card_to line)) ->
  raw_segment_parameter_list (raw_geometry st) = old ++ [(a, ma); (b, mb)] ->
  exists st',
    parse_raw_data (before ++ [line]) = Ok st'
    /\ raw_segment_parameter_list (raw_geometry st')
       = old ++ [(a, card_parameters line ∪ ma);
                 (b, card_parameters line ∪ mb)].
Proof.
  intros Hst Hp Hfs He Hc Hsame Hold.
  destruct (endpoints_step_same _ _ Hc Hsame) as (g1 & H1 & Hl & Hf).
  eapply card_after_file; [exact Hst | exact Hp | exact He | exact H1 |].
  rewrite Hl, Hf, Hfs, Hold. rewrite keyword_loop_segment by done.
  cbv zeta. unfold card_parameters.
  rewrite <- !card_parameters_over. by rewrite !(left_id_L ∅ (∪)).
Qed.

(** X15 on a continuation line that carries only a wall thickness and a new
    diameter. *)
Lemma X15_continuation_line_witness :
  exists st',
    parse_raw_data
      ([lit "  INPUT CARD IMAGES"; lit "              10 20   OD=4.5,"]
         ++ [lit "                      THI=0.3,OD=5,"])
    = Ok st'
    /\ map (fun e => (e.1, e.2 !! lit "OD", e.2 !! lit "THI"))
         (raw_segment_parameter_list (raw_geometry st'))
       = [(lit "10", Some (lit "5"), Some (lit "0.3"));
          (lit "20", Some (lit "5"), Some (lit "0.3"))].
Proof.
  destruct (parse_raw_data_total
              [lit "  INPUT CARD IMAGES"; lit "              10 20   OD=4.5,"])
    as (st & Hst & _).
  pose proof Hst as Hv. vm_compute in Hv. injection Hv as Hv. subst st.
  destruct (X15_line_without_new_pair_updates_the_newest_segment
              [lit "  INPUT CARD IMAGES"; lit "              10 20   OD=4.5,"]
              (lit "                      THI=0.3,OD=5,") _
              [] (lit "10") (lit "20")
              {[ lit "OD" := lit "4.5" ]} {[ lit "OD" := lit "4.5" ]} Hst)
    as (st' & H1 & H2); try (vm_compute; done).
  - left. vm_compute. done.
  - exists st'. split; [exact H1|]. rewrite H2. vm_compute. reflexivity.
Defined.

(** ** The load-case scan *)

Lemma lc_loop_app (max_blank_line_cnt : Z) (a b : list str) (st : lc_state) :
  lc_loop max_blank_line_cnt (a ++ b) st
  = match (lc_loop max_blank_line_cnt a st).2 with
    | [] => lc_loop max_blank_line_cnt b (lc_loop max_blank_line_cnt a st).1
    | unscanned => ((lc_loop max_blank_line_cnt a st).1, unscanned ++ b)
    end.
Proof.
  revert st. induction a as [|x a IH]; intros st; [done|].
  cbn [app lc_loop].
  destruct (max_blank_line_cnt <? no_loadcase_line_cnt st); [done|].
  apply IH.
Qed.

(** Lines without a declaration, met while the counter is running: the list
    stays as it is, whether or not the loop breaks among them. *)
Lemma lc_loop_gap_keeps_list (max_blank_line_cnt : Z) (gap rest : list str)
    (st : lc_state) :
  Forall (fun l => Py.contains load_case_keyword l = false) gap ->
  loading_loadcases st = true ->
  max_blank_line_cnt < no_loadcase_line_cnt st + Z.of_nat (length gap) ->
  load_case_list (lc_loop max_blank_line_cnt (gap ++ rest) st).1
  = load_case_list st.
Proof.
  intros Hgap. revert st. induction Hgap as [|x gap Hx Hgap IH]; intros st Hl Hc.
  - cbn [app]. destruct rest as [|r rest]; [done|]. cbn [lc_loop].
    destruct (Z.ltb_spec max_blank_line_cnt (no_loadcase_line_cnt st));
      [done|]. cbn [length] in Hc. lia.
  - cbn [app lc_loop].
    destruct (Z.ltb_spec max_blank_line_cnt (no_loadcase_line_cnt st));
      [done|].
    rewrite IH; unfold lc_body; rewrite Hx, Hl; cbn; [done|done|].
    cbn [length] in Hc. lia.
Qed.

(** Lines without a declaration that do not exhaust the allowance. *)
Lemma lc_loop_gap_continues (max_blank_line_cnt : Z) (gap rest : list str)
    (l : list str) (c : Z) :
  Forall (fun l => Py.contains load_case_keyword l = false) gap ->
  c + Z.of_nat (length gap) <= max_blank_line_cnt ->
  lc_loop max_blank_line_cnt (gap ++ rest)
    {| load_case_list := l; loading_loadcases := true;
       no_loadcase_line_cnt := c |}
  = lc_loop max_blank_line_cnt rest
      {| load_case_list := l; loading_loadcases := true;
         no_loadcase_line_cnt := c + Z.of_nat (length gap) |}.
Proof.
  intros Hgap. revert c. induction Hgap as [|x gap Hx Hgap IH]; intros c Hc.
  - cbn [app length]. by rewrite Z.add_0_r.
  - cbn [app lc_loop no_loadcase_line_cnt].
    destruct (Z.ltb_spec max_blank_line_cnt c); [cbn [length] in Hc; lia|].
    unfold lc_body. rewrite Hx. cbn.
    rewrite IH by (cbn [length] in Hc; lia).
    do 2 f_equal. cbn [length]. lia.
Qed.

(** X16.  Once a declaration is followed by more than [max_blank_line_cnt]
    lines without one, the scan is over: whatever comes after those lines,
    further declarations included, adds nothing to the load-case list. *)
Theorem X16_scan_stops_after_a_long_gap
    (max_blank_line_cnt : Z) (before gap rest : list str) (declaration : str) :
  Py.contains load_case_keyword declaration = true ->
  Forall (fun l => Py.contains load_case_keyword l = false) gap ->
  max_blank_line_cnt < Z.of_nat (length gap) ->
  parse_load_cases max_blank_line_cnt (before ++ declaration :: gap ++ rest)
  = parse_load_cases max_blank_line_cnt (before ++ [declaration]).
Proof.
  intros Hd Hgap Hlen. unfold parse_load_cases. rewrite !lc_loop_app.
  destruct (lc_loop max_blank_line_cnt before lc_init) as [st un].
  cbn [fst snd]. destruct un; [|done].
  cbn [lc_loop].
  destruct (max_blank_line_cnt <? no_loadcase_line_cnt st); [done|].
  rewrite lc_loop_gap_keeps_list; [done|done| |];
    unfold lc_body; rewrite Hd; cbn; [done|lia].
Qed.

(** X16 at a threshold of 1. *)
Lemma X16_long_gap_witness :
  parse_load_cases 1
    ([lit "x"] ++ lit "LDCASE=A(" :: [lit ""; lit ""]
       ++ [lit "LDCASE=B("; lit "LDCASE=C("])
  = [lit "A"].
Proof.
  rewrite (X16_scan_stops_after_a_long_gap 1 [lit "x"] [lit ""; lit ""]
             [lit "LDCASE=B("; lit "LDCASE=C("] (lit "LDCASE=A(")).
  - vm_compute. reflexivity.
  - vm_compute. reflexivity.
  - repeat (constructor; [vm_compute; reflexivity|]). constructor.
  - simpl. lia.
Defined.

(** X17.  While no run of lines without a declaration is longer than
    [max_blank_line_cnt], nothing is lost: the list holds the name of every
    declaration of the file, whatever their number, and the lines before the
    first declaration do not count. *)
Theorem X17_short_gaps_lose_no_declaration
    (max_blank_line_cnt : Z) (lead : list str)
    (blocks : list (str * list str)) :
  0 <= max_blank_line_cnt ->
  Forall (fun l => Py.contains load_case_keyword l = false) lead ->
  Forall (fun b =>
            Py.contains load_case_keyword b.1 = true
            /\ Forall (fun l => Py.contains load_case_keyword l = false) b.2
            /\ Z.of_nat (length b.2) <= max_blank_line_cnt) blocks ->
  parse_load_cases max_blank_line_cnt
    (lead ++ concat (map (fun b => b.1 :: b.2) blocks))
  = map (fun b => load_case_name b.1) blocks.
Proof.
  intros Hmax Hlead Hblocks. unfold parse_load_cases.
  rewrite lc_loop_app, lc_loop_no_declaration by done. cbn [fst snd].
  assert (H : forall st,
    no_loadcase_line_cnt st <= max_blank_line_cnt ->
    load_case_list
      (lc_loop max_blank_line_cnt
         (concat (map (fun b => b.1 :: b.2) blocks)) st).1
    = load_case_list st ++ map (fun b => load_case_name b.1) blocks).
  { induction Hblocks as [|[d gap] blocks (Hd & Hgap & Hlen) _ IH]; intros st Hc.
    - cbn. by rewrite app_nil_r.
    - cbn [map concat fst snd app lc_loop] in *.
      destruct (Z.ltb_spec max_blank_line_cnt (no_loadcase_line_cnt st));
        [lia|].
      unfold lc_body. rewrite Hd.
      rewrite lc_loop_gap_continues by (done || lia).
      rewrite IH by (cbn; lia). cbn. by rewrite <- app_assoc. }
  apply (H lc_init). cbn. lia.
Qed.

(** X17 at a threshold of 1, with gaps of one line. *)
Lemma X17_short_gaps_witness :
  parse_load_cases 1
    ([lit "x"; lit "y"; lit "z"]
       ++ concat (map (fun b : str * list str => b.1 :: b.2)
            [(lit "LDCASE=A(", [lit ""]); (lit "LDCASE=B(", [lit ""]);
             (lit "LDCASE=C(", [])]))
  = [lit "A"; lit "B"; lit "C"].
Proof.
  rewrite (X17_short_gaps_lose_no_declaration 1 [lit "x"; lit "y"; lit "z"]
             [(lit "LDCASE=A(", [lit ""]); (lit "LDCASE=B(", [lit ""]);
              (lit "LDCASE=C(", [])]).
  - vm_compute. reflexivity.
  - lia.
  - repeat (constructor; [vm_compute; reflexivity|]). constructor.
  - repeat (constructor;
            [split; [vm_compute; reflexivity|];
             split; [repeat (constructor; [vm_compute; reflexivity|]);
                     constructor
                    | simpl; lia]|]).
    constructor.
Defined.

Lemma find_at_present (c : ascii) (a s : str) (i : Z) :
  c ∈ a -> i <= Py.find_at i [c] (a ++ s) < i + Py.len a.
Proof.
  intros Hc. revert i. induction a as [|x a IH]; intros i.
  - by apply elem_of_nil in Hc.
  - cbn [app Py.find_at Py.startswith]. unfold Py.len. cbn [length].
    destruct (decide (c = x)) as [->|Hne]; [lia|].
    apply elem_of_cons in Hc as [Hc|Hc]; [done|].
    specialize (IH Hc (i + 1)). unfold Py.len in IH. lia.
Qed.

Lemma slice_backwards {A : Type} (a b : Z) (s : list A) :
  0 <= b <= a -> Py.slice a b s = [].
Proof.
  intros H. unfold Py.slice, Py.adjust.
  destruct (Z.ltb_spec a 0); [lia|]. destruct (Z.ltb_spec b 0); [lia|].
  match goal with
  | |- take ?n _ = [] => replace n with 0%nat by lia
  end. done.
Qed.

Lemma slice_tail_drop_last {A : Type} (x y : list A) :
  Py.slice (Py.len x) (-1) (x ++ y) = removelast y.
Proof.
  unfold Py.slice, Py.adjust, Py.len. rewrite length_app.
  destruct (Z.ltb_spec (Z.of_nat (length x)) 0) as [|_]; [lia|].
  change (-1 <? 0) with true. cbv iota.
  rewrite (Z.min_l (Z.of_nat (length x))) by lia.
  rewrite Nat2Z.id, drop_app_length, removelast_firstn_len.
  f_equal. lia.
Qed.

(** X18.  The name of a load case is the text between [LDCASE=] and the
    first opening parenthesis of the line, kept as it is written.  Without
    any parenthesis on the line, the name is the rest of the line less its
    last character; with a parenthesis before the keyword, it is empty. *)
Theorem X18_load_case_name_extraction (pre tail : str) :
  "L"%char ∉ pre ->
  let line := pre ++ load_case_keyword ++ tail in
  (forall name rest : str,
      tail = name ++ load_case_keyword_end ++ rest ->
      "("%char ∉ pre -> "("%char ∉ name ->
      load_case_name line = name)
  /\ ("("%char ∉ pre -> "("%char ∉ tail ->
      load_case_name line = removelast tail)
  /\ ("("%char ∈ pre -> load_case_name line = []).
Proof.
  intros Hpre line. unfold load_case_name, line.
  assert (HL : Forall (fun c => c <> "L"%char) pre)
    by (apply Forall_forall; intros c Hc ->; by apply Hpre).
  assert (Hfind : Py.find load_case_keyword (pre ++ load_case_keyword ++ tail)
                  = Py.len pre)
    by (by apply (find_first "L"%char (lit "DCASE="))).
  rewrite !Hfind, <- len_app. clear Hfind.
  assert (Hkw : "("%char ∉ load_case_keyword).
  { vm_compute. intros H.
    repeat (apply elem_of_cons in H as [H|H]; [done|]).
    by apply elem_of_nil in H. }
  split; [|split].
  - intros name rest -> Hp Hn.
    change load_case_keyword_end with ["("%char].
    rewrite !(app_assoc pre), !(app_assoc (pre ++ load_case_keyword)).
    rewrite (find_first "("%char [] _ rest).
    2:{ apply Forall_forall. intros c Hc ->.
        rewrite !elem_of_app in Hc. tauto. }
    rewrite (len_app (pre ++ load_case_keyword)).
    rewrite <- (app_assoc (pre ++ load_case_keyword)). apply slice_middle.
  - intros Hp Ht. change load_case_keyword_end with ["("%char].
    unfold Py.find. rewrite find_at_absent.
    2:{ apply Forall_forall. intros c Hc ->.
        rewrite !elem_of_app in Hc. tauto. }
    rewrite app_assoc. apply slice_tail_drop_last.
  - intros Hp. change load_case_keyword_end with ["("%char].
    apply slice_backwards.
    pose proof (find_at_present "("%char pre (load_case_keyword ++ tail) 0 Hp)
      as Hf.
    unfold Py.find. rewrite len_app. unfold Py.len in *. lia.
Qed.

(** X18 on a declaration as the solver prints it, on one without a
    parenthesis and on one that follows a parenthesis. *)
Lemma X18_load_case_name_witness :
  load_case_name (lit "  LDCASE=WTDW( 1 )") = lit "WTDW"
  /\ load_case_name (lit "  LDCASE=WTDW") = lit "WTD"
  /\ load_case_name (lit "(1) LDCASE=WTDW(") = lit "".
Proof.
  assert (Hin : forall (c : ascii) (s : str),
            forallb (fun x => negb (bool_decide (x = c))) s = true -> c ∉ s).
  { intros c s. induction s as [|x s IH]; intros H Hc.
    - by apply elem_of_nil in Hc.
    - cbn [forallb] in H. apply andb_true_iff in H as [H1 H2].
      apply elem_of_cons in Hc as [->|Hc]; [|by apply IH].
      by rewrite bool_decide_eq_true_2 in H1. }
  split; [|split].
  - apply (proj1 (X18_load_case_name_extraction (lit "  ") (lit "WTDW( 1 )")
                    ltac:(by apply Hin))
             (lit "WTDW") (lit " 1 )") eq_refl); by apply Hin.
  - apply (proj1 (proj2 (X18_load_case_name_extraction (lit "  ") (lit "WTDW")
                           ltac:(by apply Hin)))); by apply Hin.
  - apply (proj2 (proj2 (X18_load_case_name_extraction (lit "(1) ")
                           (lit "WTDW(") ltac:(by apply Hin)))).
    by left.
Defined.

(** ** The connectivity scan *)

Lemma conn_body_start (all : list str) (st : conn_state) (i : nat) (x : str) :
  Py.contains node_connectivity_keyword x = false ->
  node_connectivity_start_line (conn_body all st i x)
  = node_connectivity_start_line st.
Proof.
  intros Hx. unfold conn_body. cbn [node_connectivity_start_line].
  by rewrite Hx.
Qed.

(** The state after the first header and up to three lines that follow. *)
Lemma conn_after_header (all before gap : list str) (hdr : str) :
  Py.len before < 10 ^ 100 ->
  Forall (fun l => Py.contains node_connectivity_keyword l = false) before ->
  Py.contains node_connectivity_keyword hdr = true ->
  (length gap <= 3)%nat ->
  Forall (fun l => Py.contains node_connectivity_keyword l = false) gap ->
  for_enumerate (conn_body all) 0 (before ++ hdr :: gap) conn_init
  = {| parse_data := false;
       node_connectivity_start_line := Z.of_nat (length before);
       node_connectivity_list := [] |}.
Proof.
  intros Hlen Hbefore Hhdr Hgap Hgapk.
  rewrite for_enumerate_app. cbn [for_enumerate].
  rewrite (conn_idle all before) by
    (try done; intros j Hj; cbn [conn_init node_connectivity_start_line];
     unfold Py.len in Hlen; lia).
  set (k := (0 + length before)%nat).
  assert (Hh : conn_body all conn_init k hdr
               = {| parse_data := false;
                    node_connectivity_start_line := Z.of_nat k;
                    node_connectivity_list := [] |}).
  { unfold conn_body, conn_init; cbn [parse_data node_connectivity_start_line
      node_connectivity_list]. rewrite Hhdr.
    destruct (Z.eqb_spec (Z.of_nat k) (Z.of_nat k + 4)) as [E|_]; [lia|].
    reflexivity. }
  rewrite Hh.
  rewrite (conn_idle all gap) by
    (try done; intros j Hj; cbn [node_connectivity_start_line]; lia).
  done.
Qed.

(** The iteration at line [start + 4] runs as if the flag were set. *)
Lemma conn_body_latch (all : list str) (start : Z) (edges : list (str * str))
    (i : nat) (x : str) :
  Py.contains node_connectivity_keyword x = false ->
  Z.of_nat i = start + 4 ->
  conn_body all {| parse_data := false;
                   node_connectivity_start_line := start;
                   node_connectivity_list := edges |} i x
  = conn_body all {| parse_data := true;
                     node_connectivity_start_line := start;
                     node_connectivity_list := edges |} i x.
Proof.
  intros Hx Hi. unfold conn_body;
    cbn [parse_data node_connectivity_start_line node_connectivity_list].
  rewrite Hx.
  by destruct (Z.eqb_spec (Z.of_nat i) (start + 4)) as [_|E].
Qed.

Lemma expected_edges_head (l post : list str) :
  match l ++ post with
  | y :: _ => Some y
  | [] => None
  end
  = match l ++ take 1 post with
    | y :: _ => Some y
    | [] => None
    end.
Proof. by destruct l, post. Qed.

(** With the flag on, rows without header or banner keep the flag and the
    header line, and yield the edges of their adjacent pairs, the pair of
    the last row and the line after it included. *)
Lemma conn_active_state (pre l post : list str) (st : conn_state) :
  parse_data st = true ->
  Forall (fun x => Py.contains connectivity_end_banner x = false) l ->
  Forall (fun x => Py.contains node_connectivity_keyword x = false) l ->
  for_enumerate (conn_body (pre ++ l ++ post)) (length pre) l st
  = {| parse_data := true;
       node_connectivity_start_line := node_connectivity_start_line st;
       node_connectivity_list :=
         node_connectivity_list st ++ expected_edges (l ++ take 1 post) |}.
Proof.
  intros Hpd Hb. revert pre st Hpd.
  induction Hb as [|x l Hx Hl IH]; intros pre st Hpd Hk.
  - cbn [for_enumerate app].
    replace (expected_edges (take 1 post)) with (@nil (str * str))
      by (by destruct post).
    rewrite app_nil_r. by destruct st; cbn in *; subst.
  - apply Forall_cons in Hk as [Hkx Hk]. cbn [for_enumerate].
    destruct (conn_body_active pre (l ++ post) x st Hpd Hx) as [Hpd' Hedges].
    cbn [app] in *.
    specialize (IH (pre ++ [x]) _ Hpd' Hk).
    rewrite <- app_assoc in IH. cbn [app] in IH.
    rewrite length_app in IH. cbn [length] in IH.
    rewrite Nat.add_1_r in IH.
    rewrite IH, Hedges, conn_body_start by done.
    f_equal. rewrite <- app_assoc. f_equal. cbn [expected_edges app].
    f_equal. pose proof (expected_edges_head l post) as Hh.
    destruct (l ++ post), (l ++ take 1 post); by simplify_eq.
Qed.

Lemma expected_edges_non_numeric_last (rows : list str) (b : str) :
  stress_columns_numeric b = false ->
  expected_edges (rows ++ [b]) = expected_edges rows.
Proof.
  intros Hb. induction rows as [|a rows IH]; [done|].
  cbn [app expected_edges]. rewrite IH. f_equal.
  destruct rows as [|a' rows]; [|done].
  cbn [app]. by rewrite Hb, andb_false_r.
Qed.

(** The iteration at the banner line: the pair test comes first, then the
    flag is cleared. *)
Lemma conn_body_banner (pre l : list str) (x : str) (st : conn_state) :
  parse_data st = true ->
  Py.contains connectivity_end_banner x = true ->
  Py.contains node_connectivity_keyword x = false ->
  conn_body (pre ++ x :: l) st (length pre) x
  = {| parse_data := false;
       node_connectivity_start_line := node_connectivity_start_line st;
       node_connectivity_list :=
         node_connectivity_list st ++ expected_edges (x :: take 1 l) |}.
Proof.
  intros Hpd Hb Hk. unfold conn_body.
  rewrite Hpd, Hb, Hk.
  replace (if Z.of_nat (length pre) =? _ then true else true) with true
    by (by destruct (_ =? _)).
  cbn [andb]. f_equal. destruct l as [|y l'].
  - replace (_ <? _) with false.
    2:{ symmetry. apply Z.ltb_ge. unfold Py.len.
        rewrite length_app. simpl. lia. }
    rewrite andb_false_r. cbn [andb take expected_edges app].
    by rewrite app_nil_r.
  - replace (_ <? _) with true.
    2:{ symmetry. apply Z.ltb_lt. unfold Py.len.
        rewrite length_app. simpl. lia. }
    rewrite andb_true_r.
    assert (Hy : (pre ++ x :: y :: l') !!! S (length pre) = y).
    { rewrite list_lookup_total_alt, lookup_app_r by lia.
      replace (S (length pre) - length pre)%nat with 1%nat by lia.
      reflexivity. }
    rewrite Hy. cbn [take expected_edges app]. rewrite !app_nil_r.
    destruct (stress_columns_numeric x && stress_columns_numeric y);
      [done | by rewrite app_nil_r].
Qed.

Lemma expected_edges_app_cons (l tl : list str) (b : str) :
  expected_edges (l ++ b :: tl)
  = expected_edges (l ++ [b]) ++ expected_edges (b :: tl).
Proof.
  induction l as [|a l IH]; [done|].
  cbn [app expected_edges]. rewrite IH, <- app_assoc. f_equal.
  by destruct l.
Qed.

(** C1 (amended).  The first connectivity header is at line [k] (the lines
    [before] it carry no header and [k] is below the initial start line
    [10**100]) and none of the lines [k+1] to [k+3] is a header.  Then the
    flag goes up at line [k+4], unless that line is a header too: no pair
    whose first row lies before line [k+4] gives an edge.  Without an end
    banner from line [k+4] on, the edges are exactly those of the adjacent
    numeric pairs among the lines from [k+4] on, in order of discovery,
    wherever in that range the rows start.  With the header the only one of
    the section and a banner from line [k+4] on, extraction stops at the
    first such banner: the edges are those of the adjacent numeric pairs
    among the lines from [k+4] to the banner line and the line after it,
    and the rows after that give none. *)
Theorem C1_parsing_latches_four_lines_after_header
    (before gap : list str) (hdr : str) :
  Py.len before < 10 ^ 100 ->
  Forall (fun l => Py.contains node_connectivity_keyword l = false) before ->
  Py.contains node_connectivity_keyword hdr = true ->
  length gap = 3%nat ->
  Forall (fun l => Py.contains node_connectivity_keyword l = false) gap ->
  (forall rest : list str,
      (forall l, head rest = Some l ->
         Py.contains node_connectivity_keyword l = false) ->
      Forall (fun l => Py.contains connectivity_end_banner l = false) rest ->
      connectivity_scan (before ++ hdr :: gap ++ rest) = expected_edges rest)
  /\ (forall (rows after : list str) (banner : str),
        Forall (fun l => Py.contains node_connectivity_keyword l = false)
          (rows ++ banner :: after) ->
        Forall (fun l => Py.contains connectivity_end_banner l = false) rows ->
        Py.contains connectivity_end_banner banner = true ->
        connectivity_scan (before ++ hdr :: gap ++ rows ++ banner :: after)
        = expected_edges (rows ++ banner :: take 1 after)).
Proof.
  intros Hlen Hbefore Hhdr Hgap Hgapk.
  set (pre := before ++ hdr :: gap).
  assert (Hpre : Z.of_nat (length pre) = Z.of_nat (length before) + 4)
    by (unfold pre; rewrite length_app; cbn [length]; lia).
  assert (Hprefix : forall all : list str,
    for_enumerate (conn_body all) 0 pre conn_init
    = {| parse_data := false;
         node_connectivity_start_line := Z.of_nat (length before);
         node_connectivity_list := [] |})
    by (intros all; unfold pre; apply conn_after_header; done || lia).
  assert (Hlatch : forall (all rest : list str),
    (forall l, head rest = Some l ->
       Py.contains node_connectivity_keyword l = false) ->
    node_connectivity_list
      (for_enumerate (conn_body all) (length pre) rest
         {| parse_data := false;
            node_connectivity_start_line := Z.of_nat (length before);
            node_connectivity_list := [] |})
    = node_connectivity_list
        (for_enumerate (conn_body all) (length pre) rest
           {| parse_data := true;
              node_connectivity_start_line := Z.of_nat (length before);
              node_connectivity_list := [] |})).
  { intros all rest Hfirst. destruct rest as [|x rest]; [done|].
    cbn [for_enumerate]. rewrite conn_body_latch; [done|by apply Hfirst|lia]. }
  split.
  - intros rest Hfirst Hbanner. unfold connectivity_scan.
    replace (before ++ hdr :: gap ++ rest) with (pre ++ rest)
      by (unfold pre; by rewrite <- app_assoc).
    rewrite for_enumerate_app, Hprefix. cbn [Nat.add].
    rewrite Hlatch by done. by rewrite conn_active.
  - intros rows after banner Hk Hrows Hb.
    apply Forall_app in Hk as [Hkrows Hk].
    apply Forall_cons in Hk as [Hkb Hkafter].
    unfold connectivity_scan.
    replace (before ++ hdr :: gap ++ rows ++ banner :: after)
      with (pre ++ rows ++ banner :: after)
      by (unfold pre; by rewrite <- app_assoc).
    rewrite for_enumerate_app, Hprefix. cbn [Nat.add].
    rewrite Hlatch.
    2:{ intros l Hl. destruct rows as [|r rows].
        - by injection Hl as <-.
        - injection Hl as <-. by apply Forall_cons in Hkrows as [? _]. }
    rewrite for_enumerate_app.
    rewrite conn_active_state by done.
    cbn [for_enumerate node_connectivity_start_line node_connectivity_list].
    rewrite (app_assoc pre rows).
    replace (length pre + length rows)%nat with (length (pre ++ rows))
      by (by rewrite length_app).
    rewrite conn_body_banner by done.
    cbn [node_connectivity_start_line node_connectivity_list].
    rewrite conn_idle; [|done|done|].
    2:{ intros j Hj. cbn [node_connectivity_start_line].
        rewrite length_app in Hj. lia. }
    cbn [node_connectivity_list app take].
    rewrite (expected_edges_app_cons rows (take 1 after) banner).
    by rewrite take_0.
Qed.

(** The amended C1 with the header at line 0: rows from line 4 on without a
    banner, and two rows, a banner and two more rows. *)
Lemma C1_latch_witness :
  connectivity_scan
    ([] ++ text_line "   NODE  FROM  TO"
        :: [text_line ""; text_line "----"; text_line ""]
        ++ [stress_row "10"; stress_row "20"; stress_row "30"])
  = [(lit "10", lit "20"); (lit "20", lit "30")]
  /\ connectivity_scan
       ([] ++ text_line "   NODE  FROM  TO"
           :: [text_line ""; text_line "----"; text_line ""]
           ++ [stress_row "10"; stress_row "20"]
           ++ text_line " PIPING STRESS SUMMARY CHECK AND COVER SHEET"
                :: [stress_row "30"; stress_row "40"])
     = [(lit "10", lit "20")].
Proof.
  destruct (C1_parsing_latches_four_lines_after_header []
              [text_line ""; text_line "----"; text_line ""]
              (text_line "   NODE  FROM  TO")) as [H1 H2].
  - vm_compute. reflexivity.
  - constructor.
  - vm_compute. reflexivity.
  - reflexivity.
  - repeat (constructor; [vm_compute; reflexivity|]). constructor.
  - split.
    + rewrite H1.
      * vm_compute. reflexivity.
      * intros l [= <-]. vm_compute. reflexivity.
      * repeat (constructor; [vm_compute; reflexivity|]). constructor.
    + rewrite H2.
      * vm_compute. reflexivity.
      * repeat (constructor; [vm_compute; reflexivity|]). constructor.
      * repeat (constructor; [vm_compute; reflexivity|]). constructor.
      * vm_compute. reflexivity.
Defined.

(** C1 as stated fails: with the header at line 0 and the rows starting at
    line 5 (lines 1 to 4 are not numeric), both pairs are extracted. *)
Lemma C1_rows_at_k_plus_5_counterexample :
  Py.contains node_connectivity_keyword (fixture_rows_at_5 !!! 0%nat) = true
  /\ (forall i : nat, (1 <= i <= 4)%nat ->
        stress_columns_numeric (fixture_rows_at_5 !!! i) = false)
  /\ stress_columns_numeric (fixture_rows_at_5 !!! 5%nat) = true
  /\ connectivity_scan fixture_rows_at_5
     = [(lit "10", lit "20"); (lit "20", lit "30")]
  /\ connectivity_scan fixture_rows_at_5 <> [].
Proof.
  split; [vm_compute; reflexivity|].
  split.
  { intros i Hi.
    assert (Hc : (i = 1 \/ i = 2 \/ i = 3 \/ i = 4)%nat) by lia.
    destruct Hc as [-> | [-> | [-> | ->]]]; vm_compute; reflexivity. }
  split; [vm_compute; reflexivity|].
  split; [vm_compute; reflexivity|].
  vm_compute. discriminate.
Qed.

(** X19.  Without a connectivity header in the stress section there are no
    edges, whatever the rows look like. *)
Theorem X19_no_header_no_edges (node_stress_list : list str) :
  Py.len node_stress_list < 10 ^ 100 ->
  Forall (fun l => Py.contains node_connectivity_keyword l = false)
    node_stress_list ->
  connectivity_scan node_stress_list = [].
Proof.
  intros Hlen Hl. unfold connectivity_scan.
  rewrite conn_idle; [done|done|done|].
  intros j Hj. cbn [conn_init node_connectivity_start_line].
  unfold Py.len in Hlen. lia.
Qed.

(** X19 on three rows that would pair up under a header. *)
Lemma X19_no_header_witness :
  connectivity_scan [stress_row "10"; stress_row "20"; stress_row "30"] = [].
Proof.
  apply X19_no_header_no_edges.
  - vm_compute. reflexivity.
  - repeat (constructor; [vm_compute; reflexivity|]). constructor.
Defined.

(** X20.  The end banner closes the extraction: the edges are those of the
    rows between the fourth line after the header and the banner, and rows
    after the banner give none. *)
Theorem X20_end_banner_stops_extraction
    (before gap rows rest : list str) (hdr banner : str) :
  Py.len before < 10 ^ 100 ->
  Forall (fun l => Py.contains node_connectivity_keyword l = false) before ->
  Py.contains node_connectivity_keyword hdr = true ->
  length gap = 3%nat ->
  Forall (fun l => Py.contains node_connectivity_keyword l = false)
    (gap ++ rows ++ banner :: rest) ->
  Forall (fun l => Py.contains connectivity_end_banner l = false) rows ->
  Py.contains connectivity_end_banner banner = true ->
  stress_columns_numeric banner = false ->
  connectivity_scan (before ++ hdr :: gap ++ rows ++ banner :: rest)
  = expected_edges rows.
Proof.
  intros Hlen Hbefore Hhdr Hgap Hk Hrows Hbanner Hnum.
  apply Forall_app in Hk as [Hkgap Hk]. apply Forall_app in Hk as [Hkrows Hk].
  apply Forall_cons in Hk as [Hkb Hkrest].
  unfold connectivity_scan.
  set (all := before ++ hdr :: gap ++ rows ++ banner :: rest).
  set (pre := before ++ hdr :: gap).
  assert (Hall : all = pre ++ rows ++ banner :: rest)
    by (unfold all, pre; by rewrite <- app_assoc).
  assert (Hpre : Z.of_nat (length pre) = Z.of_nat (length before) + 4)
    by (unfold pre; rewrite length_app; cbn [length]; lia).
  rewrite Hall at 2. rewrite for_enumerate_app.
  unfold pre at 2. rewrite conn_after_header by (done || lia).
  cbn [Nat.add].
  set (st1 := {| parse_data := true;
                 node_connectivity_start_line := Z.of_nat (length before);
                 node_connectivity_list := [] |}).
  assert (Hlatch :
    for_enumerate (conn_body all) (length pre) (rows ++ banner :: rest)
      {| parse_data := false;
         node_connectivity_start_line := Z.of_nat (length before);
         node_connectivity_list := [] |}
    = for_enumerate (conn_body all) (length pre) (rows ++ banner :: rest) st1).
  { destruct rows as [|r rows]; cbn [app for_enumerate];
      rewrite conn_body_latch; try done.
    by apply Forall_cons in Hkrows as [? _]. }
  rewrite Hlatch, for_enumerate_app. rewrite Hall at 2.
  rewrite conn_active_state by done. unfold st1.
  cbn [take app for_enumerate node_connectivity_start_line
       node_connectivity_list].
  rewrite expected_edges_non_numeric_last by done.
  set (st2 := {| parse_data := true;
                 node_connectivity_start_line := Z.of_nat (length before);
                 node_connectivity_list := expected_edges rows |}).
  assert (Hb : conn_body all st2 (length pre + length rows) banner
               = {| parse_data := false;
                    node_connectivity_start_line := Z.of_nat (length before);
                    node_connectivity_list := expected_edges rows |}).
  { unfold conn_body, st2;
      cbn [parse_data node_connectivity_start_line node_connectivity_list].
    rewrite Hkb, Hbanner, Hnum.
    by destruct (_ =? _). }
  rewrite Hb. rewrite conn_idle; [done|done|done|].
  intros j Hj. cbn [node_connectivity_start_line]. lia.
Qed.

(** X20 on a table of two rows, a banner, and two more rows. *)
Lemma X20_end_banner_witness :
  connectivity_scan
    ([] ++ lit "   NODE  FROM  TO" :: [lit ""; lit "----"; lit ""]
        ++ [stress_row "10"; stress_row "20"]
        ++ lit " PIPING STRESS SUMMARY CHECK AND COVER SHEET"
             :: [stress_row "30"; stress_row "40"])
  = [(lit "10", lit "20")].
Proof.
  rewrite (X20_end_banner_stops_extraction [] [lit ""; lit "----"; lit ""]
             [stress_row "10"; stress_row "20"]
             [stress_row "30"; stress_row "40"]
             (lit "   NODE  FROM  TO")
             (lit " PIPING STRESS SUMMARY CHECK AND COVER SHEET")).
  - vm_compute. reflexivity.
  - vm_compute. reflexivity.
  - constructor.
  - vm_compute. reflexivity.
  - reflexivity.
  - repeat (constructor; [vm_compute; reflexivity|]). constructor.
  - repeat (constructor; [vm_compute; reflexivity|]). constructor.
  - vm_compute. reflexivity.
  - vm_compute. reflexivity.
Defined.

(** ** The coordinate scan *)

Lemma for_each_app {St A : Type} (body : St -> A -> res St)
    (a b : list A) (st : St) :
  for_each body (a ++ b) st = st' ← for_each body a st; for_each body b st'.
Proof.
  revert st. induction a as [|x a IH]; intros st; [done|].
  cbn [app for_each]. destruct (body st x); cbn [mbind res_bind]; [|done].
  apply IH.
Qed.

Lemma replace_removes (c : ascii) (s : str) : c ∉ Py.replace c [] s.
Proof.
  induction s as [|x s IH]; [apply not_elem_of_nil|].
  unfold Py.replace. cbn [flat_map].
  destruct (decide (x = c)); [exact IH|].
  cbn [app]. intros H. apply elem_of_cons in H as [->|H]; [done|].
  by apply IH.
Qed.

Lemma coord_init_keys (load_case_list : list str) (k : str) :
  is_Some (geometry_dic (coord_init load_case_list) !! k)
  <-> k ∈ load_case_list.
Proof.
  cbn [coord_init geometry_dic].
  induction load_case_list as [|c l IH]; cbn [map list_to_map foldr].
  - rewrite lookup_empty. split; [by intros [? ?]|by intros ?%elem_of_nil].
  - rewrite lookup_insert_is_Some, elem_of_cons, IH.
    cbn [fst]. split.
    + intros [<-|[_ ?]]; [by left | by right].
    + intros [->|?]; [by left|].
      destruct (decide (c = k)); [by left | by right].
Qed.

Lemma coord_init_inv (load_case_list : list str) :
  coord_inv load_case_list (coord_init load_case_list).
Proof.
  split; [done|]. split; [apply coord_init_keys | constructor].
Qed.

Lemma coord_markers_current (load_case_list : list str) (st : coord_state)
    (line c : str) :
  (forall c, current_load_case st = Some c -> c ∈ load_case_list) ->
  (coord_markers load_case_list st line).2 = Some c -> c ∈ load_case_list.
Proof.
  intros Hst. unfold coord_markers.
  destruct (Py.contains data_echo_keyword line); cbn [andb]; [|by apply Hst].
  unfold Py.mem. destruct (bool_decide _) eqn:Hm; [|by apply Hst].
  cbn [snd]. intros [= <-]. by apply bool_decide_eq_true in Hm.
Qed.

Lemma geometry_append_ok (load_case_list : list str)
    (dic : gmap str (list coord_row)) (c : str) (row : coord_row) :
  (forall k, is_Some (dic !! k) <-> k ∈ load_case_list) ->
  c ∈ load_case_list ->
  exists dic',
    geometry_append dic (Some c) row = Ok dic'
    /\ (forall k, is_Some (dic' !! k) <-> k ∈ load_case_list).
Proof.
  intros Hdic Hc. unfold geometry_append.
  destruct (proj2 (Hdic c) Hc) as [rows Hrows]. rewrite Hrows.
  eexists. split; [reflexivity|].
  intros k. rewrite lookup_insert_is_Some, <- Hdic.
  destruct (decide (c = k)) as [<-|].
  - split; [by eauto | by left].
  - split; [by intros [?|[_ ?]] | by right].
Qed.

Lemma coord_body_ok (load_case_list : list str) (conn : list (str * str))
    (st : coord_state) (line : str) :
  conn <> [] -> coord_inv load_case_list st ->
  exists st',
    coord_body load_case_list conn st line = Ok st'
    /\ coord_inv load_case_list st'.
Proof.
  intros Hconn (Hcur & Hdic & Hreg). unfold coord_body.
  pose proof (coord_markers_current load_case_list st line) as Hm.
  destruct (coord_markers load_case_list st line) as [pd cur].
  cbn [snd] in Hm.
  destruct (pd && coordinate_columns_numeric line && bool_decide (cur <> None))
    eqn:Hq.
  2:{ eexists. split; [reflexivity|]. split; [|by split].
      intros c Hc. by apply Hm. }
  apply andb_true_iff in Hq as [_ Hq]. apply bool_decide_eq_true in Hq.
  destruct cur as [c|]; [|done].
  rewrite bool_decide_eq_false_2 by done.
  destruct (suffix_needed conn (node_id_raw line)).
  - destruct (geometry_append_ok load_case_list (geometry_dic st) c
                (node_id_raw line ++ disambiguation_suffix,
                 Py.slice 33 39 line, Py.slice 44 50 line, Py.slice 55 61 line)
                Hdic (Hm c Hcur eq_refl)) as (dic' & -> & Hdic').
    cbn [mbind res_bind]. eexists. split; [reflexivity|].
    split; [|by split]. intros c' [= <-]. by apply Hm.
  - cbv zeta.
    destruct (geometry_append_ok load_case_list (geometry_dic st) c
                (node_id_unsuffixed line,
                 Py.slice 33 39 line, Py.slice 44 50 line, Py.slice 55 61 line)
                Hdic (Hm c Hcur eq_refl)) as (dic' & -> & Hdic').
    cbn [mbind res_bind]. eexists. split; [reflexivity|].
    split; [|split; [done|]].
    + intros c' [= <-]. by apply Hm.
    + cbn [all_coordinate_id_list]. apply Forall_app. split; [done|].
      constructor; [apply replace_removes | constructor].
Qed.

(** X21.  With at least one edge, [parse_node_coordinates] raises on no
    input.  The tables it returns are keyed by declared load cases only and
    none of them is empty, and no id of the registry holds a space. *)
Theorem X21_coordinates_parse_with_edges
    (load_case_list : list str) (conn : list (str * str))
    (raw_data_list : list str) :
  conn <> [] ->
  exists tables registry,
    parse_node_coordinates load_case_list conn raw_data_list
    = Ok (tables, registry)
    /\ (forall k rows, tables !! k = Some rows ->
          k ∈ load_case_list /\ rows <> [])
    /\ Forall (fun id => " "%char ∉ id) registry.
Proof.
  intros Hconn. unfold parse_node_coordinates.
  destruct (for_each_inv (coord_body load_case_list conn)
              (coord_inv load_case_list)
              (fun st x => coord_body_ok load_case_list conn st x Hconn)
              raw_data_list (coord_init load_case_list)
              (coord_init_inv load_case_list))
    as (st & -> & _ & Hdic & Hreg).
  cbn [mbind res_bind]. eexists _, _. split; [reflexivity|].
  split; [|done]. intros k rows Hk.
  apply map_lookup_filter_Some in Hk as [Hk Hne]. split; [|exact Hne].
  apply Hdic. by eexists.
Qed.

(** X21 on a table of one row under a declared load case. *)
Lemma X21_coordinates_witness :
  exists tables registry,
    parse_node_coordinates [lit "WTDW"] [(lit "10", lit "20")]
      [lit "   NODE DATA   WTDW"; coordinate_line "10"]
    = Ok (tables, registry)
    /\ (forall k rows, tables !! k = Some rows ->
          k ∈ [lit "WTDW"] /\ rows <> [])
    /\ Forall (fun id => " "%char ∉ id) registry.
Proof.
  apply (X21_coordinates_parse_with_edges [lit "WTDW"] [(lit "10", lit "20")]
           [lit "   NODE DATA   WTDW"; coordinate_line "10"]).
  done.
Defined.

Lemma coord_body_quiet (load_case_list : list str) (conn : list (str * str))
    (st : coord_state) (line : str) :
  coordinate_columns_numeric line = false ->
  exists st', coord_body load_case_list conn st line = Ok st'.
Proof.
  intros Hn. unfold coord_body.
  destruct (coord_markers load_case_list st line) as [pd cur].
  rewrite Hn, andb_false_r. cbn [andb]. by eexists.
Qed.

Lemma coord_markers_open (load_case_list : list str) (st : coord_state)
    (line : str) :
  Py.contains data_echo_keyword line = true ->
  Py.strip (Py.slice 15 24 line) ∈ load_case_list ->
  Py.contains element_data_keyword line = false ->
  coord_markers load_case_list st line
  = (true, Some (Py.strip (Py.slice 15 24 line))).
Proof.
  intros Hk Hl He. unfold coord_markers. rewrite Hk, He.
  by rewrite (mem_true _ _ Hl).
Qed.

Lemma coord_markers_stay (load_case_list : list str) (st : coord_state)
    (line c : str) :
  coord_parse_data st = true -> current_load_case st = Some c ->
  Py.contains element_data_keyword line = false ->
  exists c', coord_markers load_case_list st line = (true, Some c').
Proof.
  intros Hp Hc He. unfold coord_markers. rewrite He, Hp, Hc.
  destruct (_ && _); by eexists.
Qed.

(** X22.  With no edge at all, the first coordinate row under an open
    [NODE DATA] table makes [parse_node_coordinates] raise [IndexError]: the
    empty edge array has no columns to look the id up in. *)
Theorem X22_coordinates_raise_without_edges
    (load_case_list before rest : list str) (header row : str) :
  Forall (fun l => coordinate_columns_numeric l = false) before ->
  Py.contains data_echo_keyword header = true ->
  Py.strip (Py.slice 15 24 header) ∈ load_case_list ->
  Py.contains element_data_keyword header = false ->
  coordinate_columns_numeric row = true ->
  Py.contains element_data_keyword row = false ->
  parse_node_coordinates load_case_list [] (before ++ header :: row :: rest)
  = Raise IndexError.
Proof.
  intros Hbefore Hk Hl He Hn Her. unfold parse_node_coordinates.
  rewrite for_each_app.
  assert (Hq : forall st, exists st',
            for_each (coord_body load_case_list []) before st = Ok st').
  { induction Hbefore as [|x before Hx _ IH]; intros st; [by eexists|].
    cbn [for_each].
    destruct (coord_body_quiet load_case_list [] st x Hx) as [st1 ->].
    cbn [mbind res_bind]. apply IH. }
  destruct (Hq (coord_init load_case_list)) as [st1 ->].
  cbn [mbind res_bind for_each].
  assert (Hh : coord_body load_case_list [] st1 header = Raise IndexError
               \/ exists st2 c,
                    coord_body load_case_list [] st1 header = Ok st2
                    /\ coord_parse_data st2 = true
                    /\ current_load_case st2 = Some c).
  { unfold coord_body. rewrite coord_markers_open by done.
    destruct (coordinate_columns_numeric header); cbn [andb].
    - left. by rewrite !bool_decide_eq_true_2.
    - right. by eexists _, _. }
  destruct Hh as [-> | (st2 & c & -> & Hp & Hc)]; cbn [mbind res_bind]; [done|].
  destruct (coord_markers_stay load_case_list st2 row c Hp Hc Her) as [c' Hm].
  unfold coord_body. rewrite Hm, Hn. cbn [andb].
  by rewrite !bool_decide_eq_true_2.
Qed.

(** X22 on the table of the witness of X21, read without edges. *)
Lemma X22_raise_witness :
  parse_node_coordinates [lit "WTDW"] []
    ([lit "title"] ++ lit "   NODE DATA   WTDW" :: coordinate_line "10" :: [])
  = Raise IndexError.
Proof.
  apply X22_coordinates_raise_without_edges.
  - repeat (constructor; [vm_compute; reflexivity|]). constructor.
  - vm_compute. reflexivity.
  - vm_compute. by left.
  - vm_compute. reflexivity.
  - vm_compute. reflexivity.
  - vm_compute. reflexivity.
Defined.

(** ** The stress table *)

Lemma stress_loop_spec (registry : list str) (lines : list str) (i : nat)
    (acc : list stress_record) :
  for_enumerate (stress_body registry) i lines acc
  = acc ++ map (sustained_stress_row registry)
             (List.filter stress_line_numeric lines).
Proof.
  revert i acc. induction lines as [|x lines IH]; intros i acc.
  - cbn. by rewrite app_nil_r.
  - cbn [for_enumerate List.filter]. rewrite IH. unfold stress_body.
    destruct (stress_line_numeric x); [|done].
    cbn [map]. by rewrite <- app_assoc.
Qed.

(** X23.  [parse_stresses] reads the lines from the last stress-analysis
    marker to the end of the file and returns one row per line that is
    longer than 130 characters and numeric in columns 18-130, in the order
    of the lines; lines before the marker give no row. *)
Theorem X23_stress_rows_follow_the_section
    (registry before after : list str) (l : str) :
  Py.contains stress_analysis_keyword l = true ->
  Forall (fun x => Py.contains stress_analysis_keyword x = false) after ->
  exists st,
    parse_raw_data (before ++ l :: after) = Ok st
    /\ parse_stresses st registry
       = Ok (map (sustained_stress_row registry)
               (List.filter stress_line_numeric (l :: after))).
Proof.
  intros Hl Hafter.
  destruct (parse_raw_data_total (before ++ l :: after)) as (st & Hst & _).
  pose proof (parse_raw_data_keeps_lines _ _ Hst) as Hlines.
  pose proof (stress_marker_last _ _ Hst before l after eq_refl Hl Hafter) as Hn.
  exists st. split; [done|].
  unfold parse_stresses. rewrite Hn, Hlines, slice_from_nat.
  by rewrite drop_app_length, stress_loop_spec.
Qed.

(** X23 on a section of three lines, one of them short; the id [20A] of the
    last line is not registered and gives way to [20]. *)
Lemma X23_stress_rows_witness :
  exists st,
    parse_raw_data
      ([stress_table_line "5"]
         ++ lit " ALL     STRESS ANALYSIS"
              :: [stress_table_line "10"; lit "short";
                  stress_table_line "20A"]) = Ok st
    /\ parse_stresses st [lit "10"; lit "20"]
       = Ok [(lit "10", lit "1250.", lit "15000.");
             (lit "20", lit "1250.", lit "15000.")].
Proof.
  destruct (X23_stress_rows_follow_the_section [lit "10"; lit "20"]
              [stress_table_line "5"]
              [stress_table_line "10"; lit "short"; stress_table_line "20A"]
              (lit " ALL     STRESS ANALYSIS"))
    as (st & H1 & H2).
  - vm_compute. reflexivity.
  - repeat (constructor; [vm_compute; reflexivity|]). constructor.
  - exists st. split; [exact H1|]. rewrite H2. vm_compute. reflexivity.
Defined.

Lemma reconciled_id_cases (registry : list str) (id : str) :
  (id ∈ registry /\ reconciled_id registry id = id)
  \/ ((id ∉ registry) /\ Py.slice_to (-1) id ∈ registry
      /\ reconciled_id registry id = Py.slice_to (-1) id)
  \/ ((id ∉ registry) /\ (Py.slice_to (-1) id ∉ registry)
      /\ reconciled_id registry id = id).
Proof.
  unfold reconciled_id, Py.mem.
  destruct (decide (id ∈ registry)) as [Hr|Hr].
  - left. by rewrite (bool_decide_eq_true_2 _ Hr).
  - right. rewrite (bool_decide_eq_false_2 _ Hr). cbn [negb andb].
    destruct (decide (Py.slice_to (-1) id ∈ registry)) as [Ht|Ht].
    + left. by rewrite (bool_decide_eq_true_2 _ Ht).
    + right. by rewrite (bool_decide_eq_false_2 _ Ht).
Qed.

(** X24.  The id stored for a stress row is the id of columns 0-7 or that id
    less its last character; it is registered exactly when one of the two
    is, and reconciling it again changes nothing. *)
Theorem X24_stress_id_reconciliation (registry : list str) (line : str) :
  let raw := Py.strip (Py.slice 0 7 line) in
  let stored := (sustained_stress_row registry line).1.1 in
  (stored = raw \/ stored = Py.slice_to (-1) raw)
  /\ (stored ∈ registry <-> raw ∈ registry \/ Py.slice_to (-1) raw ∈ registry)
  /\ reconciled_id registry stored = stored.
Proof.
  cbv zeta. cbn [sustained_stress_row fst].
  set (raw := Py.strip (Py.slice 0 7 line)).
  destruct (reconciled_id_cases registry raw)
    as [[Hr ->] | [(Hr & Ht & ->) | (Hr & Ht & ->)]].
  - split; [by left|]. split; [split; [by left | done]|].
    by destruct (reconciled_id_cases registry raw)
      as [[_ ->] | [(? & _) | (? & _)]].
  - split; [by right|]. split; [split; [by right | done]|].
    by destruct (reconciled_id_cases registry (Py.slice_to (-1) raw))
      as [[_ ->] | [(? & _) | (? & _)]].
  - split; [by left|]. split; [split; [done | by intros [?|?]]|].
    by destruct (reconciled_id_cases registry raw)
      as [[? _] | [(_ & ? & _) | (_ & _ & ->)]].
Qed.

(** X25.  On a file without the stress-analysis marker, [parse_stresses]
    raises [AttributeError]: the line number it slices with was never
    created. *)
Theorem X25_parse_stresses_needs_the_marker (registry lines : list str) :
  Forall (fun l => Py.contains stress_analysis_keyword l = false) lines ->
  exists st,
    parse_raw_data lines = Ok st
    /\ parse_stresses st registry = Raise AttributeError.
Proof.
  intros Hl.
  destruct (parse_raw_data_inv
              (fun l => Py.contains stress_analysis_keyword l = false)
              (fun b => stress_analysis_line_number b = None)
              lines) as (st & Hst & Hb); [| done | done |].
  - intros b i x Hx Hb. unfold boundaries_step; simpl. by rewrite Hx.
  - exists st. split; [done|]. unfold parse_stresses. by rewrite Hb.
Qed.

(** X25 on a file of two lines. *)
Lemma X25_needs_the_marker_witness :
  exists st,
    parse_raw_data [lit "   NODE DATA  WTDW"; lit " ELEMENT DATA"] = Ok st
    /\ parse_stresses st [lit "10"] = Raise AttributeError.
Proof.
  apply X25_parse_stresses_needs_the_marker.
  repeat (constructor; [vm_compute; reflexivity|]). constructor.
Defined.

(** ** The [THOR NODE] comments *)

Lemma free_of_spec (cs : list ascii) (s : str) (c : ascii) :
  free_of cs s = true -> c ∈ cs -> c ∉ s.
Proof.
  intros H Hc. induction s as [|x s IH]; [apply not_elem_of_nil|].
  cbn [free_of forallb] in H. apply andb_true_iff in H as [H1 H2].
  intros Hx. apply elem_of_cons in Hx as [->|Hx]; [|by apply IH].
  by rewrite bool_decide_eq_true_2 in H1.
Qed.

Lemma free_of_app (cs : list ascii) (a b : str) :
  free_of cs (a ++ b) = free_of cs a && free_of cs b.
Proof. apply forallb_app. Qed.

Lemma not_elem_Forall (c : ascii) (s : str) :
  c ∉ s -> Forall (fun x => x <> c) s.
Proof. intros H. apply Forall_forall. intros x Hx ->. by apply H. Qed.

Lemma py_split_absent (sep : ascii) (s : str) :
  sep ∉ s -> py_split sep s = [s].
Proof.
  induction s as [|x s IH]; intros H; [done|].
  cbn [py_split]. destruct (decide (x = sep)) as [->|_].
  - exfalso. apply H. by left.
  - rewrite IH; [done|]. intros Hs. apply H. by right.
Qed.

Lemma py_split_app (sep : ascii) (a b : str) :
  sep ∉ a -> py_split sep (a ++ sep :: b) = a :: py_split sep b.
Proof.
  induction a as [|x a IH]; intros H.
  - cbn [app py_split]. by destruct (decide (sep = sep)).
  - cbn [app py_split]. destruct (decide (x = sep)) as [->|_].
    + exfalso. apply H. by left.
    + rewrite IH; [done|]. intros Hs. apply H. by right.
Qed.

Lemma py_split_comma_separated (fragments : list str) :
  fragments <> [] ->
  Forall (fun f => ","%char ∉ f) fragments ->
  py_split "," (comma_separated fragments) = fragments.
Proof.
  intros Hne Hf. induction Hf as [|f fragments Hx Hf IH]; [done|].
  destruct fragments as [|g fragments].
  - cbn [comma_separated]. by apply py_split_absent.
  - change (comma_separated (f :: g :: fragments))
      with (f ++ ","%char :: comma_separated (g :: fragments)).
    rewrite py_split_app by done. by rewrite IH.
Qed.

Lemma contains_app (sub a b : str) : Py.contains sub (a ++ sub ++ b) = true.
Proof.
  unfold Py.contains, Py.find. apply Z.leb_le.
  assert (H : forall i, i <= Py.find_at i sub (a ++ sub ++ b)).
  { induction a as [|x a IH]; intros i.
    - cbn [app]. rewrite find_at_hit by apply startswith_app. lia.
    - cbn [app Py.find_at]. destruct (Py.startswith _ _); [lia|].
      specialize (IH (i + 1)). lia. }
  apply H.
Qed.

(** The dictionary built from well-formed [KEY=VALUE] fragments. *)
Lemma thor_parameter_dict_pairs (pairs : list (str * str)) :
  Forall (fun kv => ("="%char ∉ kv.1) /\ ("="%char ∉ kv.2)) pairs ->
  thor_parameter_dict
    (map (py_split "=") (map (fun kv => kv.1 ++ lit "=" ++ kv.2) pairs))
  = Ok (fold_left (fun d kv => <[Py.strip kv.1 := Py.strip kv.2]> d) pairs ∅).
Proof.
  unfold thor_parameter_dict. generalize (∅ : gmap str str).
  intros d Hp. revert d.
  induction Hp as [|[k v] pairs [Hk Hv] _ IH]; intros d; [done|].
  cbn [map for_each fold_left fst snd].
  change (k ++ lit "=" ++ v) with (k ++ "="%char :: v).
  rewrite py_split_app, py_split_absent by done.
  cbn [item lookup list_lookup mbind res_bind]. apply IH.
Qed.

(** A fragment without [=] makes the construction raise. *)
Lemma thor_parameter_dict_raises (fragments : list str) (f : str) :
  f ∈ fragments -> "="%char ∉ f ->
  thor_parameter_dict (map (py_split "=") fragments) = Raise IndexError.
Proof.
  unfold thor_parameter_dict. generalize (∅ : gmap str str).
  intros d Hin Hf. revert d.
  induction fragments as [|g fragments IH]; intros d.
  - by apply elem_of_nil in Hin.
  - cbn [map for_each].
    assert (Hstep : forall (i : list str) (d : gmap str str),
              (k ← item i 0; v ← item i 1; Ok (<[Py.strip k := Py.strip v]> d))
              = Raise IndexError
              \/ exists d', (k ← item i 0; v ← item i 1;
                             Ok (<[Py.strip k := Py.strip v]> d)) = Ok d').
    { intros i d0. unfold item.
      destruct (i !! 0%nat); cbn [mbind res_bind]; [|by left].
      destruct (i !! 1%nat); cbn [mbind res_bind]; [|by left].
      right. by eexists. }
    apply elem_of_cons in Hin as [<-|Hin].
    + rewrite py_split_absent by done.
      by cbn [item lookup list_lookup mbind res_bind].
    + destruct (Hstep (py_split "=" g) d) as [->|[d' ->]];
        cbn [mbind res_bind]; [done|]. by apply IH.
Qed.

Lemma free_of_weaken (c : ascii) (cs : list ascii) (s : str) :
  free_of cs s = true -> c ∈ cs -> free_of [c] s = true.
Proof.
  intros H Hc. induction s as [|x s IH]; [done|].
  unfold free_of in *. cbn [forallb] in *.
  apply andb_true_iff in H as [H1 H2].
  rewrite IH by done. rewrite andb_true_r.
  apply negb_true_iff, bool_decide_eq_false_2. intros Hx.
  apply list_elem_of_singleton in Hx as ->.
  by rewrite bool_decide_eq_true_2 in H1.
Qed.

Lemma free_of_one (c : ascii) (s : str) : free_of [c] s = true -> c ∉ s.
Proof. intros H. apply (free_of_spec [c]); [done | by left]. Qed.

Lemma free_of_comma_separated (c : ascii) (fragments : list str) :
  c <> ","%char ->
  Forall (fun f => free_of [c] f = true) fragments ->
  free_of [c] (comma_separated fragments) = true.
Proof.
  intros Hc Hf. induction Hf as [|f fragments Hx Hf IH]; [done|].
  destruct fragments as [|g fragments]; [done|].
  change (comma_separated (f :: g :: fragments))
    with (f ++ [","%char] ++ comma_separated (g :: fragments)).
  rewrite !free_of_app, Hx, IH. cbn [free_of forallb andb].
  rewrite bool_decide_eq_false_2; [done|].
  intros H. apply list_elem_of_singleton in H. congruence.
Qed.

(** A [THOR NODE] comment with its parameters in braces: the step comes down
    to the construction of the dictionary from the text after the node
    number. *)
Lemma thor_step_comment (st : thor_state) (lead mid n body post : str) :
  THOR_input_error st = false ->
  length lead = 14%nat ->
  free_of ["{"; "}"]%char (lead ++ mid) = true ->
  free_of [","; "}"]%char n = true ->
  free_of ["}"%char] body = true ->
  thor_step st
    (lead ++ lit "THOR NODE" ++ mid ++ lit "{" ++ lit "ME101 NODE NUMBER" ++ n
       ++ lit "," ++ body ++ lit "}" ++ post)
  = match thor_parameter_dict (map (py_split "=") (py_split "," body)) with
    | Ok d =>
        {| THOR_node_dic :=
             <[Py.strip (Py.replace "=" [] n) := d]> (THOR_node_dic st);
           THOR_input_error := false |}
    | Raise _ =>
        {| THOR_node_dic := THOR_node_dic st; THOR_input_error := true |}
    end.
Proof.
  intros Herr Hlead Hlm Hn Hbody_close.
  set (kw0 := lit "THOR NODE"). set (kw1 := lit "ME101 NODE NUMBER").
  set (content := kw1 ++ n ++ lit "," ++ body).
  set (p := lead ++ kw0 ++ mid).
  set (line := lead ++ kw0 ++ mid ++ lit "{" ++ kw1 ++ n ++ lit "," ++ body
                 ++ lit "}" ++ post).
  assert (Hline : line = (p ++ lit "{") ++ content ++ lit "}" ++ post).
  { unfold line, p, content. by rewrite <- !app_assoc. }
  (* the characters that must not occur *)
  assert (Hp_open : free_of ["{"%char] p = true).
  { unfold p. rewrite (app_assoc lead), free_of_app.
    assert (H : free_of ["{"%char] (lead ++ mid) = true)
      by (apply (free_of_weaken _ _ _ Hlm); by left).
    rewrite !free_of_app in *. apply andb_true_iff in H as [-> ->]. done. }
  assert (Hp_close : free_of ["}"%char] p = true).
  { unfold p. rewrite (app_assoc lead), free_of_app.
    assert (H : free_of ["}"%char] (lead ++ mid) = true)
      by (apply (free_of_weaken _ _ _ Hlm); by right; left).
    rewrite !free_of_app in *. apply andb_true_iff in H as [-> ->]. done. }
  assert (Hcontent : free_of ["}"%char] content = true).
  { unfold content. rewrite !free_of_app.
    rewrite (free_of_weaken "}"%char _ _ Hn) by (by right; left).
    by rewrite Hbody_close. }
  assert (Hn_comma : ","%char ∉ n)
    by (apply free_of_one, (free_of_weaken _ _ _ Hn); by left).
  (* the tests on the line *)
  assert (H0 : Py.slice 14 23 line = kw0).
  { unfold line. replace 14 with (Py.len lead) by (unfold Py.len; lia).
    replace 23 with (Py.len lead + Py.len kw0) by (unfold Py.len; cbn; lia).
    apply slice_middle. }
  assert (H1 : Py.contains kw1 line = true).
  { rewrite Hline. unfold content. rewrite <- (app_assoc kw1).
    apply contains_app. }
  (* the text in braces *)
  assert (Hopen : Py.find (lit "{") line = Py.len p).
  { rewrite Hline, <- !app_assoc.
    apply (find_first "{"%char [] p). by apply not_elem_Forall, free_of_one. }
  assert (Hclose : Py.find (lit "}") line = Py.len (p ++ lit "{") + Py.len content).
  { rewrite Hline, app_assoc, <- len_app.
    apply (find_first "}"%char [] ((p ++ lit "{") ++ content) post).
    apply not_elem_Forall, free_of_one.
    by rewrite !free_of_app, Hp_close, Hcontent. }
  assert (Hstr : Py.slice (Py.find (lit "{") line + 1) (Py.find (lit "}") line) line
                 = content).
  { rewrite Hopen, Hclose.
    replace (Py.len p + 1) with (Py.len (p ++ lit "{"))
      by (rewrite len_app; unfold Py.len; cbn; lia).
    rewrite Hline. apply slice_middle. }
  (* the node number and the fragments *)
  assert (Hstart : Py.find kw1 content = 0).
  { unfold Py.find, content. apply find_at_hit, startswith_app. }
  assert (Hrest : Py.slice_from (0 + Py.len kw1) content = n ++ lit "," ++ body).
  { unfold content. rewrite Z.add_0_l. apply slice_from_app. }
  assert (Hend : Py.find (lit ",") (n ++ lit "," ++ body) = Py.len n).
  { apply (find_first ","%char [] n). by apply not_elem_Forall. }
  assert (Hnum : Py.slice (0 + Py.len kw1) (Py.len n + (0 + Py.len kw1)) content
                 = n).
  { unfold content. rewrite Z.add_0_l, (Z.add_comm (Py.len n)).
    apply slice_middle. }
  assert (Hbody : Py.slice_from (Py.len n + (0 + Py.len kw1) + 1) content = body).
  { unfold content.
    replace (Py.len n + (0 + Py.len kw1) + 1)
      with (Py.len (kw1 ++ n ++ lit ","))
      by (rewrite !len_app; unfold Py.len; cbn; lia).
    replace (kw1 ++ n ++ lit "," ++ body)
      with ((kw1 ++ n ++ lit ",") ++ body) by (by rewrite <- !app_assoc).
    apply slice_from_app. }
  fold line.
  unfold thor_step. change (nth 0 THOR_parameter_list []) with kw0.
  change (nth 1 THOR_parameter_list []) with kw1.
  rewrite H0, H1, Herr, Hstr. rewrite bool_decide_eq_true_2 by done.
  cbn [negb andb]. by rewrite Hstart, Hrest, Hend, Hnum, Hbody.
Qed.

(** X26.  A well-formed [THOR NODE] comment is recorded as written: with the
    keyword in columns 14-23 and, in braces, [ME101 NODE NUMBER], the node
    number up to the first comma and then [KEY=VALUE] fragments separated by
    commas, the dictionary gets, under the node number, the map of the
    stripped keys to the stripped values (for a key given twice, the last
    value), and the error flag stays off. *)
Theorem X26_thor_comment_round_trip
    (st : thor_state) (lead mid n post : str) (pairs : list (str * str)) :
  THOR_input_error st = false ->
  length lead = 14%nat ->
  free_of ["{"; "}"]%char (lead ++ mid) = true ->
  free_of [","; "}"]%char n = true ->
  pairs <> [] ->
  Forall (fun kv => free_of [","; "="; "}"]%char (kv.1 ++ kv.2) = true) pairs ->
  thor_step st
    (lead ++ lit "THOR NODE" ++ mid ++ lit "{" ++ lit "ME101 NODE NUMBER" ++ n
       ++ lit ","
       ++ comma_separated (map (fun kv => kv.1 ++ lit "=" ++ kv.2) pairs)
       ++ lit "}" ++ post)
  = {| THOR_node_dic :=
         <[Py.strip (Py.replace "=" [] n) :=
             fold_left (fun d kv => <[Py.strip kv.1 := Py.strip kv.2]> d)
               pairs ∅]> (THOR_node_dic st);
       THOR_input_error := false |}.
Proof.
  intros Herr Hlead Hlm Hn Hne Hpairs.
  set (fragments := map (fun kv : str * str => kv.1 ++ lit "=" ++ kv.2) pairs).
  assert (Hfrag : forall c, c ∈ [","; "}"]%char ->
            Forall (fun f => free_of [c] f = true) fragments).
  { intros c Hc. unfold fragments. apply Forall_map.
    eapply Forall_impl; [exact Hpairs|]. intros [k v] H. cbn [fst snd] in *.
    assert (Hkv : free_of [c] (k ++ v) = true).
    { apply (free_of_weaken _ _ _ H).
      apply elem_of_cons in Hc as [->|Hc]; [by left|].
      apply list_elem_of_singleton in Hc as ->. by right; right; left. }
    rewrite free_of_app in Hkv. apply andb_true_iff in Hkv as [Hk Hv].
    rewrite !free_of_app, Hk, Hv.
    apply elem_of_cons in Hc as [->|Hc]; [done|].
    by apply list_elem_of_singleton in Hc as ->. }
  rewrite thor_step_comment; try done.
  2:{ apply free_of_comma_separated; [done|]. apply Hfrag. by right; left. }
  rewrite py_split_comma_separated.
  - unfold fragments. rewrite thor_parameter_dict_pairs; [done|].
    eapply Forall_impl; [exact Hpairs|]. intros [k v] H. cbn [fst snd] in *.
    assert (Hkv : free_of ["="%char] (k ++ v) = true)
      by (apply (free_of_weaken _ _ _ H); by right; left).
    rewrite free_of_app in Hkv. apply andb_true_iff in Hkv as [Hk Hv].
    split; by apply free_of_one.
  - unfold fragments. by destruct pairs.
  - eapply Forall_impl; [apply (Hfrag ","%char); by left|].
    intros f Hf. by apply free_of_one.
Qed.

(** X26 on a comment with two parameters. *)
Lemma X26_thor_comment_witness :
  THOR_node_dic
    (thor_step thor_init
       (lit "***           " ++ lit "THOR NODE" ++ lit " " ++ lit "{"
          ++ lit "ME101 NODE NUMBER" ++ lit " = 10" ++ lit ","
          ++ comma_separated
               (map (fun kv : str * str => kv.1 ++ lit "=" ++ kv.2)
                  [(lit "THOR NODE NUMBER", lit "T-1");
                   (lit " NODE ELEVATION ", lit " 12.5 ")])
          ++ lit "}" ++ lit ""))
    !! lit "10"
  = Some {[ lit "THOR NODE NUMBER" := lit "T-1";
            lit "NODE ELEVATION" := lit "12.5" ]}.
Proof.
  rewrite X26_thor_comment_round_trip.
  - vm_compute. reflexivity.
  - reflexivity.
  - reflexivity.
  - vm_compute. reflexivity.
  - vm_compute. reflexivity.
  - done.
  - repeat (constructor; [vm_compute; reflexivity|]). constructor.
Defined.

Lemma thor_step_after_error (st : thor_state) (line : str) :
  THOR_input_error st = true -> thor_step st line = st.
Proof.
  intros H. unfold thor_step. rewrite H. cbn [negb].
  rewrite andb_false_r. destruct st as [d e]. cbn in *. subst e.
  by destruct (bool_decide _).
Qed.

(** X27.  The error flag is final: once a [THOR NODE] comment has raised it,
    no later comment is recorded, however well-formed, and the flag is never
    taken back. *)
Theorem X27_thor_error_is_final (before after : list str) :
  THOR_input_error (thor_scan before) = true ->
  thor_scan (before ++ after) = thor_scan before.
Proof.
  intros H. unfold thor_scan in *. rewrite fold_left_app.
  generalize dependent (fold_left thor_step before thor_init).
  intros st Hst. induction after as [|x after IH]; [done|].
  cbn [fold_left]. by rewrite thor_step_after_error.
Qed.

(** X27 on a comment without node number followed by a well-formed one. *)
Lemma X27_thor_error_witness :
  thor_scan
    ([lit "***           THOR NODE {THOR NODE NUMBER=T-1}"]
       ++ [lit "***           THOR NODE {ME101 NODE NUMBER=10,ORIGIN=YES}"])
  = {| THOR_node_dic := ∅; THOR_input_error := true |}.
Proof.
  rewrite X27_thor_error_is_final.
  - vm_compute. reflexivity.
  - vm_compute. reflexivity.
Defined.

(** X28.  A [THOR NODE] comment that lacks [ME101 NODE NUMBER] raises the
    error flag, and so does one in which a fragment after the node number
    has no [=], or in which nothing follows the node number; none of them
    changes the dictionary. *)
Theorem X28_malformed_thor_comment_sets_the_flag
    (st : thor_state) (lead mid n post : str) (fragments : list str) :
  length lead = 14%nat ->
  (let line := lead ++ lit "THOR NODE" ++ post in
   Py.contains (lit "ME101 NODE NUMBER") line = false ->
   thor_step st line
   = {| THOR_node_dic := THOR_node_dic st; THOR_input_error := true |})
  /\ (free_of ["{"; "}"]%char (lead ++ mid) = true ->
      free_of [","; "}"]%char n = true ->
      Forall (fun f => free_of [","; "}"]%char f = true) fragments ->
      fragments = [] \/ (exists f, f ∈ fragments /\ "="%char ∉ f) ->
      thor_step st
        (lead ++ lit "THOR NODE" ++ mid ++ lit "{" ++ lit "ME101 NODE NUMBER"
           ++ n ++ lit "," ++ comma_separated fragments ++ lit "}" ++ post)
      = {| THOR_node_dic := THOR_node_dic st; THOR_input_error := true |}).
Proof.
  intros Hlead. split.
  - intros line Hk.
    assert (H0 : Py.slice 14 23 line = lit "THOR NODE").
    { unfold line. replace 14 with (Py.len lead) by (unfold Py.len; lia).
      replace 23 with (Py.len lead + Py.len (lit "THOR NODE"))
        by (unfold Py.len; cbn; lia).
      apply slice_middle. }
    unfold thor_step.
    change (nth 0 THOR_parameter_list []) with (lit "THOR NODE").
    change (nth 1 THOR_parameter_list []) with (lit "ME101 NODE NUMBER").
    rewrite H0, Hk. by rewrite bool_decide_eq_true_2.
  - intros Hlm Hn Hfrag Hbad.
    destruct (THOR_input_error st) eqn:Herr.
    { rewrite thor_step_after_error by done. destruct st; cbn in *; by subst. }
    rewrite thor_step_comment; try done.
    2:{ apply free_of_comma_separated; [done|].
        eapply Forall_impl; [exact Hfrag|]. intros f Hf.
        apply (free_of_weaken _ _ _ Hf). by right; left. }
    destruct Hbad as [->|(f & Hin & Hf)].
    + done.
    + rewrite py_split_comma_separated.
      * by rewrite (thor_parameter_dict_raises _ f).
      * intros ->. by apply elem_of_nil in Hin.
      * eapply Forall_impl; [exact Hfrag|]. intros g Hg.
        apply free_of_one, (free_of_weaken _ _ _ Hg). by left.
Qed.

(** X28 on a comment without node number and on one whose second fragment
    has no [=]. *)
Lemma X28_malformed_thor_witness :
  thor_step thor_init (lit "***           " ++ lit "THOR NODE" ++ lit " {ORIGIN=YES}")
  = {| THOR_node_dic := ∅; THOR_input_error := true |}
  /\ thor_step thor_init
       (lit "***           " ++ lit "THOR NODE" ++ lit " " ++ lit "{"
          ++ lit "ME101 NODE NUMBER" ++ lit "=10" ++ lit ","
          ++ comma_separated [lit "ORIGIN=YES"; lit "ELEVATION"]
          ++ lit "}" ++ lit " {ORIGIN=YES}")
     = {| THOR_node_dic := ∅; THOR_input_error := true |}.
Proof.
  destruct (X28_malformed_thor_comment_sets_the_flag thor_init
              (lit "***           ") (lit " ") (lit "=10") (lit " {ORIGIN=YES}")
              [lit "ORIGIN=YES"; lit "ELEVATION"] eq_refl) as [H1 H2].
  split.
  - apply H1. vm_compute. reflexivity.
  - apply H2.
    + vm_compute. reflexivity.
    + vm_compute. reflexivity.
    + repeat (constructor; [vm_compute; reflexivity|]). constructor.
    + right. exists (lit "ELEVATION"). split; [by right; left|].
      apply (free_of_one "="%char). vm_compute. reflexivity.
Defined.
